(** * The logging-and-learning core of [sysfail.py]

    A shallow embedding of the durable store ([load_json_robust],
    [save_json_robust]), of the class [SelfAwareChatbotStreamlit]
    ([__init__], [log_error], [add_feedback_to_log], [generate_response],
    [analyze_errors], [add_learned_knowledge], [clear_log_file_data],
    [reset_knowledge_data]) and of the page script below it, followed by
    the properties of the specification that concern them and by further
    properties of the code.

    Conventions of the embedding.
    - Python [str] is [string]; the text is taken to be ASCII, so that
      [str.lower] acts on the letters A to Z and [str.strip] removes the
      ASCII white space characters.
    - The files on disk are a finite map from file names to contents.
    - What the environment decides (whether a write or a rename succeeds,
      the clock, the random draws, the reply of the hosted model) is an
      explicit argument of the operation that consults it.
    - [self.learned_knowledge] is a dictionary of strings and
      [self.error_logs] a list of the dictionaries [log_error] builds; the
      [isinstance] guards of the class, which protect against a document of
      another shape on disk, are therefore true and do not appear.
    - A call returns a value or is left by an exception; the state it
      has reached by then is kept either way, as the stores of the
      instance and the files are shared objects.
    - [print], [st.error], [st.warning] and [traceback] change neither the
      stores nor the results and are left out; [st.toast] is modelled, as
      it raises on an icon that is no emoji. *)

From Stdlib Require Import Ascii String QArith Lqa.
From stdpp Require Import base gmap strings list pretty sorting.

Close Scope Q_scope.
Open Scope string_scope.

(** ** Python strings *)

Module Py.

Definition newline : string := String (ascii_of_nat 10) EmptyString.

(** Truth value of a string: [bool(s)] is [len(s) != 0]. *)
Definition truthy (s : string) : bool :=
  match s with
  | EmptyString => false
  | String _ _ => true
  end.

Definition lower_char (c : ascii) : ascii :=
  let n := nat_of_ascii c in
  if (65 <=? n)%nat && (n <=? 90)%nat then ascii_of_nat (n + 32) else c.

(** [s.lower()] *)
Fixpoint lower (s : string) : string :=
  match s with
  | EmptyString => EmptyString
  | String c r => String (lower_char c) (lower r)
  end.

(** [c.isspace()] on ASCII: tab, line feed, vertical tab, form feed,
    carriage return, the four separators 28 to 31, and the blank. *)
Definition is_space (c : ascii) : bool :=
  let n := nat_of_ascii c in
  ((9 <=? n)%nat && (n <=? 13)%nat)
  || ((28 <=? n)%nat && (n <=? 31)%nat)
  || (n =? 32)%nat.

Fixpoint lstrip (s : string) : string :=
  match s with
  | EmptyString => EmptyString
  | String c r => if is_space c then lstrip r else s
  end.

Fixpoint rstrip (s : string) : string :=
  match s with
  | EmptyString => EmptyString
  | String c r =>
      match rstrip r with
      | EmptyString => if is_space c then EmptyString else String c EmptyString
      | r' => String c r'
      end
  end.

(** [s.strip()] *)
Definition strip (s : string) : string := rstrip (lstrip s).

(** [sub in s] for two strings. *)
Fixpoint contains (sub s : string) : bool :=
  String.prefix sub s
  || match s with
     | EmptyString => false
     | String _ r => contains sub r
     end.

(** [s.startswith(p)] *)
Definition startswith (p s : string) : bool := String.prefix p s.

(** [sep.join(parts)] *)
Definition join (sep : string) (parts : list string) : string :=
  String.concat sep parts.

(** The first [n] characters of [s]. *)
Definition str_take (n : nat) (s : string) : string := String.substring 0 n s.

(** [x in l] for a list of strings. *)
Definition mem (x : string) (l : list string) : bool :=
  existsb (String.eqb x) l.

(** [random.choice(l)], the index being the draw. *)
Definition choice (draw : nat) (l : list string) : string :=
  nth (draw mod length l) l EmptyString.

(** [f"{q:.2f}"] for a confidence [q >= 0]: the nearest multiple of
    one hundredth, a tie going to the even one. *)
Definition round_half_even (q : Q) : Z :=
  let n := Qnum q in
  let d := Z.pos (Qden q) in
  let fl := (n / d)%Z in
  let r2 := (2 * (n mod d))%Z in
  if (r2 <? d)%Z then fl
  else if (d <? r2)%Z then (fl + 1)%Z
  else if Z.even fl then fl else (fl + 1)%Z.

Definition two_digits (z : Z) : string :=
  (if (z <? 10)%Z then "0" else EmptyString) ++ pretty z.

Definition format_2f (q : Q) : string :=
  let h := round_half_even (q * 100)%Q in
  pretty (h / 100)%Z ++ "." ++ two_digits (h mod 100)%Z.

End Py.

(** ** Exceptions and Streamlit's toast *)

(** The exception that leaves the functions of this file. *)
Inductive exception :=
| StreamlitAPIException.

(** How a call ends. *)
Inductive outcome (A : Type) :=
| Returns (value : A)
| Raises (e : exception).

Arguments Returns {A} value.
Arguments Raises {A} e.

(** A call followed by what is done with its value: an exception that
    leaves the call leaves the whole. *)
Definition and_then {A B : Type} (m : outcome A) (f : A → outcome B)
  : outcome B :=
  match m with
  | Returns value => f value
  | Raises e => Raises e
  end.

(** [st.toast(body, icon=...)] validates its icon before anything else
    and raises StreamlitAPIException when it is not an emoji of
    Streamlit's table. The table is not part of this repository; what is
    used of it is that no emoji holds a blank, a letter of ASCII or a
    letter of Latin-1 (the characters whose UTF-8 encoding starts with
    the byte 195). An icon is given by the bytes of its UTF-8 encoding.
    The icons this file passes each hold such a character: they are
    emoji read in a wrong encoding, or the text " N ". *)
Definition emoji_byte (c : ascii) : bool :=
  let n := nat_of_ascii c in
  negb ((n =? 32)%nat
        || ((65 <=? n)%nat && (n <=? 90)%nat)
        || ((97 <=? n)%nat && (n <=? 122)%nat)
        || (n =? 195)%nat).

Definition is_emoji (icon : string) : bool :=
  Py.truthy icon && forallb emoji_byte (list_ascii_of_string icon).

Definition st_toast (icon : string) : outcome unit :=
  if is_emoji icon then Returns tt else Raises StreamlitAPIException.

(** ** The durable store *)

(** How an attempt to write a file ends: [json.dump] ran to its end; or
    [open(filename, 'w')] raised, before the file was touched; or the file
    was opened, which empties it, and the write raised after [written]
    characters had reached it. *)
Inductive write_outcome :=
| WriteOk
| OpenFails
| WriteFails (written : nat).

(** How [os.rename] ends. *)
Inductive rename_outcome :=
| RenameOk
| RenameFails.

Section DurableStore.

Context {doc : Type}.

(** [json.dump(data, f, indent=4, ensure_ascii=False)] as the text it
    writes, and [json.load(f)] with [None] for [json.JSONDecodeError]. *)
Variable dumps : doc → string.
Variable loads : string → option doc.

Definition save_json_robust
    (w : write_outcome) (filename : string) (data : doc)
    (fs : gmap string string) : gmap string string * outcome bool :=
  match w with
  | WriteOk => (<[filename := dumps data]> fs, Returns true)
  | OpenFails => (fs, and_then (st_toast "‚ùå") (λ _, Returns false))
  | WriteFails written =>
      (<[filename := Py.str_take written (dumps data)]> fs,
       and_then (st_toast "‚ùå") (λ _, Returns false))
  end.

(** [os.rename(src, dst)]: on success [dst] holds what [src] held and
    [src] is gone. *)
Definition os_rename
    (r : rename_outcome) (src dst : string)
    (fs : gmap string string) : gmap string string :=
  match r, fs !! src with
  | RenameOk, Some bytes => <[dst := bytes]> (delete src fs)
  | _, _ => fs
  end.

(** [stamp] is [datetime.now().strftime('%Y%m%d%H%M%S')]. *)
Definition backup_filename (filename stamp : string) : string :=
  filename ++ ".bad_" ++ stamp.

(** [readable] is false when reading the file raises something else than
    a decode error (the last [except] clause). *)
Definition load_json_robust
    (w : write_outcome) (r : rename_outcome) (readable : bool)
    (stamp : string) (filename : string) (default_data : doc)
    (fs : gmap string string) : gmap string string * outcome doc :=
  match fs !! filename with
  | None =>
      let '(fs, saved) := save_json_robust w filename default_data fs in
      (fs, and_then saved (λ _, Returns default_data))
  | Some bytes =>
      if readable then
        match loads bytes with
        | Some data => (fs, Returns data)
        | None =>
            (os_rename r filename (backup_filename filename stamp) fs,
             Returns default_data)
        end
      else (fs, Returns default_data)
  end.

End DurableStore.

(** ** [collections.Counter] over strings

    A counter is a dictionary, so it keeps its keys in the order of their
    first insertion; [most_common] sorts by decreasing count and leaves
    keys of equal count in that order. *)

Module Counter.

Definition t := list (string * nat).

(** [c[k]] *)
Fixpoint get (k : string) (c : t) : nat :=
  match c with
  | [] => 0
  | (k', n) :: c' => if String.eqb k k' then n else get k c'
  end.

(** [c[k] += 1] *)
Fixpoint incr (k : string) (c : t) : t :=
  match c with
  | [] => [(k, 1)]
  | (k', n) :: c' =>
      if String.eqb k k' then (k', S n) :: c' else (k', n) :: incr k c'
  end.

Fixpoint insert_desc (x : string * nat) (sorted : t) : t :=
  match sorted with
  | [] => [x]
  | y :: rest =>
      if (x.2 <? y.2)%nat then y :: insert_desc x rest else x :: sorted
  end.

(** [list(c)]: the keys. *)
Definition keys (c : t) : list string := map fst c.

(** [c.most_common()]: [sorted(c.items(), key=itemgetter(1), reverse=True)] *)
Definition most_common (c : t) : t := foldr insert_desc [] c.

(** [c.most_common(n)] for [n > 1] *)
Definition most_common_n (n : nat) (c : t) : t := take n (most_common c).

(** [max(items, key=itemgetter(1))] started at [best]: the first item of
    the greatest count. *)
Fixpoint max_item (best : string * nat) (items : t) : string * nat :=
  match items with
  | [] => best
  | x :: rest => max_item (if (best.2 <? x.2)%nat then x else best) rest
  end.

(** [c.most_common(1)], which [heapq.nlargest] computes with [max]. *)
Definition most_common_1 (c : t) : t :=
  match c with
  | [] => []
  | x :: rest => [max_item x rest]
  end.

End Counter.

(** ** Configuration *)

Definition KNOWLEDGE_FILE : string := "knowledge_base_genai.json".
Definition LOG_FILE : string := "error_log_genai.json".

Definition DEFAULT_FALLBACK_RESPONSES : list string :=
  [ "I'm sorry, I encountered an issue or couldn't understand clearly. Could you please rephrase?";
    "Hmm, I'm having trouble with that request. Let's try something else.";
    "My apologies, I can't seem to process that right now." ].

Definition SIMULATED_FAILURE_RATE : Q := (10 # 100)%Q.

Definition REFUSAL_PHRASES : list string :=
  [ "i cannot"; "i am unable"; "i don't have information";
    "my apologies, but i"; "as an ai"; "i lack the ability" ].

Definition DEFAULT_KNOWLEDGE : gmap string string :=
  {[ "help" := "I'm an AI assistant powered by Google Gemini. Ask me anything! Use sidebar commands for error analysis and log management." ]}.

(** ** Data *)

(** The dictionary [log_error] appends, key by key. *)
Record log_entry := LogEntry {
  timestamp : string;
  user_input : string;
  bot_response : string;
  error_type : string;
  simulated_confidence : option string;
  genai_error_details : option string;
  feedback_provided : option string
}.

Definition set_feedback (feedback : option string) (e : log_entry) : log_entry :=
  {| timestamp := timestamp e;
     user_input := user_input e;
     bot_response := bot_response e;
     error_type := error_type e;
     simulated_confidence := simulated_confidence e;
     genai_error_details := genai_error_details e;
     feedback_provided := feedback |}.

(** The two documents the class keeps on disk. *)
Inductive document :=
| KnowledgeDoc (knowledge : gmap string string)
| LogDoc (logs : list log_entry).

(** The instance: its two file names and its two stores. *)
Record chatbot := Chatbot {
  knowledge_file : string;
  log_file : string;
  learned_knowledge : gmap string string;
  error_logs : list log_entry
}.

Definition with_logs (logs : list log_entry) (self : chatbot) : chatbot :=
  {| knowledge_file := knowledge_file self;
     log_file := log_file self;
     learned_knowledge := learned_knowledge self;
     error_logs := logs |}.

Definition with_knowledge (k : gmap string string) (self : chatbot) : chatbot :=
  {| knowledge_file := knowledge_file self;
     log_file := log_file self;
     learned_knowledge := k;
     error_logs := error_logs self |}.

(** The [genai_error] argument of [log_error]: [None], a text, or the
    exception that was caught (given by its [str]). *)
Inductive genai_error :=
| NoDetail
| Detail (s : string)
| Caught (msg : string).

(** [str(genai_error) if genai_error else None]; an exception object is
    true whatever its message. *)
Definition error_details (g : genai_error) : option string :=
  match g with
  | NoDetail => None
  | Detail s => if Py.truthy s then Some s else None
  | Caught msg => Some msg
  end.

(** What [genai_model.generate_content] hands back: the attributes the
    class looks at. [text = None] is an object without the attribute;
    [block_reason = None] is a reason that is unset (false). *)
Record prompt_feedback_t := PromptFeedback {
  block_reason : option string
}.

Record response := Response {
  text : option string;
  prompt_feedback : option prompt_feedback_t
}.

(** One call of the model: it raises, or returns an object, [None]
    standing for a return value that is false. *)
Inductive model_result :=
| ModelRaises (e : string)
| ModelReturns (r : option response).

Record message := Message {
  role : string;
  content : string
}.

(** The draws of [random] in one turn, one per call site:
    [random.choice] at the head of [generate_response], [random.random],
    the [random()] inside [random.uniform], and the later [random.choice]. *)
Record draws := Draws {
  pick_initial : nat;
  roll : Q;
  uniform_draw : Q;
  pick_fallback : nat
}.

(** [random.uniform(a, b)] is [a + (b - a) * random()]. *)
Definition uniform (a b u : Q) : Q := (a + (b - a) * u)%Q.

(** ** The class [SelfAwareChatbotStreamlit] *)

(** The locals of [generate_response] that the handling of one model call
    sets. *)
Record locals := Locals {
  bot_response_text : string;
  error_type_found : option string;
  sim_confidence : Q;
  genai_error_info : genai_error
}.

(** [any(phrase in text.lower() for phrase in REFUSAL_PHRASES)] *)
Definition is_refusal (reply : string) : bool :=
  existsb (fun phrase => Py.contains phrase (Py.lower reply)) REFUSAL_PHRASES.

(** The body of the [try] statement of [generate_response] from the
    result of [generate_content] on, with its [except] clause. *)
Definition process_response (rnd : draws) (result : model_result) : locals :=
  match result with
  | ModelReturns (Some {| text := Some reply |}) =>
      if is_refusal reply then
        Locals reply (Some "Refusal") (3 # 10) NoDetail
      else if Qlt_le_dec (roll rnd) SIMULATED_FAILURE_RATE then
        Locals (Py.choice (pick_fallback rnd) DEFAULT_FALLBACK_RESPONSES)
               (Some "Simulated Low Confidence")
               (uniform (1 # 10) (5 # 10) (uniform_draw rnd))
               NoDetail
      else
        Locals reply None 1 NoDetail
  | ModelReturns
      (Some {| text := None;
               prompt_feedback := Some {| block_reason := Some reason |} |}) =>
      Locals ("My response was blocked due to safety settings (" ++ reason
                ++ "). Please try phrasing differently.")
             (Some "Content Blocked") (1 # 10)
             (Detail ("Blocked due to " ++ reason))
  | ModelReturns _ =>
      Locals (Py.choice (pick_fallback rnd) DEFAULT_FALLBACK_RESPONSES)
             (Some "API Response Format Error") (2 # 10)
             (Detail "Unexpected GenAI response structure")
  | ModelRaises e =>
      Locals "I'm sorry, I encountered a technical difficulty trying to generate a response."
             (Some "API Error") 0 (Caught e)
  end.

(** The prompt built from the last five turns and the input. *)
Definition context_history (chat_history : list message) : list message :=
  map (fun msg =>
         Message (if String.eqb (role msg) "assistant" then "model" else role msg)
                 (content msg))
      (drop (length chat_history - 5) chat_history).

Definition prompt_for_genai (user_input : string) (chat_history : list message)
  : string :=
  Py.join Py.newline
    (map (fun msg => role msg ++ ": " ++ content msg)
         (context_history chat_history))
  ++ Py.newline ++ "user: " ++ user_input.

(** What one turn needs from outside: the configured model (if
    [genai_model] is a global at all), the draws, the clock and the fate
    of the write. *)
Record turn_env := TurnEnv {
  genai_model : option (string → model_result);
  rnd : draws;
  now : string;
  write : write_outcome
}.

(** The learnable categories and the categories whose inputs are
    tallied, as [analyze_errors] lists them. *)
Definition tallied_types : list string :=
  [ "Knowledge Gap"; "Refusal"; "Simulated Low Confidence"; "API Error";
    "Content Blocked"; "API Response Format Error" ].

Definition candidate_types_priority : list string :=
  [ "Refusal"; "Knowledge Gap" ].

Definition skip_markers : list string :=
  [ "skipped"; "skipped_empty"; "skipped_eof" ].

(** The three tallies the loop over the log keeps. *)
Record tallies := Tallies {
  error_counts : Counter.t;
  inputs_by_error_type : gmap string Counter.t;
  inputs_with_feedback : Counter.t
}.

Definition initial_tallies : tallies :=
  Tallies [] (list_to_map (map (fun e_type => (e_type, [])) tallied_types)) [].

(** [feedback and feedback not in [...] and not str(feedback).startswith("error:")] *)
Definition feedback_counts (feedback : option string) : bool :=
  match feedback with
  | None => false
  | Some f =>
      Py.truthy f && negb (Py.mem f skip_markers)
      && negb (Py.startswith "error:" f)
  end.

(** One round of the loop over the log. *)
Definition tally_log (t : tallies) (log : log_entry) : tallies :=
  let e_type := error_type log in
  let counts := Counter.incr e_type (error_counts t) in
  let user_input_clean := Py.strip (Py.lower (user_input log)) in
  if negb (Py.truthy user_input_clean) then
    Tallies counts (inputs_by_error_type t) (inputs_with_feedback t)
  else
    Tallies counts
      (match inputs_by_error_type t !! e_type with
       | Some c => <[e_type := Counter.incr user_input_clean c]>
                     (inputs_by_error_type t)
       | None => inputs_by_error_type t
       end)
      (if feedback_counts (feedback_provided log)
       then Counter.incr user_input_clean (inputs_with_feedback t)
       else inputs_with_feedback t).

(** The line of the report for the most frequent input of a category. *)
Definition most_frequent_line (e_type input : string) (count : nat) : string :=
  Py.newline ++ "Most frequent input for '" ++ e_type ++ "': '"
    ++ input ++ "' (" ++ pretty count ++ " times)".

(** The state of the loop over [candidate_types_priority]. *)
Record selection := Selection {
  analysis_output : list string;
  learning_candidate : option (string * string);
  highest_freq : nat
}.

Definition select_candidate (by_type : gmap string Counter.t)
    (s : selection) (e_type : string) : selection :=
  match by_type !! e_type with
  | Some c =>
      match Counter.most_common_1 c with
      | (top_input_str, top_input_count) :: _ =>
          let out :=
            app (analysis_output s)
              [ most_frequent_line e_type top_input_str top_input_count ] in
          if (highest_freq s <? top_input_count)%nat
          then Selection out (Some (e_type, top_input_str)) top_input_count
          else Selection out (learning_candidate s) (highest_freq s)
      | [] => s
      end
  | None => s
  end.

(** The lines of the report and the candidate. *)
Definition analyze_lines (logs : list log_entry) : selection :=
  let heading := [ "--- Analyzing Error Logs ---" ] in
  match logs with
  | [] =>
      Selection
        (app heading [ "No errors logged or logs are invalid.";
                       "--- Analysis Complete ---" ])
        None 1
  | _ =>
      let t := fold_left tally_log logs initial_tallies in
      let out := app heading [ "Error Type Summary:" ] in
      let out :=
        match error_counts t with
        | [] => app out [ " - No errors found in logs." ]
        | _ =>
            app out
              (map (fun '(e_type, count) =>
                      "- " ++ e_type ++ ": " ++ pretty count
                        ++ " occurrence(s)")
                   (Counter.most_common (error_counts t)))
        end in
      let s :=
        fold_left (select_candidate (inputs_by_error_type t))
                  candidate_types_priority (Selection out None 1) in
      let out :=
        match inputs_with_feedback t with
        | [] => analysis_output s
        | _ =>
            app (analysis_output s)
              ((Py.newline ++ "Inputs with User Feedback Provided (Top 5):")
               :: map (fun '(inp, count) =>
                         "- '" ++ inp ++ "' (" ++ pretty count
                           ++ " feedback instance(s))")
                      (Counter.most_common_n 5 (inputs_with_feedback t)))
        end in
      Selection (app out [ "--- Analysis Complete ---" ])
                (learning_candidate s) (highest_freq s)
  end.

Definition analyze_errors (self : chatbot) : string * option (string * string) :=
  let s := analyze_lines (error_logs self) in
  (Py.join Py.newline (analysis_output s), learning_candidate s).

Section Chatbot.

(** [json.dump] on the two documents. *)
Variable dumps : document → string.

Definition log_error
    (now : string) (w : write_outcome)
    (user_input bot_response error_type : string)
    (confidence : option Q) (genai_error : genai_error)
    (self : chatbot) (fs : gmap string string)
  : outcome (option nat) * chatbot * gmap string string :=
  let log_entry :=
    {| timestamp := now;
       user_input := user_input;
       bot_response := bot_response;
       error_type := error_type;
       simulated_confidence := Py.format_2f <$> confidence;
       genai_error_details := error_details genai_error;
       feedback_provided := None |} in
  let self := with_logs (app (error_logs self) [log_entry]) self in
  let '(fs, saved) :=
    save_json_robust dumps w (log_file self) (LogDoc (error_logs self)) fs in
  (and_then saved
     (λ saved,
        Returns (if saved then Some (length (error_logs self) - 1)
                 else None)),
   self, fs).

Definition add_feedback_to_log
    (w : write_outcome) (log_index : Z) (feedback : string)
    (self : chatbot) (fs : gmap string string)
  : outcome bool * chatbot * gmap string string :=
  if ((0 <=? log_index)%Z && (log_index <? Z.of_nat (length (error_logs self)))%Z)
  then
    let self :=
      with_logs (alter (set_feedback (Some feedback)) (Z.to_nat log_index)
                       (error_logs self)) self in
    let '(fs, saved) :=
      save_json_robust dumps w (log_file self) (LogDoc (error_logs self)) fs in
    (saved, self, fs)
  else (Returns false, self, fs).

(** The result of a turn is the pair [generate_response] returns, with
    the prompts that were sent to the model. *)
Definition generate_response
    (env : turn_env) (user_input : string) (chat_history : list message)
    (self : chatbot) (fs : gmap string string)
  : outcome (string * option nat) * list string * chatbot
    * gmap string string :=
  let cleaned_input := Py.strip (Py.lower user_input) in
  if negb (Py.truthy cleaned_input) then
    (Returns ("Please provide some input!", None), [], self, fs)
  else
    match learned_knowledge self !! cleaned_input with
    | Some learned => (Returns (learned, None), [], self, fs)
    | None =>
        match genai_model env with
        | None =>
            (Returns ("Error: AI Model not available.", None), [], self, fs)
        | Some generate_content =>
            let prompt := prompt_for_genai user_input chat_history in
            let l := process_response (rnd env) (generate_content prompt) in
            match error_type_found l with
            | Some error_type =>
                let '(log_idx, self, fs) :=
                  log_error (now env) (write env) user_input
                            (bot_response_text l) error_type
                            (Some (sim_confidence l)) (genai_error_info l)
                            self fs in
                (and_then log_idx
                   (λ log_idx, Returns (bot_response_text l, log_idx)),
                 [prompt], self, fs)
            | None =>
                (Returns (bot_response_text l, None), [prompt], self, fs)
            end
        end
    end.

Definition add_learned_knowledge
    (w : write_outcome) (keyword response : string)
    (self : chatbot) (fs : gmap string string)
  : outcome bool * chatbot * gmap string string :=
  if negb (Py.truthy keyword) || negb (Py.truthy response) then
    (Returns false, self, fs)
  else
    let self :=
      with_knowledge
        (<[Py.strip (Py.lower keyword) := Py.strip response]>
           (learned_knowledge self)) self in
    let '(fs, saved) :=
      save_json_robust dumps w (knowledge_file self)
                       (KnowledgeDoc (learned_knowledge self)) fs in
    (saved, self, fs).

Definition clear_log_file_data
    (w : write_outcome) (self : chatbot) (fs : gmap string string)
  : outcome bool * chatbot * gmap string string :=
  let self := with_logs [] self in
  let '(fs, saved) :=
    save_json_robust dumps w (log_file self) (LogDoc (error_logs self)) fs in
  (saved, self, fs).

Definition reset_knowledge_data
    (w : write_outcome) (self : chatbot) (fs : gmap string string)
  : outcome bool * chatbot * gmap string string :=
  let self := with_knowledge DEFAULT_KNOWLEDGE self in
  let '(fs, saved) :=
    save_json_robust dumps w (knowledge_file self)
                     (KnowledgeDoc (learned_knowledge self)) fs in
  (saved, self, fs).

End Chatbot.

(** ** The operations of a session *)

(** The calls the page makes on the instance, each with what the
    environment decides for it. A call that an exception leaves has left
    the instance and the files as it had them by then, and the session
    goes on from there. *)
Inductive operation :=
| OpLogError (now : string) (w : write_outcome)
    (user_input bot_response error_type : string)
    (confidence : option Q) (genai_error : genai_error)
| OpAddFeedback (w : write_outcome) (log_index : Z) (feedback : string)
| OpGenerate (env : turn_env) (user_input : string) (chat_history : list message)
| OpAnalyze
| OpAddKnowledge (w : write_outcome) (keyword response : string)
| OpClearLog (w : write_outcome)
| OpResetKnowledge (w : write_outcome).

Definition is_clear (o : operation) : bool :=
  match o with
  | OpClearLog _ => true
  | _ => false
  end.

Section Session.

Variable dumps : document → string.

Definition run (st : chatbot * gmap string string) (o : operation)
  : chatbot * gmap string string :=
  let '(self, fs) := st in
  match o with
  | OpLogError now w user_input bot_response error_type confidence genai_error =>
      let '(_, self, fs) :=
        log_error dumps now w user_input bot_response error_type
                  confidence genai_error self fs in
      (self, fs)
  | OpAddFeedback w log_index feedback =>
      let '(_, self, fs) :=
        add_feedback_to_log dumps w log_index feedback self fs in
      (self, fs)
  | OpGenerate env user_input chat_history =>
      let '(_, _, self, fs) :=
        generate_response dumps env user_input chat_history self fs in
      (self, fs)
  | OpAnalyze => let _ := analyze_errors self in (self, fs)
  | OpAddKnowledge w keyword response =>
      let '(_, self, fs) :=
        add_learned_knowledge dumps w keyword response self fs in
      (self, fs)
  | OpClearLog w =>
      let '(_, self, fs) := clear_log_file_data dumps w self fs in
      (self, fs)
  | OpResetKnowledge w =>
      let '(_, self, fs) := reset_knowledge_data dumps w self fs in
      (self, fs)
  end.

Definition run_all (st : chatbot * gmap string string)
    (ops : list operation) : chatbot * gmap string string :=
  fold_left run ops st.

End Session.

(** ** The vocabulary of the specification *)

(** The categories of the specification and the tags the class writes
    for them. *)
Inductive category :=
| Clean
| Refusal
| SimulatedLowConfidence
| ContentBlocked
| MalformedResponse
| ApiError.

Definition category_of (error_type : option string) : option category :=
  match error_type with
  | None => Some Clean
  | Some tag =>
      if String.eqb tag "Refusal" then Some Refusal
      else if String.eqb tag "Simulated Low Confidence"
      then Some SimulatedLowConfidence
      else if String.eqb tag "Content Blocked" then Some ContentBlocked
      else if String.eqb tag "API Response Format Error"
      then Some MalformedResponse
      else if String.eqb tag "API Error" then Some ApiError
      else None
  end.

(** The conditions the specification names, read off a returned value. *)
Definition has_block_indicator (r : option response) : bool :=
  match r with
  | Some {| prompt_feedback := Some {| block_reason := Some _ |} |} => true
  | _ => false
  end.

Definition text_field (r : option response) : option string :=
  match r with
  | Some r => text r
  | None => None
  end.

Definition simulated_failure (rnd : draws) : bool :=
  if Qlt_le_dec (roll rnd) SIMULATED_FAILURE_RATE then true else false.

(** The priority order as the specification words it: failed call, block
    indicator, missing text, refusal phrase, simulated failure, clean. *)
Definition stated_category (rnd : draws) (result : model_result) : category :=
  match result with
  | ModelRaises _ => ApiError
  | ModelReturns r =>
      if has_block_indicator r then ContentBlocked
      else
        match text_field r with
        | None => MalformedResponse
        | Some reply =>
            if is_refusal reply then Refusal
            else if simulated_failure rnd then SimulatedLowConfidence
            else Clean
        end
  end.

(** The same conditions with the text field looked at before the block
    indicator. *)
Definition text_first_category (rnd : draws) (result : model_result) : category :=
  match result with
  | ModelRaises _ => ApiError
  | ModelReturns r =>
      match text_field r with
      | Some reply =>
          if is_refusal reply then Refusal
          else if simulated_failure rnd then SimulatedLowConfidence
          else Clean
      | None =>
          if has_block_indicator r then ContentBlocked else MalformedResponse
      end
  end.

(** The normalized input of a record, and the number of records of a log
    that have a given category and a given normalized input. *)
Definition clean_input (log : log_entry) : string :=
  Py.strip (Py.lower (user_input log)).

Definition log_key (log : log_entry) : string * string :=
  (error_type log, clean_input log).

Definition occurrences (logs : list log_entry) (e_type input : string) : nat :=
  length (filter (fun log => log_key log = (e_type, input)) logs).

(** The normalized, non-empty inputs of the records of one category, in
    the order of the log, and the counter that counting them one by one
    builds. *)
Definition inputs_of (logs : list log_entry) (e_type : string) : list string :=
  filter (fun input => input ≠ EmptyString)
         (map clean_input (filter (fun log => error_type log = e_type) logs)).

Definition counter_of (keys : list string) : Counter.t :=
  fold_left (fun c k => Counter.incr k c) keys [].

(** Two records that differ at most in their feedback, and a log whose
    records are all still found, at their index, in a later log. *)
Definition same_but_feedback (e e' : log_entry) : Prop :=
  set_feedback None e' = set_feedback None e.

Definition preserved (logs logs' : list log_entry) : Prop :=
  ∀ i e, logs !! i = Some e →
         ∃ e', logs' !! i = Some e' ∧ same_but_feedback e e'.

(** The shape of what one operation does to the log: nothing, one record
    more at the end, the feedback of one record overwritten, or, for a
    clear only, no record left. *)
Definition log_effect (o : operation) (logs logs' : list log_entry) : Prop :=
  logs' = logs
  ∨ (∃ record, feedback_provided record = None ∧ logs' = app logs [record])
  ∨ (∃ n record feedback,
        logs !! n = Some record
        ∧ logs' = <[n := set_feedback (Some feedback) record]> logs)
  ∨ (is_clear o = true ∧ logs' = []).

(** The record [log_error] builds. *)
Definition new_record (now user_input bot_response error_type : string)
    (confidence : option Q) (genai_error : genai_error) : log_entry :=
  LogEntry now user_input bot_response error_type
           (Py.format_2f <$> confidence) (error_details genai_error) None.

(** Whether a write ran to its end. *)
Definition persisted (w : write_outcome) : bool :=
  match w with
  | WriteOk => true
  | _ => false
  end.

(** The most frequent input of one category with its count, as the
    loop over [candidate_types_priority] reads it, and one round of that
    loop on the candidate and the best count alone. *)
Definition top_of (logs : list log_entry) (e_type : string) : Counter.t :=
  Counter.most_common_1 (counter_of (inputs_of logs e_type)).

Definition better (best : option (string * string) * nat) (e_type : string)
    (top : Counter.t) : option (string * string) * nat :=
  match top with
  | (top_input_str, top_input_count) :: _ =>
      if (best.2 <? top_input_count)%nat
      then (Some (e_type, top_input_str), top_input_count)
      else best
  | [] => best
  end.

(** The log of the candidate selection scenario, by category and
    normalized input. *)
Definition scenario_keys : list (string * string) :=
  [ ("Refusal", "track bus 42"); ("Refusal", "track bus 42");
    ("Refusal", "track bus 42"); ("Refusal", "college news");
    ("API Error", "track bus 42") ].

(** [s] occurs in [t]. *)
Definition substring_of (s t : string) : Prop :=
  ∃ before after, t = before ++ s ++ after.

(** ** A codec for the examples

    A compact rendering of the two documents, and a reader of the two
    empty ones, at which the theorems are run on concrete files. *)

Module Sample.

Definition dq : string := String (ascii_of_nat 34) EmptyString.

Definition quote (s : string) : string := dq ++ s ++ dq.

Definition field (key : string) (value : option string) : string :=
  quote key ++ ": " ++ from_option quote "null" value.

Definition entry (e : log_entry) : string :=
  "{" ++ Py.join ", "
    [ field "timestamp" (Some (timestamp e));
      field "user_input" (Some (user_input e));
      field "bot_response" (Some (bot_response e));
      field "error_type" (Some (error_type e));
      field "simulated_confidence" (simulated_confidence e);
      field "genai_error_details" (genai_error_details e);
      field "feedback_provided" (feedback_provided e) ] ++ "}".

Definition dumps (d : document) : string :=
  match d with
  | KnowledgeDoc k =>
      "{" ++ Py.join ", "
               (map (fun kv => field kv.1 (Some kv.2)) (map_to_list k))
          ++ "}"
  | LogDoc logs => "[" ++ Py.join ", " (map entry logs) ++ "]"
  end.

Definition loads (s : string) : option document :=
  if String.eqb s "[]" then Some (LogDoc [])
  else if String.eqb s "{}" then Some (KnowledgeDoc ∅)
  else None.

Definition bot : chatbot := Chatbot KNOWLEDGE_FILE LOG_FILE DEFAULT_KNOWLEDGE [].

Definition no_draws : draws := Draws 0 (1 # 2) (1 # 2) 0.

Definition env (reply : model_result) : turn_env :=
  TurnEnv (Some (fun _ => reply)) no_draws "2024-05-01T10:00:00" WriteOk.

Definition refusal (now input : string) : log_entry :=
  LogEntry now input "I cannot help with that." "Refusal" (Some "0.30")
           None None.

End Sample.

(** ** Vocabulary for the properties of a session *)

(** The line of the report for one category and its number of records. *)
Definition summary_line (item : string * nat) : string :=
  "- " ++ item.1 ++ ": " ++ pretty item.2 ++ " occurrence(s)".

(** The number of records of a category. *)
Definition records_of_type (logs : list log_entry) (e_type : string) : nat :=
  length (filter (fun log => error_type log = e_type) logs).

(** The categories [generate_response] writes, and a record as it logs
    them: one of these categories, an input that is not empty once
    normalized, a confidence. *)
Definition emitted_types : list string :=
  [ "Refusal"; "Simulated Low Confidence"; "Content Blocked";
    "API Response Format Error"; "API Error" ].

Definition emitted (log : log_entry) : Prop :=
  error_type log ∈ emitted_types
  ∧ clean_input log ≠ EmptyString
  ∧ is_Some (simulated_confidence log).

(** The operations of the page: all but a direct call of [log_error]. *)
Definition is_log_error (o : operation) : bool :=
  match o with
  | OpLogError _ _ _ _ _ _ _ => true
  | _ => false
  end.

(** An operation whose write, if it makes one, succeeds. *)
Definition write_of (o : operation) : option write_outcome :=
  match o with
  | OpLogError _ w _ _ _ _ _ => Some w
  | OpAddFeedback w _ _ => Some w
  | OpGenerate env _ _ => Some (write env)
  | OpAnalyze => None
  | OpAddKnowledge w _ _ => Some w
  | OpClearLog w => Some w
  | OpResetKnowledge w => Some w
  end.

Definition writes_succeed (o : operation) : Prop :=
  ∀ w, write_of o = Some w → w = WriteOk.

(** The files hold the two stores of the instance. *)
Definition synced (dumps : document → string) (self : chatbot)
    (fs : gmap string string) : Prop :=
  fs !! knowledge_file self
  = Some (dumps (KnowledgeDoc (learned_knowledge self)))
  ∧ fs !! log_file self = Some (dumps (LogDoc (error_logs self))).

(** ** The start of a session: [__init__] *)

(** What the environment decides for one [load_json_robust]. *)
Record load_env := LoadEnv {
  load_write : write_outcome;
  load_rename : rename_outcome;
  load_readable : bool;
  load_stamp : string
}.

(** The instance as [__init__] leaves it: the two file names, and in each
    store whatever document its file gave. No instance is made when a
    load raises. *)
Record instance := Instance {
  loaded_knowledge_file : string;
  loaded_log_file : string;
  loaded_knowledge : document;
  loaded_error_logs : document
}.

Section Init.

Variable dumps : document → string.
Variable loads : string → option document.

Definition __init__ (for_knowledge for_logs : load_env)
    (knowledge_file log_file : string) (fs : gmap string string)
  : outcome instance * gmap string string :=
  let '(fs, learned_knowledge) :=
    load_json_robust dumps loads (load_write for_knowledge)
      (load_rename for_knowledge) (load_readable for_knowledge)
      (load_stamp for_knowledge) knowledge_file
      (KnowledgeDoc DEFAULT_KNOWLEDGE) fs in
  match learned_knowledge with
  | Raises e => (Raises e, fs)
  | Returns learned_knowledge =>
      let '(fs, error_logs) :=
        load_json_robust dumps loads (load_write for_logs)
          (load_rename for_logs) (load_readable for_logs)
          (load_stamp for_logs) log_file (LogDoc []) fs in
      (and_then error_logs
         (λ error_logs,
            Returns (Instance knowledge_file log_file learned_knowledge
                              error_logs)),
       fs)
  end.

End Init.

(** The instance with a dictionary as knowledge and a list as log, which
    is the one the methods of the class are modelled on. *)
Definition well_shaped (i : instance) : option chatbot :=
  match loaded_knowledge i, loaded_error_logs i with
  | KnowledgeDoc knowledge, LogDoc logs =>
      Some (Chatbot (loaded_knowledge_file i) (loaded_log_file i)
                    knowledge logs)
  | _, _ => None
  end.

(** ** The page

    The script below the class runs once for every interaction with the
    page. [st.session_state] is a record; the interaction is an event with
    the values typed into the widgets and what the environment decides;
    the test under which the script reaches a widget is the guard of its
    event, and an event whose guard fails changes nothing. A run ends
    at the end of the script, at [st.rerun()], or where an exception
    leaves it; what it has assigned to the session state by then stays
    assigned. After a run that an exception has stopped, the widgets
    below that point are shown again by the next run that passes it,
    which Streamlit's Rerun command starts without an interaction, so
    an event is possible whenever its guard holds of the session
    state. *)

Record session := Session {
  ss_chatbot : chatbot;
  ss_messages : list message;
  ss_last_error_log_index : option nat;
  ss_feedback_requested : bool;
  ss_learning_candidate : option (string * string);
  ss_analysis_results : option string;
  ss_confirm_clear_log : bool;
  ss_confirm_reset_kb : bool;
  ss_show_log : bool;
  ss_genai_configured : bool
}.

(** The session state after the initialisation block. *)
Definition initial_session (bot : chatbot) (configured : bool) : session :=
  Session bot [ Message "assistant" "Hello! How can I assist you today?" ]
          None false None None false false false configured.

(** The instance of the session is one object: what a method has done to
    it is seen in the session state whether the method returns or not. *)
Definition with_chatbot (bot : chatbot) (s : session) : session :=
  Session bot (ss_messages s) (ss_last_error_log_index s)
          (ss_feedback_requested s) (ss_learning_candidate s)
          (ss_analysis_results s) (ss_confirm_clear_log s)
          (ss_confirm_reset_kb s) (ss_show_log s) (ss_genai_configured s).

Inductive page_event :=
| AnalyzeErrors
| LearnThisResponse (new_response : string) (w : write_outcome)
| SkipLearning
| ViewHideErrorLog
| ClearErrorLog
| YesClearLog (w : write_outcome)
| CancelClear
| ResetLearnedKnowledge
| YesResetKB (w : write_outcome)
| CancelResetKB
| SubmitFeedback (feedback_text : string) (w : write_outcome)
| SkipFeedback (w : write_outcome)
| ChatInput (prompt : string) (env : turn_env).

(** How a run of the script ends. *)
Inductive run_end :=
| Completed
| Rerun
| Stopped (e : exception).

(** [if st.session_state.analysis_results:] and
    [if st.session_state.learning_candidate:] *)
Definition learning_shown (s : session) : bool :=
  match ss_analysis_results s, ss_learning_candidate s with
  | Some results, Some _ => Py.truthy results
  | _, _ => false
  end.

(** [st.session_state.feedback_requested and isinstance(st.session_state.last_error_log_index, int)] *)
Definition feedback_shown (s : session) : bool :=
  ss_feedback_requested s && bool_decide (is_Some (ss_last_error_log_index s)).

Definition chat_input_disabled (s : session) : bool :=
  ss_feedback_requested s || ss_confirm_clear_log s || ss_confirm_reset_kb s.

Section Page.

Variable dumps : document → string.

(** [st.toast(..., icon=icon)] in a run that has reached the state [st],
    followed by the rest of the handler. *)
Definition toast_then (icon : string) (st : session * gmap string string)
    (rest : run_end * session * gmap string string)
  : run_end * session * gmap string string :=
  match st_toast icon with
  | Returns _ => rest
  | Raises e => (Stopped e, st.1, st.2)
  end.

Definition page_script (st : session * gmap string string) (e : page_event)
  : run_end * session * gmap string string :=
  let '(s, fs) := st in
  let bot := ss_chatbot s in
  match e with
  | AnalyzeErrors =>
      let '(analysis_text, candidate) := analyze_errors bot in
      let s :=
        Session bot (ss_messages s) (ss_last_error_log_index s) false
                candidate (Some analysis_text) false false (ss_show_log s)
                (ss_genai_configured s) in
      toast_then "üìä" (s, fs) (Rerun, s, fs)
  | LearnThisResponse new_response w =>
      match learning_shown s, ss_learning_candidate s with
      | true, Some (error_type, input_to_learn) =>
          if Py.truthy new_response then
            let '(learned, bot, fs) :=
              add_learned_knowledge dumps w input_to_learn new_response
                                    bot fs in
            let s := with_chatbot bot s in
            match learned with
            | Raises exn => (Stopped exn, s, fs)
            | Returns true =>
                toast_then "üí°" (s, fs)
                  (Rerun,
                   Session bot (ss_messages s) (ss_last_error_log_index s)
                           (ss_feedback_requested s) None None
                           (ss_confirm_clear_log s) (ss_confirm_reset_kb s)
                           (ss_show_log s) (ss_genai_configured s), fs)
            | Returns false => (Completed, s, fs)
            end
          else (Completed, s, fs)
      | _, _ => (Completed, s, fs)
      end
  | SkipLearning =>
      if learning_shown s then
        toast_then " N " (s, fs)
          (Rerun,
           Session bot (ss_messages s) (ss_last_error_log_index s)
                   (ss_feedback_requested s) None (ss_analysis_results s)
                   (ss_confirm_clear_log s) (ss_confirm_reset_kb s)
                   (ss_show_log s) (ss_genai_configured s), fs)
      else (Completed, s, fs)
  | ViewHideErrorLog =>
      (Rerun,
       Session bot (ss_messages s) (ss_last_error_log_index s) false
               (ss_learning_candidate s) (ss_analysis_results s) false false
               (negb (ss_show_log s)) (ss_genai_configured s), fs)
  | ClearErrorLog =>
      (Rerun,
       Session bot (ss_messages s) (ss_last_error_log_index s) false
               (ss_learning_candidate s) (ss_analysis_results s) true false
               (ss_show_log s) (ss_genai_configured s), fs)
  | YesClearLog w =>
      if ss_confirm_clear_log s then
        let '(cleared, bot, fs) := clear_log_file_data dumps w bot fs in
        let s := with_chatbot bot s in
        match cleared with
        | Raises exn => (Stopped exn, s, fs)
        | Returns cleared =>
            let rest :=
              (Rerun,
               Session bot (ss_messages s) (ss_last_error_log_index s)
                       (ss_feedback_requested s) (ss_learning_candidate s)
                       (ss_analysis_results s) false (ss_confirm_reset_kb s)
                       false (ss_genai_configured s), fs) in
            if cleared then toast_then "üóëÔ∏è" (s, fs) rest else rest
        end
      else (Completed, s, fs)
  | CancelClear =>
      if ss_confirm_clear_log s then
        (Rerun,
         Session bot (ss_messages s) (ss_last_error_log_index s)
                 (ss_feedback_requested s) (ss_learning_candidate s)
                 (ss_analysis_results s) false (ss_confirm_reset_kb s)
                 (ss_show_log s) (ss_genai_configured s), fs)
      else (Completed, s, fs)
  | ResetLearnedKnowledge =>
      (Rerun,
       Session bot (ss_messages s) (ss_last_error_log_index s) false
               (ss_learning_candidate s) (ss_analysis_results s) false true
               (ss_show_log s) (ss_genai_configured s), fs)
  | YesResetKB w =>
      if ss_confirm_reset_kb s then
        let '(reset, bot, fs) := reset_knowledge_data dumps w bot fs in
        let s := with_chatbot bot s in
        match reset with
        | Raises exn => (Stopped exn, s, fs)
        | Returns reset =>
            let rest :=
              (Rerun,
               Session bot (ss_messages s) (ss_last_error_log_index s)
                       (ss_feedback_requested s) (ss_learning_candidate s)
                       (ss_analysis_results s) (ss_confirm_clear_log s) false
                       (ss_show_log s) (ss_genai_configured s), fs) in
            if reset then toast_then "üîÑ" (s, fs) rest else rest
        end
      else (Completed, s, fs)
  | CancelResetKB =>
      if ss_confirm_reset_kb s then
        (Rerun,
         Session bot (ss_messages s) (ss_last_error_log_index s)
                 (ss_feedback_requested s) (ss_learning_candidate s)
                 (ss_analysis_results s) (ss_confirm_clear_log s) false
                 (ss_show_log s) (ss_genai_configured s), fs)
      else (Completed, s, fs)
  | SubmitFeedback feedback_text w =>
      match feedback_shown s, ss_last_error_log_index s with
      | true, Some index =>
          if Py.truthy feedback_text then
            let '(saved, bot, fs) :=
              add_feedback_to_log dumps w (Z.of_nat index) feedback_text
                                  bot fs in
            let s := with_chatbot bot s in
            match saved with
            | Raises exn => (Stopped exn, s, fs)
            | Returns saved =>
                let rest :=
                  (Rerun,
                   Session bot (ss_messages s) (ss_last_error_log_index s)
                           false (ss_learning_candidate s)
                           (ss_analysis_results s) (ss_confirm_clear_log s)
                           (ss_confirm_reset_kb s) (ss_show_log s)
                           (ss_genai_configured s), fs) in
                if saved then toast_then "‚úÖ" (s, fs) rest else rest
            end
          else (Completed, s, fs)
      | _, _ => (Completed, s, fs)
      end
  | SkipFeedback w =>
      match feedback_shown s, ss_last_error_log_index s with
      | true, Some index =>
          let '(saved, bot, fs) :=
            add_feedback_to_log dumps w (Z.of_nat index) "skipped" bot fs in
          let s := with_chatbot bot s in
          match saved with
          | Raises exn => (Stopped exn, s, fs)
          | Returns saved =>
              let rest :=
                (Rerun,
                 Session bot (ss_messages s) (ss_last_error_log_index s)
                         false (ss_learning_candidate s)
                         (ss_analysis_results s) (ss_confirm_clear_log s)
                         (ss_confirm_reset_kb s) (ss_show_log s)
                         (ss_genai_configured s), fs) in
              if saved then toast_then " N " (s, fs) rest else rest
          end
      | _, _ => (Completed, s, fs)
      end
  | ChatInput prompt env =>
      if negb (chat_input_disabled s) && Py.truthy prompt then
        let messages := app (ss_messages s) [ Message "user" prompt ] in
        if negb (ss_genai_configured s) then
          let fallback_resp :=
            default "Sorry, AI features are unavailable."
                    (learned_knowledge bot !! Py.strip (Py.lower prompt)) in
          (Completed,
           Session bot (app messages [ Message "assistant" fallback_resp ])
                   None false None None false false (ss_show_log s)
                   (ss_genai_configured s), fs)
        else
          let '(returned, _, bot, fs) :=
            generate_response dumps env prompt messages bot fs in
          match returned with
          | Raises exn =>
              (Stopped exn,
               Session bot messages None false None None false false
                       (ss_show_log s) (ss_genai_configured s), fs)
          | Returns (bot_response, error_index) =>
              let messages :=
                app messages [ Message "assistant" bot_response ] in
              match error_index with
              | Some index =>
                  (Rerun,
                   Session bot messages (Some index) true None None false
                           false (ss_show_log s) (ss_genai_configured s), fs)
              | None =>
                  (Completed,
                   Session bot messages None false None None false false
                           (ss_show_log s) (ss_genai_configured s), fs)
              end
          end
      else (Completed, s, fs)
  end.

(** The session state and the files one interaction leaves. *)
Definition page_step (st : session * gmap string string) (e : page_event)
  : session * gmap string string :=
  let '(_, s, fs) := page_script st e in (s, fs).

Definition page_run (st : session * gmap string string)
    (events : list page_event) : session * gmap string string :=
  fold_left page_step events st.

End Page.

(** What holds of the session state between two interactions: at most
    one of the three actions is pending; a requested feedback has the
    index of a record of the log, which is the record of the last
    exchange of the conversation; a candidate on display has an input
    that is normalized and not empty; the knowledge base has no empty
    key. *)
Definition one_pending (s : session) : Prop :=
  ss_feedback_requested s && ss_confirm_clear_log s = false
  ∧ ss_feedback_requested s && ss_confirm_reset_kb s = false
  ∧ ss_confirm_clear_log s && ss_confirm_reset_kb s = false.

Definition feedback_addressed (s : session) : Prop :=
  ss_feedback_requested s = true →
  ∃ index record older,
    ss_last_error_log_index s = Some index
    ∧ error_logs (ss_chatbot s) !! index = Some record
    ∧ ss_messages s
      = app older [ Message "user" (user_input record);
                    Message "assistant" (bot_response record) ].

Definition candidate_normalized (s : session) : Prop :=
  ∀ e_type input,
    ss_learning_candidate s = Some (e_type, input) →
    input ≠ EmptyString ∧ Py.strip (Py.lower input) = input.

Definition pending_invariant (s : session) : Prop :=
  one_pending s ∧ feedback_addressed s.

Definition keys_invariant (s : session) : Prop :=
  candidate_normalized s
  ∧ learned_knowledge (ss_chatbot s) !! EmptyString = None.

(** The event that empties the log, and the one that resets the
    knowledge base, when the page shows their confirmation. *)
Definition clears_log (s : session) (e : page_event) : Prop :=
  ss_confirm_clear_log s = true ∧ ∃ w, e = YesClearLog w.

Definition resets_knowledge (s : session) (e : page_event) : Prop :=
  ss_confirm_reset_kb s = true ∧ ∃ w, e = YesResetKB w.

(** ** Vocabulary for the feedback section of the report *)

(** A record whose feedback the analysis counts: its normalized input is
    not empty and its feedback is kept by [feedback_counts]. *)
Definition counted_feedback (log : log_entry) : Prop :=
  clean_input log ≠ EmptyString
  ∧ feedback_counts (feedback_provided log) = true.

(** The number of records with a given normalized input whose feedback
    counts. *)
Definition feedback_records (logs : list log_entry) (input : string) : nat :=
  length (filter (fun log => counted_feedback log ∧ clean_input log = input)
                 logs).

(** The line of the report for one input and its number of feedbacks. *)
Definition feedback_line (item : string * nat) : string :=
  "- '" ++ item.1 ++ "' (" ++ pretty item.2 ++ " feedback instance(s))".

Definition feedback_heading : string :=
  Py.newline ++ "Inputs with User Feedback Provided (Top 5):".

(** * Properties *)

Close Scope string_scope.

(** ** Python strings *)

Lemma append_cons (c : ascii) (s t : string) :
  String c s +:+ t = String c (s +:+ t).
Proof. reflexivity. Qed.

Lemma append_nil_l (t : string) : EmptyString +:+ t = t.
Proof. reflexivity. Qed.

Lemma append_nil_r (s : string) : s +:+ EmptyString = s.
Proof.
  induction s as [|c s IH]; [reflexivity |]. by rewrite append_cons, IH.
Qed.

Lemma append_assoc (a b c : string) : (a +:+ b) +:+ c = a +:+ b +:+ c.
Proof.
  induction a as [|x a IH]; [reflexivity |]. by rewrite !append_cons, IH.
Qed.

Lemma append_same_l (s t : string) : s +:+ t = s → t = EmptyString.
Proof.
  induction s as [|c s IH]; [by rewrite append_nil_l |].
  rewrite append_cons. intros H. injection H as H. by apply IH.
Qed.

Lemma backup_filename_distinct (filename stamp : string) :
  backup_filename filename stamp ≠ filename.
Proof.
  unfold backup_filename. intros H. apply append_same_l in H. discriminate H.
Qed.

Lemma prefix_nil_l (s : string) : String.prefix EmptyString s = true.
Proof. by destruct s. Qed.

Lemma prefix_append (p s : string) : String.prefix p (p +:+ s) = true.
Proof.
  induction p as [|c p IH]; [apply prefix_nil_l |].
  rewrite append_cons. simpl.
  destruct (Ascii.ascii_dec c c); [exact IH | contradiction].
Qed.

Lemma prefix_inv (p s : string) :
  String.prefix p s = true → ∃ rest, s = p +:+ rest.
Proof.
  revert s. induction p as [|c p IH]; intros s H.
  - by exists s.
  - destruct s as [|d s]; [discriminate |]. simpl in H.
    destruct (Ascii.ascii_dec c d) as [->|]; [| discriminate].
    destruct (IH s H) as [rest ->]. by exists rest.
Qed.

Lemma prefix_nil_r (sub : string) :
  String.prefix sub EmptyString = true → sub = EmptyString.
Proof. by destruct sub. Qed.

Lemma contains_unfold (sub s : string) :
  Py.contains sub s
  = String.prefix sub s
    || match s with
       | EmptyString => false
       | String _ r => Py.contains sub r
       end.
Proof. by destruct s. Qed.

Lemma contains_prefix (sub s : string) :
  String.prefix sub s = true → Py.contains sub s = true.
Proof. intros H. by rewrite contains_unfold, H. Qed.

(** [Py.contains] decides the substring relation. *)
Lemma contains_spec (sub s : string) :
  Py.contains sub s = true ↔ substring_of sub s.
Proof.
  split.
  - induction s as [|c s IH]; rewrite contains_unfold; intros H.
    + apply orb_true_iff in H as [H | H]; [| discriminate].
      apply prefix_nil_r in H as ->. by exists EmptyString, EmptyString.
    + apply orb_true_iff in H as [H | H].
      * apply prefix_inv in H as [rest Hrest].
        exists EmptyString, rest. exact Hrest.
      * destruct (IH H) as (before & after & ->).
        by exists (String c before), after.
  - intros (before & after & ->).
    induction before as [|c before IH].
    + rewrite append_nil_l. apply contains_prefix, prefix_append.
    + rewrite append_cons, contains_unfold, IH. apply orb_true_r.
Qed.

Lemma str_take_prefix (n : nat) (s : string) :
  String.prefix (Py.str_take n s) s = true.
Proof.
  unfold Py.str_take. revert n.
  induction s as [|c s IH]; intros [|n]; simpl; try reflexivity.
  destruct (Ascii.ascii_dec c c); [apply IH | contradiction].
Qed.

(** ** The durable store *)

Section DurableStoreFacts.

Context {doc : Type}.
Variable dumps : doc → string.
Variable loads : string → option doc.

Lemma save_json_robust_result (w : write_outcome) filename (data : doc) fs :
  (save_json_robust dumps w filename data fs).2
  = if persisted w then Returns true else Raises StreamlitAPIException.
Proof. by destruct w. Qed.

(** C8, as the code has it: a failing write is not reported as a
    success; the files are untouched when the file could not be opened;
    once it was opened, the file holds the characters written before the
    failure, a prefix of the new document, whatever it held before, and
    the other files are untouched. *)
Theorem save_json_robust_failing_write
    (w : write_outcome) (filename : string) (data : doc)
    (fs : gmap string string) :
  w ≠ WriteOk →
  (save_json_robust dumps w filename data fs).2 ≠ Returns true
  ∧ (w = OpenFails → (save_json_robust dumps w filename data fs).1 = fs)
  ∧ (∀ written, w = WriteFails written →
       (save_json_robust dumps w filename data fs).1 !! filename
         = Some (Py.str_take written (dumps data))
       ∧ String.prefix (Py.str_take written (dumps data)) (dumps data) = true
       ∧ ∀ other, other ≠ filename →
           (save_json_robust dumps w filename data fs).1 !! other
             = fs !! other).
Proof.
  intros Hw. split; [| split].
  - rewrite save_json_robust_result. by destruct w.
  - by intros ->.
  - intros written ->. simpl. split; [| split].
    + apply lookup_insert_eq.
    + apply str_take_prefix.
    + intros other Hne. by rewrite lookup_insert_ne.
Qed.

(** C9, as the code has it: a document that exists and does not parse
    makes [load_json_robust] return the default, and the document is
    renamed to [<name>.bad_<stamp>], a name of its own, when
    [os.rename] succeeds, and left where it is when [os.rename] fails;
    either way its bytes are on the medium afterwards. With no document
    the default is written, and when the write succeeds it is the initial
    document and is returned. *)
Theorem load_json_robust_recovery
    (w : write_outcome) (r : rename_outcome) (stamp filename : string)
    (default_data : doc) (fs : gmap string string) :
  (∀ bytes,
      fs !! filename = Some bytes → loads bytes = None →
      let out :=
        load_json_robust dumps loads w r true stamp filename default_data fs in
      out.2 = Returns default_data
      ∧ backup_filename filename stamp ≠ filename
      ∧ (r = RenameOk →
           out.1 !! backup_filename filename stamp = Some bytes
           ∧ out.1 !! filename = None)
      ∧ (r = RenameFails → out.1 = fs)
      ∧ ∃ name, out.1 !! name = Some bytes)
  ∧ (fs !! filename = None →
      let out :=
        load_json_robust dumps loads w r true stamp filename default_data fs in
      out.1 = (save_json_robust dumps w filename default_data fs).1
      ∧ (w = WriteOk →
         out.2 = Returns default_data
         ∧ out.1 !! filename = Some (dumps default_data))).
Proof.
  split.
  - intros bytes Hfile Hparse. unfold load_json_robust, os_rename.
    rewrite Hfile, Hparse. simpl.
    pose proof (backup_filename_distinct filename stamp) as Hne.
    split; [reflexivity |]. split; [exact Hne |].
    destruct r; simpl; rewrite ?Hfile.
    + split; [| split; [discriminate |]].
      * intros _. split; [apply lookup_insert_eq |].
        rewrite lookup_insert_ne by exact Hne. apply lookup_delete_eq.
      * exists (backup_filename filename stamp). apply lookup_insert_eq.
    + split; [discriminate |]. split; [reflexivity |]. by exists filename.
  - intros Hfile. unfold load_json_robust. rewrite Hfile.
    destruct w; simpl; (split; [reflexivity |]); try discriminate.
    intros _. split; [reflexivity | apply lookup_insert_eq].
Qed.

End DurableStoreFacts.

(** C8 as stated fails: the log file holds the empty log; saving a log of
    one record fails after one character; the call does not return false,
    the file then holds that one character, and the next load does not
    find the previous version. *)
Lemma save_json_robust_not_atomic :
  let fs : gmap string string := {[ LOG_FILE := "[]" ]} in
  let saved :=
    save_json_robust Sample.dumps (WriteFails 1) LOG_FILE
      (LogDoc [Sample.refusal "2024-05-01T10:00:00" "track bus 42"]) fs in
  saved.2 ≠ Returns false
  ∧ fs !! LOG_FILE = Some "[]"
  ∧ saved.1 !! LOG_FILE = Some "["
  ∧ saved.1 !! LOG_FILE ≠ fs !! LOG_FILE
  ∧ (load_json_robust Sample.dumps Sample.loads WriteOk RenameOk true
       "20240501100001" LOG_FILE (LogDoc []) fs).1 = fs
  ∧ (load_json_robust Sample.dumps Sample.loads WriteOk RenameOk true
       "20240501100001" LOG_FILE (LogDoc []) saved.1).1 !! LOG_FILE = None.
Proof.
  vm_compute. split; [discriminate |]. split; [reflexivity |].
  split; [reflexivity |]. split; [discriminate |].
  split; reflexivity.
Qed.

Lemma save_json_robust_failing_write_witness :
  WriteFails 1 ≠ WriteOk
  ∧ (save_json_robust Sample.dumps (WriteFails 1) LOG_FILE (LogDoc [])
       {[ LOG_FILE := "[]" ]}).1 !! LOG_FILE = Some "[".
Proof.
  split; [discriminate |].
  destruct (save_json_robust_failing_write Sample.dumps (WriteFails 1)
              LOG_FILE (LogDoc []) {[ LOG_FILE := "[]" ]})
    as (_ & _ & Hpart); [discriminate |].
  destruct (Hpart 1%nat eq_refl) as [Hfile _]. exact Hfile.
Defined.

(** C9 as stated fails: the knowledge file does not parse and
    [os.rename] fails; nothing exists under the quarantine name. And
    with no knowledge file and a write that cannot open it, no document
    exists afterwards. *)
Lemma load_json_robust_rename_may_fail :
  let fs : gmap string string := {[ KNOWLEDGE_FILE := "{oops" ]} in
  let out :=
    load_json_robust Sample.dumps Sample.loads WriteOk RenameFails true
      "20240501100001" KNOWLEDGE_FILE (KnowledgeDoc DEFAULT_KNOWLEDGE) fs in
  let missing :=
    load_json_robust Sample.dumps Sample.loads OpenFails RenameOk true
      "20240501100001" KNOWLEDGE_FILE (KnowledgeDoc DEFAULT_KNOWLEDGE) ∅ in
  Sample.loads "{oops" = None
  ∧ out.2 = Returns (KnowledgeDoc DEFAULT_KNOWLEDGE)
  ∧ out.1 !! backup_filename KNOWLEDGE_FILE "20240501100001" = None
  ∧ out.1 !! KNOWLEDGE_FILE = Some "{oops"
  ∧ missing.1 !! KNOWLEDGE_FILE = None
  ∧ missing.2 ≠ Returns (KnowledgeDoc DEFAULT_KNOWLEDGE).
Proof. vm_compute. repeat split. discriminate. Qed.

Lemma load_json_robust_recovery_witness :
  let fs : gmap string string := {[ KNOWLEDGE_FILE := "{oops" ]} in
  let out :=
    load_json_robust Sample.dumps Sample.loads WriteOk RenameOk true
      "20240501100001" KNOWLEDGE_FILE (KnowledgeDoc DEFAULT_KNOWLEDGE) fs in
  fs !! KNOWLEDGE_FILE = Some "{oops"
  ∧ Sample.loads "{oops" = None
  ∧ out.2 = Returns (KnowledgeDoc DEFAULT_KNOWLEDGE)
  ∧ out.1 !! backup_filename KNOWLEDGE_FILE "20240501100001" = Some "{oops".
Proof.
  pose proof (load_json_robust_recovery Sample.dumps Sample.loads WriteOk
                RenameOk "20240501100001" KNOWLEDGE_FILE
                (KnowledgeDoc DEFAULT_KNOWLEDGE)
                {[ KNOWLEDGE_FILE := "{oops" ]}) as [Hbad _].
  specialize (Hbad "{oops" eq_refl eq_refl).
  destruct Hbad as (Hdef & _ & Hren & _).
  destruct (Hren eq_refl) as [Hbackup _].
  intros fs out.
  split; [reflexivity |]. split; [reflexivity |].
  split; [exact Hdef | exact Hbackup].
Defined.

(** ** The classifier *)

Lemma is_refusal_phrase (reply phrase : string) :
  phrase ∈ REFUSAL_PHRASES →
  substring_of phrase (Py.lower reply) →
  is_refusal reply = true.
Proof.
  intros Hin Hsub. unfold is_refusal. apply existsb_exists.
  exists phrase. split; [by apply list_elem_of_In | by apply contains_spec].
Qed.

Lemma process_response_text (rnd : draws) (reply : string)
    (feedback : option prompt_feedback_t) :
  is_refusal reply = true →
  process_response rnd (ModelReturns (Some (Response (Some reply) feedback)))
  = Locals reply (Some "Refusal") (3 # 10) NoDetail.
Proof. intros H. simpl. by rewrite H. Qed.

(** C2, as the code has it: the category is found by looking, in this
    order, at a failed call, at the text field (refusal phrase, simulated
    failure, clean), and only for a value without text at the block
    indicator and the malformed case. It is the stated order on every
    outcome that does not carry both a text field and a block indicator,
    and ContentBlocked is the verdict exactly for a returned value with a
    block indicator and no text field. *)
Theorem process_response_priority (rnd : draws) (result : model_result) :
  category_of (error_type_found (process_response rnd result))
  = Some (text_first_category rnd result)
  ∧ ((∀ r, result = ModelReturns r →
           has_block_indicator r = true → text_field r = None) →
     text_first_category rnd result = stated_category rnd result)
  ∧ (text_first_category rnd result = ContentBlocked ↔
     ∃ r, result = ModelReturns r
          ∧ has_block_indicator r = true ∧ text_field r = None).
Proof.
  destruct result as [e | [[[reply |] [[[reason |]] |]] |]]; simpl;
    unfold simulated_failure;
    repeat match goal with
           | |- context [is_refusal ?t] => destruct (is_refusal t)
           | |- context [Qlt_le_dec ?a ?b] => destruct (Qlt_le_dec a b)
           end; simpl;
    (split; [reflexivity |]); split;
    try (intros H; try reflexivity;
         by (specialize (H _ eq_refl eq_refl); discriminate H));
    try (split; [discriminate | by intros (r & Hr & Hb & Ht); simplify_eq]);
    try (split; [intros _; eexists; by repeat split | reflexivity]).
Qed.

Lemma process_response_priority_witness :
  let result := ModelReturns (Some (Response None (Some (PromptFeedback (Some "SAFETY"))))) in
  (∀ r, result = ModelReturns r →
        has_block_indicator r = true → text_field r = None)
  ∧ text_first_category Sample.no_draws result
    = stated_category Sample.no_draws result.
Proof.
  intros result.
  assert (H : ∀ r, result = ModelReturns r →
                   has_block_indicator r = true → text_field r = None).
  { intros r Hr _. injection Hr as <-. reflexivity. }
  split; [exact H |].
  exact (proj1 (proj2 (process_response_priority Sample.no_draws result)) H).
Defined.

(** C2 as stated fails: a reply that carries a text with a refusal phrase
    and a block indicator is a Refusal for the class, and ContentBlocked in
    the stated order. *)
Lemma block_indicator_checked_after_text :
  let result :=
    ModelReturns
      (Some (Response (Some "I cannot help with that.")
                      (Some (PromptFeedback (Some "SAFETY"))))) in
  error_type_found (process_response Sample.no_draws result) = Some "Refusal"
  ∧ category_of (error_type_found (process_response Sample.no_draws result))
    = Some Refusal
  ∧ stated_category Sample.no_draws result = ContentBlocked
  ∧ category_of (error_type_found (process_response Sample.no_draws result))
    ≠ Some (stated_category Sample.no_draws result).
Proof.
  vm_compute. split; [reflexivity |]. split; [reflexivity |].
  split; [reflexivity | discriminate].
Qed.

(** ** One turn *)

Section ChatbotFacts.

Variable dumps : document → string.

(** C10: an input that is empty once lower-cased and stripped is
    answered with the fixed text and no log index; no prompt is sent to
    the model, the instance and the files are as before, and the answer
    does not depend on the knowledge base. *)
Theorem generate_response_empty_input
    (env : turn_env) (user_input : string) (chat_history : list message)
    (self : chatbot) (fs : gmap string string) :
  Py.strip (Py.lower user_input) = EmptyString →
  generate_response dumps env user_input chat_history self fs
  = (Returns ("Please provide some input!", None), [], self, fs)
  ∧ ∀ knowledge,
      generate_response dumps env user_input chat_history
                        (with_knowledge knowledge self) fs
      = (Returns ("Please provide some input!", None), [],
         with_knowledge knowledge self, fs).
Proof.
  intros H. unfold generate_response. rewrite H. simpl.
  split; [reflexivity | by intros knowledge].
Qed.

(** C4, as the code has it: an input whose normalized form is not empty
    and is a key of the knowledge base is answered with the stored
    response and no log index; no prompt is sent to the model, and the
    instance, the error log in it, and the files are as before,
    whatever the log holds. *)
Theorem generate_response_learned
    (env : turn_env) (user_input : string) (chat_history : list message)
    (self : chatbot) (fs : gmap string string) (learned : string) :
  Py.strip (Py.lower user_input) ≠ EmptyString →
  learned_knowledge self !! Py.strip (Py.lower user_input) = Some learned →
  generate_response dumps env user_input chat_history self fs
  = (Returns (learned, None), [], self, fs)
  ∧ ∀ logs,
      generate_response dumps env user_input chat_history
                        (with_logs logs self) fs
      = (Returns (learned, None), [], with_logs logs self, fs).
Proof.
  intros Hne Hkey. unfold generate_response. simpl. rewrite Hkey.
  destruct (Py.strip (Py.lower user_input)); [done |].
  split; [reflexivity | by intros logs].
Qed.

(** C3: a reply with a text field whose lower-cased text contains a
    refusal phrase is a Refusal with confidence 0.3, whether or not it
    also carries a block indicator, and the text of the record appended
    to the log is the reply itself. When the write of the log succeeds
    the text returned is the reply itself; when it fails nothing is
    returned: the exception of [st.toast] in [save_json_robust] leaves
    [log_error], which is called outside the [try], and the turn. *)
Theorem generate_response_refusal
    (env : turn_env) (generate_content : string → model_result)
    (user_input : string) (chat_history : list message)
    (self : chatbot) (fs : gmap string string)
    (reply phrase : string) (feedback : option prompt_feedback_t) :
  Py.strip (Py.lower user_input) ≠ EmptyString →
  learned_knowledge self !! Py.strip (Py.lower user_input) = None →
  genai_model env = Some generate_content →
  generate_content (prompt_for_genai user_input chat_history)
  = ModelReturns (Some (Response (Some reply) feedback)) →
  phrase ∈ REFUSAL_PHRASES →
  substring_of phrase (Py.lower reply) →
  let l :=
    process_response (rnd env)
      (ModelReturns (Some (Response (Some reply) feedback))) in
  let record :=
    LogEntry (now env) user_input reply "Refusal" (Some "0.30") None None in
  let saved :=
    save_json_robust dumps (write env) (log_file self)
      (LogDoc (error_logs self ++ [record])) fs in
  category_of (error_type_found l) = Some Refusal
  ∧ sim_confidence l = (3 # 10)%Q
  ∧ bot_response_text l = reply
  ∧ generate_response dumps env user_input chat_history self fs
    = (if persisted (write env)
       then Returns (reply, Some (length (error_logs self)))
       else Raises StreamlitAPIException,
       [prompt_for_genai user_input chat_history],
       with_logs (error_logs self ++ [record]) self,
       saved.1).
Proof.
  intros Hne Hkey Hmodel Hreply Hin Hsub l record saved.
  pose proof (is_refusal_phrase _ _ Hin Hsub) as Href.
  subst l. rewrite (process_response_text _ _ _ Href). simpl.
  split; [reflexivity |]. split; [reflexivity |]. split; [reflexivity |].
  unfold generate_response. rewrite Hkey, Hmodel, Hreply.
  rewrite (process_response_text _ _ _ Href). simpl.
  destruct (Py.strip (Py.lower user_input)); [done |]. simpl.
  unfold log_error. simpl. subst saved record.
  change (Py.format_2f (3 # 10)) with "0.30".
  destruct (write env); simpl; [| reflexivity | reflexivity].
  rewrite length_app. simpl.
  by replace (length (error_logs self) + 1 - 1)%nat
    with (length (error_logs self)) by lia.
Qed.

Lemma add_learned_knowledge_rejects_empty
    (w : write_outcome) (keyword response : string)
    (self : chatbot) (fs : gmap string string) :
  keyword = EmptyString ∨ response = EmptyString →
  add_learned_knowledge dumps w keyword response self fs
  = (Returns false, self, fs).
Proof.
  intros [-> | ->]; unfold add_learned_knowledge; simpl;
    [reflexivity | by rewrite orb_true_r].
Qed.

Lemma add_learned_knowledge_stores
    (w : write_outcome) (keyword response : string)
    (self : chatbot) (fs : gmap string string) :
  keyword ≠ EmptyString → response ≠ EmptyString →
  let knowledge :=
    <[Py.strip (Py.lower keyword) := Py.strip response]>
      (learned_knowledge self) in
  let saved :=
    save_json_robust dumps w (knowledge_file self)
      (KnowledgeDoc knowledge) fs in
  add_learned_knowledge dumps w keyword response self fs
  = (saved.2, with_knowledge knowledge self, saved.1).
Proof.
  intros Hk Hr knowledge saved. unfold add_learned_knowledge.
  destruct keyword; [done |]. destruct response; [done |]. simpl.
  subst saved knowledge. by destruct (save_json_robust _ _ _ _ _).
Qed.

End ChatbotFacts.

Lemma generate_response_empty_input_witness :
  Py.strip (Py.lower "   ") = EmptyString
  ∧ generate_response Sample.dumps (Sample.env (ModelRaises "down")) "   " []
      Sample.bot ∅
    = (Returns ("Please provide some input!", None), [], Sample.bot, ∅).
Proof.
  split; [reflexivity |].
  apply (generate_response_empty_input Sample.dumps). reflexivity.
Defined.

Lemma generate_response_learned_witness :
  Py.strip (Py.lower " Help ") ≠ EmptyString
  ∧ learned_knowledge Sample.bot !! Py.strip (Py.lower " Help ")
    = DEFAULT_KNOWLEDGE !! "help"
  ∧ (generate_response Sample.dumps (Sample.env (ModelRaises "down"))
       " Help " [] Sample.bot ∅).1.1.2 = [].
Proof.
  assert (Hne : Py.strip (Py.lower " Help ") ≠ EmptyString) by discriminate.
  split; [exact Hne |]. split; [reflexivity |].
  by rewrite (proj1 (generate_response_learned Sample.dumps
                       (Sample.env (ModelRaises "down")) " Help " []
                       Sample.bot ∅ _ Hne eq_refl)).
Defined.

(** C4 as stated fails: a keyword of one blank is stored under the empty
    key; the input of two blanks then has a normalized form that is a key
    of the knowledge base, and is answered with the fixed text for an
    empty input, not with the stored response. *)
Lemma generate_response_empty_key_not_served :
  let learnt :=
    add_learned_knowledge Sample.dumps WriteOk " " "hello" Sample.bot ∅ in
  let self := learnt.1.2 in
  let fs := learnt.2 in
  learned_knowledge self !! Py.strip (Py.lower "  ") = Some "hello"
  ∧ generate_response Sample.dumps (Sample.env (ModelRaises "down")) "  " []
      self fs
    = (Returns ("Please provide some input!", None), [], self, fs)
  ∧ generate_response Sample.dumps (Sample.env (ModelRaises "down")) "  " []
      self fs
    ≠ (Returns ("hello", None), [], self, fs).
Proof. vm_compute. split; [reflexivity |]. split; [reflexivity | discriminate]. Qed.

(** C7 fails on the code for a keyword of white space only: it is not
    empty, so it passes the test, and it is stored under the empty key;
    the write succeeds and the answer is true. *)
Theorem add_learned_knowledge_blank_keyword :
  let learnt :=
    add_learned_knowledge Sample.dumps WriteOk " " "hello" Sample.bot ∅ in
  Py.strip (Py.lower " ") = EmptyString
  ∧ learnt.1.1 = Returns true
  ∧ learned_knowledge learnt.1.2
    = <[EmptyString := "hello"]> (learned_knowledge Sample.bot)
  ∧ learnt.2 !! KNOWLEDGE_FILE
    = Some (Sample.dumps (KnowledgeDoc (learned_knowledge learnt.1.2))).
Proof. vm_compute. repeat split. Qed.

Lemma generate_response_refusal_witness :
  let reply := "I cannot help with that." in
  let record :=
    LogEntry "2024-05-01T10:00:00" "Track bus 42" reply "Refusal"
             (Some "0.30") None None in
  let env :=
    TurnEnv (Some (fun _ => ModelReturns (Some (Response (Some reply) None))))
            Sample.no_draws "2024-05-01T10:00:00" OpenFails in
  "i cannot" ∈ REFUSAL_PHRASES
  ∧ substring_of "i cannot" (Py.lower reply)
  ∧ generate_response Sample.dumps env "Track bus 42" [] Sample.bot ∅
    = (Raises StreamlitAPIException, [prompt_for_genai "Track bus 42" []],
       with_logs [record] Sample.bot, ∅)
  ∧ generate_response Sample.dumps
      (Sample.env (ModelReturns (Some (Response (Some reply) None))))
      "Track bus 42" [] Sample.bot ∅
    = (Returns (reply, Some 0%nat), [prompt_for_genai "Track bus 42" []],
       with_logs [record] Sample.bot,
       {[ LOG_FILE := Sample.dumps (LogDoc [record]) ]}).
Proof.
  intros reply record env.
  assert (Hin : "i cannot" ∈ REFUSAL_PHRASES) by (apply list_elem_of_In; simpl; auto).
  assert (Hsub : substring_of "i cannot" (Py.lower reply))
    by (exists EmptyString, " help with that."; reflexivity).
  split; [exact Hin |]. split; [exact Hsub |]. split.
  - pose proof (generate_response_refusal Sample.dumps env
                  (fun _ => ModelReturns (Some (Response (Some reply) None)))
                  "Track bus 42" [] Sample.bot ∅ reply "i cannot" None) as H.
    destruct H as (_ & _ & _ & ->); done.
  - pose proof (generate_response_refusal Sample.dumps
                  (Sample.env (ModelReturns (Some (Response (Some reply) None))))
                  (fun _ => ModelReturns (Some (Response (Some reply) None)))
                  "Track bus 42" [] Sample.bot ∅ reply "i cannot" None) as H.
    destruct H as (_ & _ & _ & ->); done.
Defined.

(** ** The error log *)

Lemma same_but_feedback_set (e : log_entry) (feedback : option string) :
  same_but_feedback e (set_feedback feedback e).
Proof. reflexivity. Qed.

Lemma same_but_feedback_trans (e1 e2 e3 : log_entry) :
  same_but_feedback e1 e2 → same_but_feedback e2 e3 → same_but_feedback e1 e3.
Proof. unfold same_but_feedback. congruence. Qed.

Lemma preserved_refl (logs : list log_entry) : preserved logs logs.
Proof. intros i e H. exists e. split; [exact H | reflexivity]. Qed.

Lemma preserved_trans (l1 l2 l3 : list log_entry) :
  preserved l1 l2 → preserved l2 l3 → preserved l1 l3.
Proof.
  intros H12 H23 i e H.
  destruct (H12 i e H) as (e2 & H2 & S2).
  destruct (H23 i e2 H2) as (e3 & H3 & S3).
  exists e3. split; [exact H3 | by eapply same_but_feedback_trans].
Qed.

Lemma preserved_app (logs extra : list log_entry) :
  preserved logs (logs ++ extra).
Proof.
  intros i e H. exists e. split; [| reflexivity].
  by apply lookup_app_l_Some.
Qed.

Lemma alter_set_feedback (logs : list log_entry) (n : nat) (e : log_entry)
    (feedback : option string) :
  logs !! n = Some e →
  alter (set_feedback feedback) n logs = <[n := set_feedback feedback e]> logs.
Proof.
  intros He. apply list_eq. intros j.
  destruct (decide (n = j)) as [<- | Hne].
  - rewrite list_lookup_alter_eq, He. simpl.
    rewrite list_lookup_insert_eq; [reflexivity |]. by eapply lookup_lt_Some.
  - by rewrite list_lookup_alter_ne, list_lookup_insert_ne.
Qed.

Section ErrorLogFacts.

Variable dumps : document → string.

Lemma log_error_eq (now : string) (w : write_outcome)
    (user_input bot_response error_type : string) (confidence : option Q)
    (genai_error : genai_error) (self : chatbot) (fs : gmap string string) :
  let record :=
    new_record now user_input bot_response error_type confidence genai_error in
  log_error dumps now w user_input bot_response error_type confidence
            genai_error self fs
  = (if persisted w then Returns (Some (length (error_logs self)))
     else Raises StreamlitAPIException,
     with_logs (error_logs self ++ [record]) self,
     (save_json_robust dumps w (log_file self)
        (LogDoc (error_logs self ++ [record])) fs).1).
Proof.
  intros record. unfold log_error. simpl. fold record.
  rewrite length_app. simpl.
  replace (length (error_logs self) + 1 - 1)%nat
    with (length (error_logs self)) by lia.
  by destruct w.
Qed.

Lemma add_feedback_to_log_eq (w : write_outcome) (log_index : Z)
    (feedback : string) (self : chatbot) (fs : gmap string string) :
  add_feedback_to_log dumps w log_index feedback self fs
  = if decide (0 ≤ log_index < Z.of_nat (length (error_logs self)))%Z then
      let logs :=
        alter (set_feedback (Some feedback)) (Z.to_nat log_index)
              (error_logs self) in
      (if persisted w then Returns true else Raises StreamlitAPIException,
       with_logs logs self,
       (save_json_robust dumps w (log_file self) (LogDoc logs) fs).1)
    else (Returns false, self, fs).
Proof.
  unfold add_feedback_to_log.
  destruct (decide _) as [[H1 H2] | Hout].
  - apply Z.leb_le in H1. apply Z.ltb_lt in H2. rewrite H1, H2. simpl.
    by destruct w.
  - destruct (0 <=? log_index)%Z eqn:H1; [| reflexivity].
    destruct (log_index <? Z.of_nat (length (error_logs self)))%Z eqn:H2;
      [| reflexivity].
    apply Z.leb_le in H1. apply Z.ltb_lt in H2. lia.
Qed.

(** The log after a turn: as before, or with one record more. *)
Lemma generate_response_logs (env : turn_env) (user_input : string)
    (chat_history : list message) (self : chatbot) (fs : gmap string string) :
  let self' :=
    (generate_response dumps env user_input chat_history self fs).1.2 in
  error_logs self' = error_logs self
  ∨ ∃ record, feedback_provided record = None
              ∧ error_logs self' = error_logs self ++ [record].
Proof.
  unfold generate_response.
  destruct (negb _); [by left |].
  destruct (learned_knowledge self !! _); [by left |].
  destruct (genai_model env) as [generate_content |]; [| by left].
  destruct (error_type_found _) as [tag |]; [| by left].
  rewrite log_error_eq. simpl. right.
  eexists. split; [| reflexivity]. reflexivity.
Qed.

Lemma run_log_effect (o : operation) (st : chatbot * gmap string string) :
  log_effect o (error_logs st.1) (error_logs (run dumps st o).1).
Proof.
  destruct st as [self fs]. unfold log_effect.
  destruct o as [now w ui br et conf ge | w i feedback | env ui history |
                 | w keyword response | w | w]; simpl.
  - rewrite log_error_eq. simpl. right. left.
    eexists. split; [| reflexivity]. reflexivity.
  - rewrite add_feedback_to_log_eq. case_decide as Hin; simpl; [| by left].
    right. right. left.
    destruct (lookup_lt_is_Some_2 (error_logs self) (Z.to_nat i)) as [e He];
      [lia |].
    exists (Z.to_nat i), e, feedback. split; [exact He |].
    by apply alter_set_feedback.
  - pose proof (generate_response_logs env ui history self fs) as H.
    destruct (generate_response dumps env ui history self fs)
      as [[[answer prompts] self'] fs']. simpl in *.
    destruct H as [-> | H]; [by left | right; by left].
  - by left.
  - unfold add_learned_knowledge.
    destruct (negb _ || negb _); [by left |]. simpl.
    destruct (save_json_robust _ _ _ _ _). by left.
  - unfold clear_log_file_data. simpl.
    destruct (save_json_robust _ _ _ _ _). simpl. by repeat right.
  - unfold reset_knowledge_data. simpl.
    destruct (save_json_robust _ _ _ _ _). by left.
Qed.

Lemma log_effect_preserved (o : operation) (logs logs' : list log_entry) :
  is_clear o = false → log_effect o logs logs' → preserved logs logs'.
Proof.
  intros Hclear [-> | [(record & _ & ->) | [(n & record & f & Hn & ->) | [H _]]]].
  - apply preserved_refl.
  - apply preserved_app.
  - rewrite list_insert_alter. intros i e H.
    destruct (decide (n = i)) as [-> | Hne].
    + exists (set_feedback (Some f) record). rewrite list_lookup_alter_eq, H.
      split; [reflexivity |]. rewrite Hn in H. by injection H as ->.
    + exists e. by rewrite list_lookup_alter_ne.
  - congruence.
Qed.

Lemma run_all_preserved (ops : list operation)
    (st : chatbot * gmap string string) :
  Forall (fun o => is_clear o = false) ops →
  preserved (error_logs st.1) (error_logs (run_all dumps st ops).1).
Proof.
  intros Hops. revert st.
  induction Hops as [| o ops Ho _ IH]; intros st; simpl.
  - apply preserved_refl.
  - eapply preserved_trans; [| apply IH].
    apply (log_effect_preserved o); [exact Ho | apply run_log_effect].
Qed.

End ErrorLogFacts.

Lemma logged_index_stable (dumps : document → string)
    (now : string) (w : write_outcome)
    (user_input bot_response error_type : string) (confidence : option Q)
    (genai_error : genai_error) (self : chatbot) (fs : gmap string string)
    (i : nat) (ops : list operation) :
  let logged :=
    log_error dumps now w user_input bot_response error_type confidence
              genai_error self fs in
  logged.1.1 = Returns (Some i) →
  Forall (fun o => is_clear o = false) ops →
  ∃ e, error_logs (run_all dumps (logged.1.2, logged.2) ops).1 !! i = Some e
       ∧ same_but_feedback
           (new_record now user_input bot_response error_type confidence
                       genai_error) e.
Proof.
  intros logged Hidx Hops. subst logged. rewrite log_error_eq in *.
  simpl in *. destruct (persisted w); [| discriminate].
  injection Hidx as <-.
  apply (run_all_preserved dumps ops
           (with_logs _ self, _) Hops (length (error_logs self))).
  simpl. by rewrite lookup_app_r, Nat.sub_diag.
Qed.

(** C5: every operation leaves the log as it is, or appends one record
    at its end, or overwrites the feedback of one record that is there,
    or, for a clear only, removes all records; [log_error] appends,
    [add_feedback_to_log] overwrites a feedback or does nothing,
    [clear_log_file_data] empties. No operation but a clear loses a
    record or changes another field, so along operations without a clear
    the index [log_error] returned finds the record it appended, up to its
    feedback. *)
Theorem error_log_operations (dumps : document → string) :
  (∀ o st, log_effect o (error_logs st.1) (error_logs (run dumps st o).1))
  ∧ (∀ now w user_input bot_response error_type confidence genai_error self fs,
       error_logs
         (log_error dumps now w user_input bot_response error_type confidence
                    genai_error self fs).1.2
       = error_logs self
         ++ [new_record now user_input bot_response error_type confidence
                        genai_error])
  ∧ (∀ w log_index feedback self fs,
       let logs' :=
         error_logs
           (add_feedback_to_log dumps w log_index feedback self fs).1.2 in
       logs' = error_logs self
       ∨ ∃ n record,
           error_logs self !! n = Some record
           ∧ logs' = <[n := set_feedback (Some feedback) record]>
                       (error_logs self))
  ∧ (∀ w self fs, error_logs (clear_log_file_data dumps w self fs).1.2 = [])
  ∧ (∀ o st, is_clear o = false →
             preserved (error_logs st.1) (error_logs (run dumps st o).1))
  ∧ (∀ now w user_input bot_response error_type confidence genai_error
       self fs i ops,
       let logged :=
         log_error dumps now w user_input bot_response error_type confidence
                   genai_error self fs in
       logged.1.1 = Returns (Some i) →
       Forall (fun o => is_clear o = false) ops →
       ∃ e, error_logs (run_all dumps (logged.1.2, logged.2) ops).1 !! i
            = Some e
            ∧ same_but_feedback
                (new_record now user_input bot_response error_type
                            confidence genai_error) e).
Proof.
  split; [apply run_log_effect |].
  split; [intros; by rewrite log_error_eq |].
  split.
  { intros w i feedback self fs. simpl. rewrite add_feedback_to_log_eq.
    case_decide as Hin; simpl; [right | by left].
    destruct (lookup_lt_is_Some_2 (error_logs self) (Z.to_nat i)) as [e He];
      [lia |].
    exists (Z.to_nat i), e. split; [exact He |].
    by apply alter_set_feedback. }
  split.
  { intros w self fs. unfold clear_log_file_data. simpl.
    by destruct (save_json_robust _ _ _ _ _). }
  split.
  { intros o st Ho. apply (log_effect_preserved o); [exact Ho |].
    apply run_log_effect. }
  intros. by apply logged_index_stable.
Qed.

(** C6, as the code has it: an index below zero or not below the length
    of the log makes [add_feedback_to_log] return false with the instance
    and the files as they were. With the index [log_error] returned, and
    no clear since, the feedback is written into the record at that index,
    whose other fields are as appended, and the call returns true exactly
    when the write of the log succeeds. *)
Theorem add_feedback_to_log_index (dumps : document → string) :
  (∀ w log_index feedback self fs,
     (log_index < 0 ∨ Z.of_nat (length (error_logs self)) ≤ log_index)%Z →
     add_feedback_to_log dumps w log_index feedback self fs
     = (Returns false, self, fs))
  ∧ (∀ now w0 user_input bot_response error_type confidence genai_error
       self fs i ops w feedback,
       let logged :=
         log_error dumps now w0 user_input bot_response error_type confidence
                   genai_error self fs in
       logged.1.1 = Returns (Some i) →
       Forall (fun o => is_clear o = false) ops →
       let st := run_all dumps (logged.1.2, logged.2) ops in
       let out :=
         add_feedback_to_log dumps w (Z.of_nat i) feedback st.1 st.2 in
       (out.1.1 = Returns true ↔ w = WriteOk)
       ∧ ∃ e, error_logs out.1.2 !! i = Some e
              ∧ feedback_provided e = Some feedback
              ∧ same_but_feedback
                  (new_record now user_input bot_response error_type
                              confidence genai_error) e).
Proof.
  split.
  - intros w i feedback self fs Hout. rewrite add_feedback_to_log_eq.
    case_decide; [lia | reflexivity].
  - intros now w0 ui br et conf ge self fs i ops w feedback logged Hidx Hops
           st out.
    destruct (logged_index_stable dumps now w0 ui br et conf ge self fs i ops
                Hidx Hops) as (e & He & Hsame).
    fold logged in He. fold st in He.
    pose proof (lookup_lt_Some _ _ _ He) as Hlt.
    subst out. rewrite add_feedback_to_log_eq.
    case_decide as Hin; [| lia]. simpl. split.
    { destruct w; simpl; split; intros H; done. }
    exists (set_feedback (Some feedback) e).
    rewrite Nat2Z.id, list_lookup_alter_eq, He.
    split; [reflexivity |]. split; [reflexivity |].
    eapply same_but_feedback_trans; [exact Hsame |].
    apply same_but_feedback_set.
Qed.

Lemma error_log_operations_witness :
  let logged :=
    log_error Sample.dumps "2024-05-01T10:00:00" WriteOk "Track bus 42"
      "I cannot help with that." "Refusal" (Some (3 # 10)%Q) NoDetail
      Sample.bot ∅ in
  let ops :=
    [ OpAddFeedback WriteOk 0 "skipped";
      OpGenerate (Sample.env (ModelRaises "down")) "college news" [];
      OpAddKnowledge WriteOk "track bus 42" "Bus 42 is on time." ] in
  logged.1.1 = Returns (Some 0%nat)
  ∧ Forall (fun o => is_clear o = false) ops
  ∧ ∃ e, error_logs (run_all Sample.dumps (logged.1.2, logged.2) ops).1 !! 0%nat
         = Some e
         ∧ same_but_feedback
             (new_record "2024-05-01T10:00:00" "Track bus 42"
                "I cannot help with that." "Refusal" (Some (3 # 10)%Q)
                NoDetail) e.
Proof.
  intros logged ops.
  assert (Hidx : logged.1.1 = Returns (Some 0%nat)) by reflexivity.
  assert (Hops : Forall (fun o => is_clear o = false) ops)
    by (repeat constructor).
  split; [exact Hidx |]. split; [exact Hops |].
  exact (proj2 (proj2 (proj2 (proj2 (proj2
           (error_log_operations Sample.dumps)))))
           "2024-05-01T10:00:00" WriteOk "Track bus 42"
           "I cannot help with that." "Refusal" (Some (3 # 10)%Q) NoDetail
           Sample.bot ∅ 0%nat ops Hidx Hops).
Defined.

Lemma add_feedback_to_log_index_witness :
  let logged :=
    log_error Sample.dumps "2024-05-01T10:00:00" WriteOk "Track bus 42"
      "I cannot help with that." "Refusal" (Some (3 # 10)%Q) NoDetail
      Sample.bot ∅ in
  let ops := [ OpGenerate (Sample.env (ModelRaises "down")) "college news" [] ] in
  let st := run_all Sample.dumps (logged.1.2, logged.2) ops in
  (Z.of_nat (length (error_logs st.1)) ≤ 2)%Z
  ∧ add_feedback_to_log Sample.dumps WriteOk 2 "wrong answer" st.1 st.2
    = (Returns false, st.1, st.2)
  ∧ logged.1.1 = Returns (Some 0%nat)
  ∧ Forall (fun o => is_clear o = false) ops
  ∧ (add_feedback_to_log Sample.dumps WriteOk (Z.of_nat 0) "wrong answer"
       st.1 st.2).1.1 = Returns true.
Proof.
  intros logged ops st.
  destruct (add_feedback_to_log_index Sample.dumps) as [Hout Hin].
  assert (Hlen : (Z.of_nat (length (error_logs st.1)) ≤ 2)%Z)
    by (vm_compute; discriminate).
  assert (Hidx : logged.1.1 = Returns (Some 0%nat)) by reflexivity.
  assert (Hops : Forall (fun o => is_clear o = false) ops)
    by (repeat constructor).
  split; [exact Hlen |].
  split; [exact (Hout WriteOk 2%Z "wrong answer" st.1 st.2 (or_intror Hlen)) |].
  split; [exact Hidx |]. split; [exact Hops |].
  exact (proj2 (proj1 (Hin "2024-05-01T10:00:00" WriteOk "Track bus 42"
                         "I cannot help with that." "Refusal"
                         (Some (3 # 10)%Q) NoDetail Sample.bot ∅ 0%nat ops
                         WriteOk "wrong answer" Hidx Hops)) eq_refl).
Defined.

(** C6 as stated fails: the index [log_error] has just returned is given
    back with a feedback while the log file cannot be opened for writing;
    the record takes the feedback and the call does not return true. *)
Lemma add_feedback_to_log_write_may_fail :
  let logged :=
    log_error Sample.dumps "2024-05-01T10:00:00" WriteOk "Track bus 42"
      "I cannot help with that." "Refusal" (Some (3 # 10)%Q) NoDetail
      Sample.bot ∅ in
  let out :=
    add_feedback_to_log Sample.dumps OpenFails 0 "wrong answer"
      logged.1.2 logged.2 in
  logged.1.1 = Returns (Some 0%nat)
  ∧ out.1.1 ≠ Returns true
  ∧ feedback_provided <$> error_logs out.1.2 !! 0%nat
    = Some (Some "wrong answer").
Proof. vm_compute. repeat split. discriminate. Qed.

(** ** Counters *)

Lemma get_incr (k k0 : string) (c : Counter.t) :
  Counter.get k (Counter.incr k0 c)
  = if decide (k = k0) then S (Counter.get k c) else Counter.get k c.
Proof.
  induction c as [| [k' n] c IH]; simpl.
  - destruct (String.eqb_spec k k0); case_decide; congruence.
  - destruct (String.eqb_spec k0 k') as [-> | Hne]; simpl.
    + destruct (String.eqb_spec k k'); case_decide; congruence.
    + destruct (String.eqb_spec k k') as [-> | Hne'].
      * case_decide; congruence.
      * exact IH.
Qed.

Lemma incr_keys (k : string) (c : Counter.t) :
  Counter.keys (Counter.incr k c)
  = if decide (k ∈ Counter.keys c) then Counter.keys c
    else Counter.keys c ++ [k].
Proof.
  induction c as [| [k' n] c IH]; simpl.
  - reflexivity.
  - destruct (String.eqb_spec k k') as [-> | Hne]; simpl.
    + by rewrite decide_True by left.
    + unfold Counter.keys in *. rewrite IH.
      destruct (decide (k ∈ map fst c)) as [Hin | Hout].
      * rewrite decide_True; [reflexivity | by right].
      * rewrite decide_False; [reflexivity |].
        intros [? | ?]%elem_of_cons; congruence.
Qed.

Lemma incr_NoDup (k : string) (c : Counter.t) :
  NoDup (Counter.keys c) → NoDup (Counter.keys (Counter.incr k c)).
Proof.
  intros H. rewrite incr_keys. case_decide as Hin; [exact H |].
  apply NoDup_app. split; [exact H |]. split; [| apply NoDup_singleton].
  intros x Hx ->%list_elem_of_singleton. contradiction.
Qed.

Lemma get_elem (k : string) (n : nat) (c : Counter.t) :
  NoDup (Counter.keys c) → (k, n) ∈ c → Counter.get k c = n.
Proof.
  induction c as [| [k' n'] c IH]; simpl; intros Hnd Hin.
  - by apply elem_of_nil in Hin.
  - apply NoDup_cons in Hnd as [Hk' Hnd].
    apply elem_of_cons in Hin as [Heq | Hin].
    + injection Heq as -> ->. by rewrite String.eqb_refl.
    + destruct (String.eqb_spec k k') as [-> | Hne]; [| by apply IH].
      exfalso. apply Hk'. change k' with (fst (k', n)).
      by apply list_elem_of_fmap_2.
Qed.

Lemma get_zero_or_elem (k : string) (c : Counter.t) :
  Counter.get k c = 0%nat ∨ (k, Counter.get k c) ∈ c.
Proof.
  induction c as [| [k' n'] c IH]; simpl; [by left |].
  destruct (String.eqb_spec k k') as [-> | Hne].
  - right. left.
  - destruct IH as [IH | IH]; [by left | right; by right].
Qed.

Lemma elem_keys (k : string) (n : nat) (c : Counter.t) :
  (k, n) ∈ c → k ∈ Counter.keys c.
Proof.
  intros H. change k with (fst (k, n)). by apply list_elem_of_fmap_2.
Qed.

Lemma max_item_elem (best : string * nat) (items : Counter.t) :
  Counter.max_item best items ∈ best :: items.
Proof.
  revert best. induction items as [| x items IH]; intros best; simpl.
  - left.
  - specialize (IH (if (best.2 <? x.2)%nat then x else best)).
    apply elem_of_cons in IH as [-> | IH].
    + destruct (best.2 <? x.2)%nat; [right; left | left].
    + right. by right.
Qed.

Lemma max_item_ge (best : string * nat) (items : Counter.t) (x : string * nat) :
  x ∈ best :: items → (x.2 ≤ (Counter.max_item best items).2)%nat.
Proof.
  revert best x. induction items as [| y items IH]; intros best x Hx; simpl.
  - apply list_elem_of_singleton in Hx. subst x. lia.
  - apply elem_of_cons in Hx as [Hx | Hx].
    + subst x. destruct (Nat.ltb_spec best.2 y.2) as [Hlt | Hge].
      * pose proof (IH y y ltac:(left)). lia.
      * apply IH. left.
    + destruct (Nat.ltb_spec best.2 y.2) as [Hlt | Hge]; [by apply IH |].
      apply elem_of_cons in Hx as [Hx | Hx].
      * subst x. pose proof (IH best best ltac:(left)). lia.
      * apply IH. by right.
Qed.

Lemma most_common_1_spec (c : Counter.t) (k : string) (n : nat)
    (rest : Counter.t) :
  NoDup (Counter.keys c) →
  Counter.most_common_1 c = (k, n) :: rest →
  rest = [] ∧ (k, n) ∈ c ∧ Counter.get k c = n
  ∧ ∀ k', (Counter.get k' c ≤ n)%nat.
Proof.
  intros Hnd Htop. destruct c as [| x items]; [discriminate |].
  simpl in Htop. injection Htop as Hmax <-.
  pose proof (max_item_elem x items) as Hin. rewrite Hmax in Hin.
  split; [reflexivity |]. split; [exact Hin |].
  split; [by apply get_elem |].
  intros k'. destruct (get_zero_or_elem k' (x :: items)) as [-> | Hk'];
    [lia |].
  pose proof (max_item_ge x items _ Hk') as Hle. by rewrite Hmax in Hle.
Qed.

Lemma most_common_1_nil (c : Counter.t) :
  Counter.most_common_1 c = [] → c = [].
Proof. by destruct c. Qed.

Lemma counter_of_snoc (keys : list string) (k : string) :
  counter_of (keys ++ [k]) = Counter.incr k (counter_of keys).
Proof. unfold counter_of. by rewrite fold_left_app. Qed.

Lemma counter_of_NoDup (keys : list string) :
  NoDup (Counter.keys (counter_of keys)).
Proof.
  induction keys as [| k keys IH] using rev_ind; [apply NoDup_nil_2 |].
  rewrite counter_of_snoc. by apply incr_NoDup.
Qed.

Lemma counter_of_get (keys : list string) (k : string) :
  Counter.get k (counter_of keys) = length (filter (fun x => x = k) keys).
Proof.
  induction keys as [| k0 keys IH] using rev_ind; [reflexivity |].
  rewrite counter_of_snoc, get_incr, filter_app, length_app, IH.
  rewrite filter_cons, filter_nil.
  destruct (decide (k = k0)) as [-> | Hne].
  - rewrite decide_True by reflexivity. simpl. lia.
  - rewrite decide_False by congruence. simpl. lia.
Qed.

Lemma counter_of_keys (keys : list string) (k : string) :
  k ∈ Counter.keys (counter_of keys) → k ∈ keys.
Proof.
  induction keys as [| k0 keys IH] using rev_ind; [done |].
  rewrite counter_of_snoc, incr_keys. intros H. apply elem_of_app.
  case_decide; [left; by apply IH |].
  apply elem_of_app in H as [H | H]; [left; by apply IH | by right].
Qed.

(** ** The analysis *)

Lemma truthy_spec (s : string) : Py.truthy s = true ↔ s ≠ EmptyString.
Proof. destruct s; simpl; split; congruence. Qed.

Lemma inputs_of_snoc (logs : list log_entry) (e : log_entry) (c : string) :
  inputs_of (logs ++ [e]) c
  = inputs_of logs c
    ++ (if decide (error_type e = c ∧ clean_input e ≠ EmptyString)
        then [clean_input e] else []).
Proof.
  unfold inputs_of. rewrite filter_app, map_app, filter_app. f_equal.
  rewrite filter_cons, filter_nil.
  destruct (decide (error_type e = c)) as [Hc | Hc]; simpl.
  - rewrite filter_cons, filter_nil.
    destruct (decide (clean_input e ≠ EmptyString)) as [Hx | Hx].
    + rewrite decide_True; [reflexivity | by split].
    + rewrite decide_False; [reflexivity | by intros [_ ?]].
  - rewrite filter_nil. rewrite decide_False; [reflexivity | by intros [? _]].
Qed.

Lemma initial_tallies_by_type (c : string) :
  c ∈ tallied_types →
  inputs_by_error_type initial_tallies !! c = Some [].
Proof.
  unfold tallied_types. intros H.
  repeat (apply elem_of_cons in H as [-> | H]; [reflexivity |]).
  by apply elem_of_nil in H.
Qed.

Lemma tally_by_type (logs : list log_entry) (c : string) :
  c ∈ tallied_types →
  inputs_by_error_type (fold_left tally_log logs initial_tallies) !! c
  = Some (counter_of (inputs_of logs c)).
Proof.
  intros Hc. induction logs as [| e logs IH] using rev_ind.
  - by apply initial_tallies_by_type.
  - rewrite fold_left_app, inputs_of_snoc. simpl.
    set (t := fold_left tally_log logs initial_tallies) in *.
    unfold tally_log. fold (clean_input e).
    destruct (Py.truthy (clean_input e)) eqn:Htruthy; simpl.
    + apply truthy_spec in Htruthy.
      destruct (decide (error_type e = c)) as [<- | Hne].
      * rewrite IH, lookup_insert_eq, decide_True by done.
        by rewrite counter_of_snoc.
      * rewrite decide_False by (by intros [? _]). rewrite app_nil_r.
        destruct (inputs_by_error_type t !! error_type e);
          [by rewrite lookup_insert_ne | exact IH].
    + rewrite decide_False, app_nil_r; [exact IH |].
      intros [_ H]. apply truthy_spec in H. congruence.
Qed.

Lemma occurrences_snoc (logs : list log_entry) (e : log_entry) (c x : string) :
  occurrences (logs ++ [e]) c x
  = (occurrences logs c x
     + if decide (error_type e = c ∧ clean_input e = x) then 1 else 0)%nat.
Proof.
  unfold occurrences. rewrite filter_app, length_app. f_equal.
  rewrite filter_cons, filter_nil. unfold log_key.
  destruct (decide (error_type e = c ∧ clean_input e = x)) as [[<- <-] | H].
  - by rewrite decide_True.
  - rewrite decide_False; [reflexivity |].
    intros Heq. injection Heq as ? ?. by apply H.
Qed.

Lemma inputs_of_count (logs : list log_entry) (c x : string) :
  x ≠ EmptyString →
  length (filter (fun k => k = x) (inputs_of logs c)) = occurrences logs c x.
Proof.
  intros Hx. induction logs as [| e logs IH] using rev_ind; [reflexivity |].
  rewrite inputs_of_snoc, occurrences_snoc, filter_app, length_app, IH.
  f_equal.
  destruct (decide (error_type e = c ∧ clean_input e ≠ EmptyString))
    as [[Hc Hne] | H].
  - rewrite filter_cons, filter_nil.
    destruct (decide (clean_input e = x)) as [Heq | Hneq].
    + by rewrite decide_True.
    + rewrite decide_False; [reflexivity | by intros [_ ?]].
  - rewrite filter_nil, decide_False; [reflexivity |].
    intros [Hc Heq]. apply H. split; [exact Hc | congruence].
Qed.

Lemma occurrences_keys (logs : list log_entry) (c x : string) :
  occurrences logs c x
  = length (filter (fun k => k = (c, x)) (map log_key logs)).
Proof.
  unfold occurrences. induction logs as [| e logs IH]; [reflexivity |].
  simpl. rewrite !filter_cons. case_decide; simpl; by rewrite IH.
Qed.

(** The most frequent input of a category, against the number of
    records. *)
Lemma top_of_spec (logs : list log_entry) (c : string) :
  match top_of logs c with
  | [] => ∀ x, x ≠ EmptyString → occurrences logs c x = 0%nat
  | (k, n) :: rest =>
      rest = [] ∧ k ≠ EmptyString ∧ occurrences logs c k = n
      ∧ ∀ x, x ≠ EmptyString → (occurrences logs c x ≤ n)%nat
  end.
Proof.
  unfold top_of.
  destruct (Counter.most_common_1 _) as [| [k n] rest] eqn:Htop.
  - intros x Hx. apply most_common_1_nil in Htop.
    by rewrite <- inputs_of_count, <- counter_of_get, Htop.
  - destruct (most_common_1_spec _ _ _ _ (counter_of_NoDup _) Htop)
      as (-> & Hin & Hget & Hmax).
    assert (Hk : k ≠ EmptyString).
    { apply elem_keys, counter_of_keys in Hin. unfold inputs_of in Hin.
      by apply list_elem_of_filter in Hin as [? _]. }
    split; [reflexivity |]. split; [exact Hk |]. split.
    + by rewrite <- inputs_of_count, <- counter_of_get.
    + intros x Hx. rewrite <- inputs_of_count, <- counter_of_get by done.
      apply Hmax.
Qed.

Lemma select_candidate_better (by_type : gmap string Counter.t)
    (s : selection) (c : string) :
  let s' := select_candidate by_type s c in
  (learning_candidate s', highest_freq s')
  = better (learning_candidate s, highest_freq s) c
      (match by_type !! c with
       | Some counter => Counter.most_common_1 counter
       | None => []
       end).
Proof.
  unfold select_candidate, better.
  destruct (by_type !! c) as [counter |]; [| reflexivity].
  destruct (Counter.most_common_1 counter) as [| [k n] rest]; [reflexivity |].
  simpl. by destruct (highest_freq s <? n)%nat.
Qed.

Lemma select_candidate_output (by_type : gmap string Counter.t)
    (s : selection) (c line : string) :
  line ∈ analysis_output s →
  line ∈ analysis_output (select_candidate by_type s c).
Proof.
  intros H. unfold select_candidate.
  destruct (by_type !! c) as [counter |]; [| exact H].
  destruct (Counter.most_common_1 counter) as [| [k n] rest]; [exact H |].
  destruct (highest_freq s <? n)%nat; simpl; apply elem_of_app; by left.
Qed.

Lemma select_candidate_line (by_type : gmap string Counter.t)
    (s : selection) (c : string) (counter : Counter.t)
    (k : string) (n : nat) (rest : Counter.t) :
  by_type !! c = Some counter →
  Counter.most_common_1 counter = (k, n) :: rest →
  most_frequent_line c k n ∈ analysis_output (select_candidate by_type s c).
Proof.
  intros Hc Htop. unfold select_candidate. rewrite Hc, Htop.
  destruct (highest_freq s <? n)%nat; simpl; apply elem_of_app; right; left.
Qed.

Lemma refusal_tallied : "Refusal" ∈ tallied_types.
Proof. right. left. Qed.

Lemma knowledge_gap_tallied : "Knowledge Gap" ∈ tallied_types.
Proof. left. Qed.

(** The candidate and the best count that [analyze_lines] ends with. *)
Lemma analyze_lines_candidate (logs : list log_entry) :
  (learning_candidate (analyze_lines logs), highest_freq (analyze_lines logs))
  = better (better (None, 1%nat) "Refusal" (top_of logs "Refusal"))
           "Knowledge Gap" (top_of logs "Knowledge Gap").
Proof.
  destruct logs as [| e logs]; [reflexivity |].
  unfold analyze_lines. cbv zeta.
  set (t := fold_left tally_log (e :: logs) initial_tallies).
  set (out := match error_counts t with [] => _ | _ => _ end).
  cbn [learning_candidate highest_freq].
  unfold candidate_types_priority. cbn [fold_left].
  rewrite select_candidate_better, select_candidate_better.
  unfold t. rewrite !tally_by_type
    by (apply refusal_tallied || apply knowledge_gap_tallied).
  reflexivity.
Qed.

Lemma analyze_lines_line (logs : list log_entry) (k : string) (n : nat)
    (rest : Counter.t) :
  top_of logs "Refusal" = (k, n) :: rest →
  most_frequent_line "Refusal" k n ∈ analysis_output (analyze_lines logs).
Proof.
  intros Htop. destruct logs as [| e logs]; [discriminate |].
  unfold analyze_lines. cbv zeta.
  set (t := fold_left tally_log (e :: logs) initial_tallies).
  set (out := match error_counts t with [] => _ | _ => _ end).
  unfold candidate_types_priority. cbn [fold_left].
  set (s1 := select_candidate _ (Selection out None 1) "Refusal").
  assert (H1 : most_frequent_line "Refusal" k n ∈ analysis_output s1).
  { eapply select_candidate_line; [| exact Htop].
    apply tally_by_type, refusal_tallied. }
  pose proof (select_candidate_output (inputs_by_error_type t) s1
                "Knowledge Gap" _ H1) as H2.
  cbn [analysis_output]. apply elem_of_app. left.
  destruct (inputs_with_feedback t); [exact H2 |].
  apply elem_of_app. by left.
Qed.

Lemma join_substring (sep line : string) (lines : list string) :
  line ∈ lines → substring_of line (Py.join sep lines).
Proof.
  unfold Py.join. induction lines as [| x lines IH]; intros H.
  - by apply elem_of_nil in H.
  - apply elem_of_cons in H as [-> | H].
    + destruct lines as [| y lines].
      * exists EmptyString, EmptyString. by rewrite append_nil_r.
      * by exists EmptyString, (sep +:+ String.concat sep (y :: lines)).
    + destruct (IH H) as (before & after & Heq).
      destruct lines as [| y lines]; [by apply elem_of_nil in H |].
      exists (x +:+ sep +:+ before), after.
      change (String.concat sep (x :: y :: lines))
        with (x +:+ sep +:+ String.concat sep (y :: lines)).
      rewrite Heq. by rewrite !append_assoc.
Qed.

Lemma occurrences_scenario (logs : list log_entry) (c x : string) :
  map log_key logs ≡ₚ scenario_keys →
  occurrences logs c x = length (filter (fun k => k = (c, x)) scenario_keys).
Proof. intros H. rewrite occurrences_keys. by rewrite H. Qed.

Lemma priority_cases (c : string) :
  c ∈ candidate_types_priority → c = "Refusal" ∨ c = "Knowledge Gap".
Proof.
  unfold candidate_types_priority. intros H.
  apply elem_of_cons in H as [-> | H]; [by left |].
  apply elem_of_cons in H as [-> | H]; [by right |].
  by apply elem_of_nil in H.
Qed.

(** What a candidate is, against the number of records of each learnable
    category and normalized input. *)
Lemma candidate_selected (logs : list log_entry) (c x : string) :
  learning_candidate (analyze_lines logs) = Some (c, x) →
  c ∈ candidate_types_priority
  ∧ x ≠ EmptyString
  ∧ occurrences logs c x = highest_freq (analyze_lines logs)
  ∧ (1 < occurrences logs c x)%nat
  ∧ (∀ c' x', c' ∈ candidate_types_priority → x' ≠ EmptyString →
              (occurrences logs c' x' ≤ occurrences logs c x)%nat)
  ∧ (∀ x', c ≠ "Refusal" → x' ≠ EmptyString →
           (occurrences logs "Refusal" x' < occurrences logs c x)%nat).
Proof.
  intros Hcand.
  pose proof (analyze_lines_candidate logs) as Heq. rewrite Hcand in Heq.
  pose proof (top_of_spec logs "Refusal") as HR.
  pose proof (top_of_spec logs "Knowledge Gap") as HK.
  unfold better in Heq.
  destruct (top_of logs "Refusal") as [| [kR nR] rR];
    destruct (top_of logs "Knowledge Gap") as [| [kK nK] rK];
    cbn [fst snd] in Heq;
    try (destruct (Nat.ltb_spec 1 nR); cbn [fst snd] in Heq);
    repeat match type of Heq with
           | context [(?a <? ?b)%nat] =>
               destruct (Nat.ltb_spec a b); cbn [fst snd] in Heq
           end;
    try discriminate Heq;
    injection Heq as Hc Hx Hfreq; subst c x;
    repeat match goal with
           | H : _ ∧ _ |- _ => destruct H
           end;
    (split; [unfold candidate_types_priority; set_solver |]);
    (split; [assumption |]);
    (split; [lia |]);
    (split; [lia |]);
    (split;
     [ intros c' x' [-> | ->]%priority_cases Hx';
       repeat match goal with
              | H : ∀ x, x ≠ EmptyString → _ |- _ =>
                  pose proof (H x' Hx'); clear H
              end; lia
     | intros x' Hne Hx'; try congruence;
       repeat match goal with
              | H : ∀ x, x ≠ EmptyString → _ |- _ =>
                  pose proof (H x' Hx'); clear H
              end; lia ]).
Qed.

Lemma candidate_none (logs : list log_entry) :
  learning_candidate (analyze_lines logs) = None ↔
  ∀ c' x', c' ∈ candidate_types_priority → x' ≠ EmptyString →
           (occurrences logs c' x' ≤ 1)%nat.
Proof.
  pose proof (analyze_lines_candidate logs) as Heq.
  pose proof (top_of_spec logs "Refusal") as HR.
  pose proof (top_of_spec logs "Knowledge Gap") as HK.
  unfold better in Heq.
  destruct (top_of logs "Refusal") as [| [kR nR] rR];
    destruct (top_of logs "Knowledge Gap") as [| [kK nK] rK];
    cbn [fst snd] in Heq;
    try (destruct (Nat.ltb_spec 1 nR); cbn [fst snd] in Heq);
    repeat match type of Heq with
           | context [(?a <? ?b)%nat] =>
               destruct (Nat.ltb_spec a b); cbn [fst snd] in Heq
           end;
    injection Heq as Hc Hfreq; rewrite Hc;
    repeat match goal with
           | H : _ ∧ _ |- _ => destruct H
           end;
    (split;
     [ intros Hnone; try discriminate Hnone;
       intros c' x' [-> | ->]%priority_cases Hx';
       repeat match goal with
              | H : ∀ x, x ≠ EmptyString → _ |- _ =>
                  pose proof (H x' Hx'); clear H
              end; lia
     | intros Hall; try reflexivity; exfalso;
       unfold candidate_types_priority in *;
       first [ assert (occurrences logs "Refusal" kR ≤ 1)%nat
                 by (apply Hall; [set_solver | assumption]); lia
             | assert (occurrences logs "Knowledge Gap" kK ≤ 1)%nat
                 by (apply Hall; [set_solver | assumption]); lia ] ]).
Qed.

Lemma inputs_of_learnable (logs : list log_entry) (c : string) :
  c ∈ candidate_types_priority →
  inputs_of
    (filter (fun log => error_type log ∈ candidate_types_priority) logs) c
  = inputs_of logs c.
Proof.
  intros Hc. unfold inputs_of. rewrite list_filter_filter_l; [reflexivity |].
  by intros log ->.
Qed.

Lemma scenario_count (c x : string) :
  (3 ≤ length (filter (fun k => k = (c, x)) scenario_keys))%nat →
  c = "Refusal" ∧ x = "track bus 42".
Proof.
  unfold scenario_keys. rewrite !filter_cons, filter_nil.
  repeat case_decide; simplify_eq; simpl; intros ?; (done || lia).
Qed.

Lemma scenario_refusals (logs : list log_entry) :
  map log_key logs ≡ₚ scenario_keys →
  occurrences logs "Refusal" "track bus 42" = 3%nat.
Proof. intros H. by rewrite (occurrences_scenario _ _ _ H). Qed.

(** C1: on a log of three Refusal records with normalized input
    "track bus 42", one Refusal record with "college news" and one API
    Error record with "track bus 42", in any order, the candidate is
    (Refusal, "track bus 42"), and the count the analysis keeps and
    reports for it is 3, the number of Refusal records with that input.
    On every log, a candidate belongs to a learnable category, its count
    is the number of records of that category with that input, which
    exceeds 1 and is not exceeded in any learnable category, and a
    candidate of the second category exceeds every count of the first;
    there is no candidate exactly when no count of a learnable category
    exceeds 1; and the records of the other categories have no part in
    the choice. *)
Theorem analyze_errors_candidate :
  (∀ self,
      map log_key (error_logs self) ≡ₚ scenario_keys →
      (analyze_errors self).2 = Some ("Refusal", "track bus 42")
      ∧ highest_freq (analyze_lines (error_logs self)) = 3%nat
      ∧ occurrences (error_logs self) "Refusal" "track bus 42" = 3%nat
      ∧ substring_of (most_frequent_line "Refusal" "track bus 42" 3)
                     (analyze_errors self).1)
  ∧ (∀ self c x,
        (analyze_errors self).2 = Some (c, x) →
        c ∈ candidate_types_priority
        ∧ x ≠ EmptyString
        ∧ occurrences (error_logs self) c x
          = highest_freq (analyze_lines (error_logs self))
        ∧ (1 < occurrences (error_logs self) c x)%nat
        ∧ (∀ c' x', c' ∈ candidate_types_priority → x' ≠ EmptyString →
                    (occurrences (error_logs self) c' x'
                     ≤ occurrences (error_logs self) c x)%nat)
        ∧ (∀ x', c ≠ "Refusal" → x' ≠ EmptyString →
                 (occurrences (error_logs self) "Refusal" x'
                  < occurrences (error_logs self) c x)%nat))
  ∧ (∀ self,
        (analyze_errors self).2 = None ↔
        ∀ c' x', c' ∈ candidate_types_priority → x' ≠ EmptyString →
                 (occurrences (error_logs self) c' x' ≤ 1)%nat)
  ∧ (∀ self,
        (analyze_errors self).2
        = (analyze_errors
             (with_logs
                (filter (fun log => error_type log ∈ candidate_types_priority)
                        (error_logs self)) self)).2).
Proof.
  split; [| split; [| split]].
  - intros [kf lf kb logs] Hperm. simpl in *.
    pose proof (scenario_refusals logs Hperm) as H3.
    assert (Hne : "track bus 42" ≠ EmptyString) by discriminate.
    assert (Hcand : learning_candidate (analyze_lines logs)
                    = Some ("Refusal", "track bus 42")).
    { destruct (learning_candidate (analyze_lines logs)) as [[c x] |] eqn:E.
      - destruct (candidate_selected logs c x E) as (_ & _ & _ & _ & Hmax & _).
        specialize (Hmax "Refusal" "track bus 42" ltac:(left) Hne).
        rewrite H3, (occurrences_scenario _ _ _ Hperm) in Hmax.
        by destruct (scenario_count c x Hmax) as [-> ->].
      - exfalso. pose proof (proj1 (candidate_none logs) E
                               "Refusal" "track bus 42" ltac:(left) Hne).
        lia. }
    destruct (candidate_selected logs _ _ Hcand) as (_ & _ & Hfreq & _).
    split; [exact Hcand |]. split; [by rewrite <- Hfreq |].
    split; [exact H3 |].
    apply join_substring.
    pose proof (top_of_spec logs "Refusal") as Htop.
    destruct (top_of logs "Refusal") as [| [k n] rest] eqn:E.
    + specialize (Htop "track bus 42" Hne). lia.
    + destruct Htop as (_ & Hk & Hocc & Hmax).
      specialize (Hmax "track bus 42" Hne).
      rewrite H3 in Hmax. rewrite <- Hocc in Hmax.
      rewrite (occurrences_scenario _ _ _ Hperm) in Hmax.
      destruct (scenario_count "Refusal" k Hmax) as [_ ->].
      rewrite H3 in Hocc. subst n.
      by eapply analyze_lines_line.
  - intros self c x H. by apply candidate_selected.
  - intros self. apply candidate_none.
  - intros self. unfold analyze_errors. simpl.
    pose proof (analyze_lines_candidate (error_logs self)) as H1.
    pose proof (analyze_lines_candidate
                  (filter (fun log => error_type log ∈ candidate_types_priority)
                          (error_logs self))) as H2.
    unfold top_of in H2.
    rewrite !inputs_of_learnable in H2
      by (unfold candidate_types_priority; set_solver).
    fold (top_of (error_logs self) "Refusal") in H2.
    fold (top_of (error_logs self) "Knowledge Gap") in H2.
    rewrite <- H1 in H2. by injection H2 as -> _.
Qed.

Lemma analyze_errors_candidate_witness :
  let self :=
    with_logs
      [ LogEntry "2024-05-01T09:58:00" "track bus 42"
          "I'm sorry, I encountered a technical difficulty trying to generate a response."
          "API Error" (Some "0.00") (Some "timeout") None;
        Sample.refusal "2024-05-01T10:00:00" "Track bus 42";
        Sample.refusal "2024-05-01T10:05:00" " track bus 42 ";
        Sample.refusal "2024-05-01T10:07:00" "TRACK BUS 42";
        Sample.refusal "2024-05-01T10:09:00" "College news" ]
      Sample.bot in
  map log_key (error_logs self) ≡ₚ scenario_keys
  ∧ (analyze_errors self).2 = Some ("Refusal", "track bus 42").
Proof.
  intros self.
  assert (H : map log_key (error_logs self) ≡ₚ scenario_keys)
    by apply Permutation_cons_append.
  split; [exact H |].
  exact (proj1 (proj1 analyze_errors_candidate self H)).
Defined.

(** * Further properties of the code *)

(** ** Normalization of an input: [s.lower().strip()] *)

Lemma lower_char_idem (c : ascii) :
  Py.lower_char (Py.lower_char c) = Py.lower_char c.
Proof. by destruct c as [[] [] [] [] [] [] [] []]. Qed.

Lemma is_space_lower_char (c : ascii) :
  Py.is_space (Py.lower_char c) = Py.is_space c.
Proof. by destruct c as [[] [] [] [] [] [] [] []]. Qed.

Lemma lower_idem (s : string) : Py.lower (Py.lower s) = Py.lower s.
Proof.
  induction s as [| c s IH]; simpl; [reflexivity |].
  by rewrite lower_char_idem, IH.
Qed.

Lemma lower_lstrip (s : string) : Py.lower (Py.lstrip s) = Py.lstrip (Py.lower s).
Proof.
  induction s as [| c s IH]; simpl; [reflexivity |].
  rewrite is_space_lower_char. by destruct (Py.is_space c).
Qed.

Lemma lower_rstrip (s : string) : Py.lower (Py.rstrip s) = Py.rstrip (Py.lower s).
Proof.
  induction s as [| c s IH]; simpl; [reflexivity |].
  rewrite <- IH, is_space_lower_char.
  destruct (Py.rstrip s); simpl; [by destruct (Py.is_space c) | reflexivity].
Qed.

Lemma lower_strip (s : string) : Py.lower (Py.strip s) = Py.strip (Py.lower s).
Proof. unfold Py.strip. by rewrite lower_rstrip, lower_lstrip. Qed.

Lemma lstrip_idem (s : string) : Py.lstrip (Py.lstrip s) = Py.lstrip s.
Proof.
  induction s as [| c s IH]; simpl; [reflexivity |].
  destruct (Py.is_space c) eqn:E; [exact IH |]. simpl. by rewrite E.
Qed.

Lemma rstrip_idem (s : string) : Py.rstrip (Py.rstrip s) = Py.rstrip s.
Proof.
  induction s as [| c s IH]; simpl; [reflexivity |].
  destruct (Py.rstrip s) as [| d r] eqn:E.
  - destruct (Py.is_space c) eqn:Ec; simpl; [reflexivity | by rewrite Ec].
  - simpl in *. by rewrite IH.
Qed.

Lemma lstrip_rstrip (s : string) :
  Py.lstrip (Py.rstrip s) = Py.rstrip (Py.lstrip s).
Proof.
  induction s as [| c s IH]; simpl; [reflexivity |].
  destruct (Py.is_space c) eqn:Ec.
  - rewrite <- IH. destruct (Py.rstrip s); simpl; [reflexivity | by rewrite Ec].
  - simpl. destruct (Py.rstrip s); simpl; by rewrite Ec.
Qed.

Lemma strip_idem (s : string) : Py.strip (Py.strip s) = Py.strip s.
Proof.
  unfold Py.strip. by rewrite lstrip_rstrip, rstrip_idem, lstrip_idem.
Qed.

Lemma strip_lower_nil : Py.strip (Py.lower EmptyString) = EmptyString.
Proof. reflexivity. Qed.

(** X1: normalizing twice is normalizing once, so a normalized input (a
    key of the knowledge base, the input of a candidate) is its own
    normalized form. *)
Theorem normalize_idempotent (s : string) :
  Py.strip (Py.lower (Py.strip (Py.lower s))) = Py.strip (Py.lower s).
Proof. by rewrite lower_strip, lower_idem, strip_idem. Qed.

Lemma clean_input_normalized (log : log_entry) :
  Py.strip (Py.lower (clean_input log)) = clean_input log.
Proof. unfold clean_input. by rewrite lower_strip, lower_idem, strip_idem. Qed.

(** ** The knowledge base *)

Section KnowledgeFacts.

Variable dumps : document → string.

Lemma generate_response_hit
    (env : turn_env) (user_input : string) (chat_history : list message)
    (self : chatbot) (fs : gmap string string) (learned : string) :
  Py.strip (Py.lower user_input) ≠ EmptyString →
  learned_knowledge self !! Py.strip (Py.lower user_input) = Some learned →
  generate_response dumps env user_input chat_history self fs
  = (Returns (learned, None), [], self, fs).
Proof.
  intros Hne Hkey. unfold generate_response. rewrite Hkey.
  destruct (Py.strip (Py.lower user_input)); [done | reflexivity].
Qed.

(** X2: [add_learned_knowledge] returns true when the write succeeds
    and is left by the exception of [st.toast] when it fails, after the
    response is stored. Either way, once a response is learned for a
    keyword whose normalized form is not empty, every input with that
    normalized form is answered with the stripped response, with no log
    index and no call of the model; the answers stored for other keys,
    the error log and every file but the knowledge file are as before. *)
Theorem learned_response_served
    (w : write_outcome) (keyword response : string)
    (self : chatbot) (fs : gmap string string)
    (env : turn_env) (user_input : string) (chat_history : list message) :
  response ≠ EmptyString →
  Py.strip (Py.lower keyword) ≠ EmptyString →
  Py.strip (Py.lower user_input) = Py.strip (Py.lower keyword) →
  let learnt := add_learned_knowledge dumps w keyword response self fs in
  learnt.1.1
  = (if persisted w then Returns true else Raises StreamlitAPIException)
  ∧ generate_response dumps env user_input chat_history learnt.1.2 learnt.2
    = (Returns (Py.strip response, None), [], learnt.1.2, learnt.2)
  ∧ (∀ key, key ≠ Py.strip (Py.lower keyword) →
            learned_knowledge learnt.1.2 !! key = learned_knowledge self !! key)
  ∧ error_logs learnt.1.2 = error_logs self
  ∧ (∀ other, other ≠ knowledge_file self → learnt.2 !! other = fs !! other).
Proof.
  intros Hresponse Hkey Hinput learnt.
  assert (Hkeyword : keyword ≠ EmptyString) by (by intros ->).
  subst learnt.
  rewrite (add_learned_knowledge_stores dumps w _ _ self fs Hkeyword Hresponse).
  simpl. split; [by destruct w |]. split.
  - apply generate_response_hit; [by rewrite Hinput |].
    simpl. rewrite Hinput. apply lookup_insert_eq.
  - split; [intros key Hne; by rewrite lookup_insert_ne |].
    split; [reflexivity |].
    intros other Hne. destruct w; simpl; try reflexivity;
      by rewrite lookup_insert_ne.
Qed.

(** X3: [reset_knowledge_data] returns true when the write succeeds and
    is left by the exception of [st.toast] when it fails. Either way,
    after it the knowledge base is the default one whatever it
    was: an input whose normalized form is "help" is answered with the
    default text and no call of the model, and an input with any other
    non-empty normalized form is no longer answered from the knowledge
    base: with a model configured it is sent to the model. *)
Theorem reset_knowledge_forgets
    (w : write_outcome) (self : chatbot) (fs : gmap string string)
    (env : turn_env) (generate_content : string → model_result)
    (user_input : string) (chat_history : list message) :
  Py.strip (Py.lower user_input) ≠ EmptyString →
  genai_model env = Some generate_content →
  let reset := reset_knowledge_data dumps w self fs in
  let turn :=
    generate_response dumps env user_input chat_history reset.1.2 reset.2 in
  reset.1.1
  = (if persisted w then Returns true else Raises StreamlitAPIException)
  ∧ learned_knowledge reset.1.2 = DEFAULT_KNOWLEDGE
  ∧ error_logs reset.1.2 = error_logs self
  ∧ (Py.strip (Py.lower user_input) = "help" →
     turn = (Returns (default (EmptyString) (DEFAULT_KNOWLEDGE !! "help"),
                      None), [],
             reset.1.2, reset.2))
  ∧ (Py.strip (Py.lower user_input) ≠ "help" →
     turn.1.1.2 = [prompt_for_genai user_input chat_history]).
Proof.
  intros Hne Hmodel reset turn.
  assert (Hreset : reset
                   = (if persisted w then Returns true
                      else Raises StreamlitAPIException,
                      with_knowledge DEFAULT_KNOWLEDGE self,
                      (save_json_robust dumps w (knowledge_file self)
                         (KnowledgeDoc DEFAULT_KNOWLEDGE) fs).1)).
  { subst reset. unfold reset_knowledge_data. simpl. by destruct w. }
  subst turn. rewrite Hreset. simpl.
  split; [reflexivity |]. split; [reflexivity |]. split; [reflexivity |].
  split.
  - intros Hhelp. apply generate_response_hit; [exact Hne |].
    simpl. by rewrite Hhelp.
  - intros Hother. unfold generate_response. simpl.
    assert (Hmiss : DEFAULT_KNOWLEDGE !! Py.strip (Py.lower user_input) = None).
    { unfold DEFAULT_KNOWLEDGE. by rewrite lookup_singleton_ne. }
    rewrite Hmiss, Hmodel.
    destruct (Py.strip (Py.lower user_input)); [done |]. simpl.
    destruct (error_type_found _); [| reflexivity].
    by destruct (log_error _ _ _ _ _ _ _ _ _ _) as [[? ?] ?].
Qed.

End KnowledgeFacts.

Lemma learned_response_served_witness :
  let learnt :=
    add_learned_knowledge Sample.dumps OpenFails " Track Bus 42" "Bus 42 is on time. "
      Sample.bot ∅ in
  "Bus 42 is on time. " ≠ EmptyString
  ∧ Py.strip (Py.lower " Track Bus 42") ≠ EmptyString
  ∧ Py.strip (Py.lower "TRACK BUS 42  ") = Py.strip (Py.lower " Track Bus 42")
  ∧ learnt.1.1 = Raises StreamlitAPIException
  ∧ (generate_response Sample.dumps (Sample.env (ModelRaises "down"))
       "TRACK BUS 42  " [] learnt.1.2 learnt.2).1.1.1
    = Returns ("Bus 42 is on time.", None).
Proof.
  intros learnt.
  assert (H1 : "Bus 42 is on time. " ≠ EmptyString) by discriminate.
  assert (H2 : Py.strip (Py.lower " Track Bus 42") ≠ EmptyString) by discriminate.
  assert (H3 : Py.strip (Py.lower "TRACK BUS 42  ")
               = Py.strip (Py.lower " Track Bus 42")) by reflexivity.
  destruct (learned_response_served Sample.dumps OpenFails " Track Bus 42"
              "Bus 42 is on time. " Sample.bot ∅
              (Sample.env (ModelRaises "down")) "TRACK BUS 42  " [] H1 H2 H3)
    as (Hsaved & Hturn & _).
  split; [exact H1 |]. split; [exact H2 |]. split; [exact H3 |].
  split; [exact Hsaved |]. fold learnt in Hturn. by rewrite Hturn.
Defined.

Lemma reset_knowledge_forgets_witness :
  let env := Sample.env (ModelReturns (Some (Response (Some "Bus 42 left.") None))) in
  let reset := reset_knowledge_data Sample.dumps WriteOk Sample.bot ∅ in
  Py.strip (Py.lower "track bus 42") ≠ EmptyString
  ∧ genai_model env = Some (fun _ => ModelReturns (Some (Response (Some "Bus 42 left.") None)))
  ∧ learned_knowledge reset.1.2 = DEFAULT_KNOWLEDGE.
Proof.
  intros env reset.
  assert (H1 : Py.strip (Py.lower "track bus 42") ≠ EmptyString) by discriminate.
  split; [exact H1 |]. split; [reflexivity |].
  exact (proj1 (proj2 (reset_knowledge_forgets Sample.dumps WriteOk Sample.bot ∅
                         env _ "track bus 42" [] H1 eq_refl))).
Defined.

(** ** The error log, continued *)

Lemma log_key_set_feedback (feedback : option string) (log : log_entry) :
  log_key (set_feedback feedback log) = log_key log.
Proof. reflexivity. Qed.

Lemma map_log_key_alter (feedback : option string) (n : nat)
    (logs : list log_entry) :
  map log_key (alter (set_feedback feedback) n logs) = map log_key logs.
Proof.
  revert n. induction logs as [| log logs IH]; intros [| n];
    try reflexivity.
  change (log_key log :: map log_key (alter (set_feedback feedback) n logs)
          = log_key log :: map log_key logs).
  by rewrite IH.
Qed.

Lemma inputs_of_keys (l1 l2 : list log_entry) (c : string) :
  map log_key l1 = map log_key l2 → inputs_of l1 c = inputs_of l2 c.
Proof.
  revert l2. induction l1 as [| a l1 IH]; intros [| b l2] H; try discriminate.
  - reflexivity.
  - simpl in H. unfold log_key in H. injection H as Htype Hclean Hrest.
    fold (map log_key l1) in Hrest. fold (map log_key l2) in Hrest.
    unfold inputs_of in *. rewrite !filter_cons, Htype.
    specialize (IH l2 Hrest).
    destruct (decide (error_type b = c)); simpl; [| exact IH].
    rewrite !filter_cons, Hclean. by rewrite IH.
Qed.

Lemma candidate_keys (l1 l2 : list log_entry) :
  map log_key l1 = map log_key l2 →
  learning_candidate (analyze_lines l1) = learning_candidate (analyze_lines l2)
  ∧ highest_freq (analyze_lines l1) = highest_freq (analyze_lines l2).
Proof.
  intros H.
  pose proof (analyze_lines_candidate l1) as H1.
  pose proof (analyze_lines_candidate l2) as H2.
  unfold top_of in *.
  rewrite !(inputs_of_keys l1 l2 _ H) in H1. rewrite <- H2 in H1.
  by injection H1 as -> ->.
Qed.

Section ErrorLogMore.

Variable dumps : document → string.

(** X4: [clear_log_file_data] returns true when the write succeeds and
    is left by the exception of [st.toast] when it fails. Either way,
    after it the log is empty and the knowledge base untouched; every
    index is then refused by [add_feedback_to_log], which changes nothing,
    and the analysis reports that there is nothing logged and names no
    candidate. *)
Theorem clear_log_invalidates_indices
    (w : write_outcome) (self : chatbot) (fs : gmap string string) :
  let cleared := clear_log_file_data dumps w self fs in
  cleared.1.1
  = (if persisted w then Returns true else Raises StreamlitAPIException)
  ∧ error_logs cleared.1.2 = []
  ∧ learned_knowledge cleared.1.2 = learned_knowledge self
  ∧ (∀ w' log_index feedback,
       add_feedback_to_log dumps w' log_index feedback cleared.1.2 cleared.2
       = (Returns false, cleared.1.2, cleared.2))
  ∧ analyze_errors cleared.1.2
    = (Py.join Py.newline
         [ "--- Analyzing Error Logs ---";
           "No errors logged or logs are invalid.";
           "--- Analysis Complete ---" ],
       None).
Proof.
  intros cleared.
  assert (H : cleared
              = (if persisted w then Returns true
                 else Raises StreamlitAPIException, with_logs [] self,
                 (save_json_robust dumps w (log_file self) (LogDoc []) fs).1)).
  { subst cleared. unfold clear_log_file_data. simpl. by destruct w. }
  rewrite H. simpl.
  split; [reflexivity |]. split; [reflexivity |]. split; [reflexivity |].
  split; [| reflexivity].
  intros w' i feedback. rewrite add_feedback_to_log_eq. simpl.
  case_decide; [lia | reflexivity].
Qed.

(** X5: the feedback of the records has no part in the choice of the
    candidate: after [add_feedback_to_log], whatever the index, the
    feedback and the fate of the write, the analysis names the same
    candidate with the same count as before. *)
Theorem feedback_keeps_candidate
    (w : write_outcome) (log_index : Z) (feedback : string)
    (self : chatbot) (fs : gmap string string) :
  let self' := (add_feedback_to_log dumps w log_index feedback self fs).1.2 in
  (analyze_errors self').2 = (analyze_errors self).2
  ∧ highest_freq (analyze_lines (error_logs self'))
    = highest_freq (analyze_lines (error_logs self))
  ∧ ∀ c x, occurrences (error_logs self') c x = occurrences (error_logs self) c x.
Proof.
  intros self'. subst self'. rewrite add_feedback_to_log_eq.
  case_decide; simpl; [| by repeat split].
  pose proof (map_log_key_alter (Some feedback) (Z.to_nat log_index)
                (error_logs self)) as Hkeys.
  destruct (candidate_keys _ _ Hkeys) as [Hc Hf].
  split; [exact Hc |]. split; [exact Hf |].
  intros c x. by rewrite !occurrences_keys, Hkeys.
Qed.

(** A turn that reaches the model. *)
Lemma generate_response_model
    (env : turn_env) (generate_content : string → model_result)
    (user_input : string) (chat_history : list message)
    (self : chatbot) (fs : gmap string string) :
  Py.strip (Py.lower user_input) ≠ EmptyString →
  learned_knowledge self !! Py.strip (Py.lower user_input) = None →
  genai_model env = Some generate_content →
  let prompt := prompt_for_genai user_input chat_history in
  let l := process_response (rnd env) (generate_content prompt) in
  generate_response dumps env user_input chat_history self fs
  = match error_type_found l with
    | Some error_type =>
        let record :=
          new_record (now env) user_input (bot_response_text l) error_type
                     (Some (sim_confidence l)) (genai_error_info l) in
        (if persisted (write env)
         then Returns (bot_response_text l, Some (length (error_logs self)))
         else Raises StreamlitAPIException,
         [prompt],
         with_logs (error_logs self ++ [record]) self,
         (save_json_robust dumps (write env) (log_file self)
            (LogDoc (error_logs self ++ [record])) fs).1)
    | None => (Returns (bot_response_text l, None), [prompt], self, fs)
    end.
Proof.
  intros Hne Hkey Hmodel prompt l. unfold generate_response.
  rewrite Hkey, Hmodel. fold prompt. fold l.
  destruct (Py.strip (Py.lower user_input)); [done |]. simpl.
  destruct (error_type_found l) as [tag |]; [| reflexivity].
  rewrite log_error_eq. by destruct (persisted (write env)).
Qed.

(** The four ways a turn ends. *)
Lemma generate_response_cases
    (env : turn_env) (user_input : string) (chat_history : list message)
    (self : chatbot) (fs : gmap string string) :
  let turn := generate_response dumps env user_input chat_history self fs in
  (turn.1.2 = self ∧ turn.2 = fs ∧ ∃ answer, turn.1.1.1 = Returns (answer, None))
  ∨ ∃ l error_type,
      Py.strip (Py.lower user_input) ≠ EmptyString
      ∧ process_response (rnd env)
          (default (fun _ => ModelRaises EmptyString) (genai_model env)
             (prompt_for_genai user_input chat_history)) = l
      ∧ error_type_found l = Some error_type
      ∧ turn
        = (if persisted (write env)
           then Returns (bot_response_text l, Some (length (error_logs self)))
           else Raises StreamlitAPIException,
           [prompt_for_genai user_input chat_history],
           with_logs
             (error_logs self
              ++ [new_record (now env) user_input (bot_response_text l)
                             error_type (Some (sim_confidence l))
                             (genai_error_info l)]) self,
           (save_json_robust dumps (write env) (log_file self)
              (LogDoc
                 (error_logs self
                  ++ [new_record (now env) user_input (bot_response_text l)
                                 error_type (Some (sim_confidence l))
                                 (genai_error_info l)])) fs).1).
Proof.
  intros turn. subst turn.
  destruct (decide (Py.strip (Py.lower user_input) = EmptyString)) as [He | Hne].
  { left. unfold generate_response. rewrite He. simpl. eauto. }
  destruct (learned_knowledge self !! Py.strip (Py.lower user_input))
    as [learned |] eqn:Hkey.
  { left. rewrite (generate_response_hit dumps env _ _ _ _ _ Hne Hkey).
    simpl. eauto. }
  destruct (genai_model env) as [generate_content |] eqn:Hmodel.
  - rewrite (generate_response_model env generate_content _ _ _ _ Hne Hkey Hmodel).
    simpl.
    destruct (error_type_found _) as [tag |] eqn:Htag;
      [| left; simpl; eauto].
    right. eexists _, tag. split; [exact Hne |]. split; [reflexivity |].
    split; [exact Htag | reflexivity].
  - left. unfold generate_response. rewrite Hkey, Hmodel.
    destruct (Py.strip (Py.lower user_input)); [done |]. simpl. eauto.
Qed.

(** X6: a turn never changes the knowledge base. When it returns a log
    index, that index is the position of one record appended to the log,
    which carries the input as typed, the text returned, the clock's time
    and no feedback, and the log file holds the new log. When it returns
    no index, nothing was logged and no file was touched. When an
    exception leaves it, the write of the log has failed after one record
    was appended, which carries the input as typed and the text of the
    verdict on what the model gave. *)
Theorem generate_response_index
    (env : turn_env) (input : string) (chat_history : list message)
    (self : chatbot) (fs : gmap string string) :
  let turn := generate_response dumps env input chat_history self fs in
  let self' := turn.1.2 in
  learned_knowledge self' = learned_knowledge self
  ∧ match turn.1.1.1 with
    | Returns (answer, Some i) =>
        i = length (error_logs self)
        ∧ write env = WriteOk
        ∧ ∃ record,
            error_logs self' = error_logs self ++ [record]
            ∧ error_logs self' !! i = Some record
            ∧ user_input record = input
            ∧ bot_response record = answer
            ∧ timestamp record = now env
            ∧ feedback_provided record = None
            ∧ turn.2 !! log_file self = Some (dumps (LogDoc (error_logs self')))
    | Returns (answer, None) =>
        error_logs self' = error_logs self ∧ turn.2 = fs
    | Raises _ =>
        write env ≠ WriteOk
        ∧ ∃ record generate_content,
            error_logs self' = error_logs self ++ [record]
            ∧ user_input record = input
            ∧ genai_model env = Some generate_content
            ∧ bot_response record
              = bot_response_text
                  (process_response (rnd env)
                     (generate_content (prompt_for_genai input chat_history)))
            ∧ timestamp record = now env
            ∧ feedback_provided record = None
    end.
Proof.
  intros turn self'. subst self' turn.
  destruct (decide (Py.strip (Py.lower input) = EmptyString)) as [He | Hne].
  { unfold generate_response. rewrite He. simpl. by repeat split. }
  destruct (learned_knowledge self !! Py.strip (Py.lower input))
    as [learned |] eqn:Hkey.
  { rewrite (generate_response_hit dumps env _ _ _ _ _ Hne Hkey).
    simpl. by repeat split. }
  destruct (genai_model env) as [generate_content |] eqn:Hmodel.
  - rewrite (generate_response_model env generate_content _ _ _ _ Hne Hkey Hmodel).
    simpl.
    destruct (error_type_found _) as [tag |] eqn:Htag;
      [| simpl; by repeat split].
    destruct (write env) eqn:Hw; simpl.
    + split; [reflexivity |]. split; [reflexivity |]. split; [reflexivity |].
      eexists. split; [reflexivity |].
      split; [by rewrite lookup_app_r, Nat.sub_diag |].
      repeat (split; [reflexivity |]). apply lookup_insert_eq.
    + split; [reflexivity |]. split; [discriminate |].
      eexists _, generate_content. by repeat split.
    + split; [reflexivity |]. split; [discriminate |].
      eexists _, generate_content. by repeat split.
  - unfold generate_response. rewrite Hkey, Hmodel.
    destruct (Py.strip (Py.lower input)); [done |]. simpl. by repeat split.
Qed.

(** X7: when the call of the model raises, the turn appends one record
    of type API Error with the fixed apology as response, confidence
    0.00, the text of what was raised as detail and the input as typed.
    When the write of the log succeeds it answers with the apology and
    the index of the record; when the write fails the exception of
    [st.toast] leaves it. *)
Theorem generate_response_api_error
    (env : turn_env) (generate_content : string → model_result)
    (user_input : string) (chat_history : list message)
    (self : chatbot) (fs : gmap string string) (e : string) :
  Py.strip (Py.lower user_input) ≠ EmptyString →
  learned_knowledge self !! Py.strip (Py.lower user_input) = None →
  genai_model env = Some generate_content →
  generate_content (prompt_for_genai user_input chat_history) = ModelRaises e →
  let answer :=
    "I'm sorry, I encountered a technical difficulty trying to generate a response." in
  let record :=
    LogEntry (now env) user_input answer "API Error" (Some "0.00") (Some e)
             None in
  generate_response dumps env user_input chat_history self fs
  = (if persisted (write env)
     then Returns (answer, Some (length (error_logs self)))
     else Raises StreamlitAPIException,
     [prompt_for_genai user_input chat_history],
     with_logs (error_logs self ++ [record]) self,
     (save_json_robust dumps (write env) (log_file self)
        (LogDoc (error_logs self ++ [record])) fs).1).
Proof.
  intros Hne Hkey Hmodel Hraise answer record.
  rewrite (generate_response_model env generate_content _ _ _ _ Hne Hkey Hmodel).
  by rewrite Hraise.
Qed.

(** X8: a reply with a text that holds no refusal phrase, in a turn
    where no failure is simulated, is returned as it is with no log
    index; nothing is logged and no file is touched. *)
Theorem generate_response_clean
    (env : turn_env) (generate_content : string → model_result)
    (user_input : string) (chat_history : list message)
    (self : chatbot) (fs : gmap string string)
    (reply : string) (feedback : option prompt_feedback_t) :
  Py.strip (Py.lower user_input) ≠ EmptyString →
  learned_knowledge self !! Py.strip (Py.lower user_input) = None →
  genai_model env = Some generate_content →
  generate_content (prompt_for_genai user_input chat_history)
  = ModelReturns (Some (Response (Some reply) feedback)) →
  (∀ phrase, phrase ∈ REFUSAL_PHRASES →
             ¬ substring_of phrase (Py.lower reply)) →
  (SIMULATED_FAILURE_RATE <= roll (rnd env))%Q →
  generate_response dumps env user_input chat_history self fs
  = (Returns (reply, None), [prompt_for_genai user_input chat_history],
     self, fs).
Proof.
  intros Hne Hkey Hmodel Hreply Hphr Hroll.
  rewrite (generate_response_model env generate_content _ _ _ _ Hne Hkey Hmodel).
  rewrite Hreply. simpl.
  assert (Href : is_refusal reply = false).
  { apply not_true_is_false. intros H. unfold is_refusal in H.
    apply existsb_exists in H as (phrase & Hin & Hc).
    apply (Hphr phrase); [by apply list_elem_of_In | by apply contains_spec]. }
  rewrite Href.
  destruct (Qlt_le_dec _ _) as [Hlt |]; [| reflexivity].
  exfalso. by apply (Qlt_not_le _ _ Hlt).
Qed.

(** X9: for a returned value without text that carries a block reason,
    one record of type Content Blocked is appended, with the message that
    names the reason as response, confidence 0.10 and the reason as
    detail. When the write of the log succeeds the turn answers with the
    message and the index of the record; when the write fails the
    exception of [st.toast] leaves it. *)
Theorem generate_response_blocked
    (env : turn_env) (generate_content : string → model_result)
    (user_input : string) (chat_history : list message)
    (self : chatbot) (fs : gmap string string) (reason : string) :
  Py.strip (Py.lower user_input) ≠ EmptyString →
  learned_knowledge self !! Py.strip (Py.lower user_input) = None →
  genai_model env = Some generate_content →
  generate_content (prompt_for_genai user_input chat_history)
  = ModelReturns (Some (Response None (Some (PromptFeedback (Some reason))))) →
  let answer :=
    "My response was blocked due to safety settings (" +:+ reason
      +:+ "). Please try phrasing differently." in
  let record :=
    LogEntry (now env) user_input answer "Content Blocked" (Some "0.10")
             (Some ("Blocked due to " +:+ reason)) None in
  generate_response dumps env user_input chat_history self fs
  = (if persisted (write env)
     then Returns (answer, Some (length (error_logs self)))
     else Raises StreamlitAPIException,
     [prompt_for_genai user_input chat_history],
     with_logs (error_logs self ++ [record]) self,
     (save_json_robust dumps (write env) (log_file self)
        (LogDoc (error_logs self ++ [record])) fs).1).
Proof.
  intros Hne Hkey Hmodel Hblock answer record.
  rewrite (generate_response_model env generate_content _ _ _ _ Hne Hkey Hmodel).
  by rewrite Hblock.
Qed.

End ErrorLogMore.

Lemma generate_response_api_error_witness :
  let env :=
    TurnEnv (Some (fun _ => ModelRaises "503 unavailable")) Sample.no_draws
            "2024-05-01T10:00:00" OpenFails in
  Py.strip (Py.lower "Track bus 42") ≠ EmptyString
  ∧ learned_knowledge Sample.bot !! Py.strip (Py.lower "Track bus 42") = None
  ∧ (generate_response Sample.dumps env "Track bus 42" [] Sample.bot ∅).1.1.1
    = Raises StreamlitAPIException
  ∧ (generate_response Sample.dumps
       (Sample.env (ModelRaises "503 unavailable")) "Track bus 42" []
       Sample.bot ∅).1.1.1
    = Returns ("I'm sorry, I encountered a technical difficulty trying to generate a response.",
               Some 0%nat).
Proof.
  intros env.
  assert (H1 : Py.strip (Py.lower "Track bus 42") ≠ EmptyString) by discriminate.
  split; [exact H1 |]. split; [reflexivity |]. split.
  - by rewrite (generate_response_api_error Sample.dumps env
                  (fun _ => ModelRaises "503 unavailable") "Track bus 42" []
                  Sample.bot ∅ "503 unavailable" H1 eq_refl eq_refl eq_refl).
  - by rewrite (generate_response_api_error Sample.dumps
                  (Sample.env (ModelRaises "503 unavailable"))
                  (fun _ => ModelRaises "503 unavailable") "Track bus 42" []
                  Sample.bot ∅ "503 unavailable" H1 eq_refl eq_refl eq_refl).
Defined.

Lemma generate_response_clean_witness :
  let reply := "Bus 42 leaves at noon." in
  let env := Sample.env (ModelReturns (Some (Response (Some reply) None))) in
  Py.strip (Py.lower "Track bus 42") ≠ EmptyString
  ∧ (∀ phrase, phrase ∈ REFUSAL_PHRASES →
               ¬ substring_of phrase (Py.lower reply))
  ∧ (SIMULATED_FAILURE_RATE <= roll (rnd env))%Q
  ∧ generate_response Sample.dumps env "Track bus 42" [] Sample.bot ∅
    = (Returns (reply, None), [prompt_for_genai "Track bus 42" []],
       Sample.bot, ∅).
Proof.
  intros reply env.
  assert (H1 : Py.strip (Py.lower "Track bus 42") ≠ EmptyString) by discriminate.
  assert (H2 : ∀ phrase, phrase ∈ REFUSAL_PHRASES →
                         ¬ substring_of phrase (Py.lower reply)).
  { intros phrase Hin Hsub. apply contains_spec in Hsub.
    unfold REFUSAL_PHRASES in Hin.
    repeat (apply elem_of_cons in Hin as [-> | Hin]; [discriminate Hsub |]).
    by apply elem_of_nil in Hin. }
  assert (H3 : (SIMULATED_FAILURE_RATE <= roll (rnd env))%Q) by discriminate.
  split; [exact H1 |]. split; [exact H2 |]. split; [exact H3 |].
  exact (generate_response_clean Sample.dumps env
           (fun _ => ModelReturns (Some (Response (Some reply) None)))
           "Track bus 42" [] Sample.bot ∅ reply None H1 eq_refl eq_refl eq_refl
           H2 H3).
Defined.

Lemma generate_response_blocked_witness :
  let blocked :=
    ModelReturns (Some (Response None (Some (PromptFeedback (Some "SAFETY"))))) in
  let env :=
    TurnEnv (Some (fun _ => blocked)) Sample.no_draws "2024-05-01T10:00:00"
            (WriteFails 1) in
  Py.strip (Py.lower "Track bus 42") ≠ EmptyString
  ∧ (generate_response Sample.dumps env "Track bus 42" [] Sample.bot ∅).1.1.1
    = Raises StreamlitAPIException
  ∧ (generate_response Sample.dumps (Sample.env blocked) "Track bus 42" []
       Sample.bot ∅).1.1.1
    = Returns ("My response was blocked due to safety settings (SAFETY). Please try phrasing differently.",
               Some 0%nat).
Proof.
  intros blocked env.
  assert (H1 : Py.strip (Py.lower "Track bus 42") ≠ EmptyString) by discriminate.
  split; [exact H1 |]. split.
  - by rewrite (generate_response_blocked Sample.dumps env
                  (fun _ => blocked) "Track bus 42" [] Sample.bot ∅ "SAFETY"
                  H1 eq_refl eq_refl eq_refl).
  - by rewrite (generate_response_blocked Sample.dumps (Sample.env blocked)
                  (fun _ => blocked) "Track bus 42" [] Sample.bot ∅ "SAFETY"
                  H1 eq_refl eq_refl eq_refl).
Defined.

(** ** The classifier, continued *)

Lemma choice_elem (draw : nat) (l : list string) :
  l ≠ [] → Py.choice draw l ∈ l.
Proof.
  intros Hl. unfold Py.choice. apply list_elem_of_In, nth_In.
  apply Nat.mod_upper_bound. by destruct l.
Qed.

(** X10: with a draw of [random()] between 0 and 1, the confidence of a
    verdict lies between 0 and 1: it is 1 for a clean reply and at most one
    half for every verdict that is logged. The text of a verdict is the
    reply of the model, one of the three fallback phrases, the message for
    a blocked reply or the fixed apology. *)
Theorem process_response_confidence (rnd : draws) (result : model_result) :
  (0 <= uniform_draw rnd)%Q → (uniform_draw rnd <= 1)%Q →
  let l := process_response rnd result in
  (0 <= sim_confidence l)%Q ∧ (sim_confidence l <= 1)%Q
  ∧ (error_type_found l = None → sim_confidence l = 1%Q)
  ∧ (error_type_found l ≠ None → (sim_confidence l <= 1 # 2)%Q)
  ∧ (text_field (match result with
                 | ModelReturns r => r
                 | ModelRaises _ => None
                 end) = Some (bot_response_text l)
     ∨ bot_response_text l ∈ DEFAULT_FALLBACK_RESPONSES
     ∨ (∃ reason, bot_response_text l
                  = "My response was blocked due to safety settings ("
                      +:+ reason +:+ "). Please try phrasing differently.")
     ∨ bot_response_text l
       = "I'm sorry, I encountered a technical difficulty trying to generate a response.").
Proof.
  intros H0 H1 l. subst l.
  assert (Hfallback : Py.choice (pick_fallback rnd) DEFAULT_FALLBACK_RESPONSES
                      ∈ DEFAULT_FALLBACK_RESPONSES)
    by (by apply choice_elem).
  destruct result as [e | [[[reply |] [[[reason |]] |]] |]]; simpl;
    repeat match goal with
           | |- context [is_refusal ?t] => destruct (is_refusal t)
           | |- context [Qlt_le_dec ?a ?b] => destruct (Qlt_le_dec a b)
           end; simpl; unfold uniform;
    (split; [try lra; try discriminate |]);
    (split; [try lra; try discriminate |]);
    (split; [try done |]);
    (split; [try (intros _; lra); try done |]);
    first [ by left
          | right; left; exact Hfallback
          | right; right; left; by eexists
          | by repeat right ].
Qed.

Lemma process_response_confidence_witness :
  let rnd := Draws 0 (1 # 20) (1 # 2) 1 in
  let result := ModelReturns (Some (Response (Some "Bus 42 leaves at noon.") None)) in
  (0 <= uniform_draw rnd)%Q ∧ (uniform_draw rnd <= 1)%Q
  ∧ error_type_found (process_response rnd result)
    = Some "Simulated Low Confidence"
  ∧ (sim_confidence (process_response rnd result) <= 1 # 2)%Q.
Proof.
  intros rnd result.
  assert (H0 : (0 <= uniform_draw rnd)%Q) by discriminate.
  assert (H1 : (uniform_draw rnd <= 1)%Q) by discriminate.
  split; [exact H0 |]. split; [exact H1 |]. split; [reflexivity |].
  destruct (process_response_confidence rnd result H0 H1) as (_ & _ & _ & H & _).
  by apply H.
Defined.

(** ** The prompt *)

Lemma context_history_recent (older recent : list message) :
  (5 ≤ length recent)%nat →
  context_history (older ++ recent) = context_history recent.
Proof.
  intros H. unfold context_history. f_equal.
  rewrite length_app.
  replace (length older + length recent - 5)%nat
    with (length older + (length recent - 5))%nat by lia.
  apply drop_app_add.
Qed.

(** X11: the model is sent the last five turns of the history and
    nothing older: with five turns or more, the turns before the last
    five have no part in the prompt. The context holds at most five
    turns, none of them under the role "assistant", and the prompt ends
    with the input as typed. *)
Theorem prompt_last_five_turns
    (user_input : string) (older recent : list message) :
  (5 ≤ length recent)%nat →
  prompt_for_genai user_input (older ++ recent)
  = prompt_for_genai user_input recent
  ∧ (length (context_history (older ++ recent)) ≤ 5)%nat
  ∧ Forall (fun msg => role msg ≠ "assistant")
           (context_history (older ++ recent))
  ∧ ∃ head, prompt_for_genai user_input (older ++ recent)
            = head +:+ Py.newline +:+ "user: " +:+ user_input.
Proof.
  intros H. split; [| split; [| split]].
  - unfold prompt_for_genai. by rewrite context_history_recent.
  - unfold context_history. rewrite length_map, length_drop. lia.
  - unfold context_history. apply Forall_forall. intros msg Hin.
    apply list_elem_of_In, in_map_iff in Hin as (m & <- & _). simpl.
    destruct (String.eqb_spec (role m) "assistant"); [discriminate | done].
  - by eexists.
Qed.

Lemma prompt_last_five_turns_witness :
  let turn := Message "user" "hi" in
  let recent := [turn; turn; turn; turn; turn] in
  (5 ≤ length recent)%nat
  ∧ prompt_for_genai "track bus 42" ([Message "assistant" "old"] ++ recent)
    = prompt_for_genai "track bus 42" recent.
Proof.
  intros turn recent.
  assert (H : (5 ≤ length recent)%nat) by (simpl; lia).
  split; [exact H |].
  exact (proj1 (prompt_last_five_turns "track bus 42"
                  [Message "assistant" "old"] recent H)).
Defined.

(** ** The report *)

Lemma insert_desc_perm (x : string * nat) (sorted : Counter.t) :
  Counter.insert_desc x sorted ≡ₚ x :: sorted.
Proof.
  induction sorted as [| y rest IH]; simpl; [reflexivity |].
  destruct (x.2 <? y.2)%nat; [| reflexivity].
  rewrite IH. apply Permutation_swap.
Qed.

Lemma most_common_perm (c : Counter.t) : Counter.most_common c ≡ₚ c.
Proof.
  unfold Counter.most_common. induction c as [| x c IH]; simpl; [reflexivity |].
  by rewrite insert_desc_perm, IH.
Qed.

Lemma insert_desc_sorted (x : string * nat) (sorted : Counter.t) :
  StronglySorted (fun a b => (b.2 ≤ a.2)%nat) sorted →
  StronglySorted (fun a b => (b.2 ≤ a.2)%nat) (Counter.insert_desc x sorted).
Proof.
  induction 1 as [| y rest Hrest IH Hy]; simpl.
  - repeat constructor.
  - destruct (Nat.ltb_spec x.2 y.2) as [Hlt | Hge].
    + constructor; [exact IH |].
      rewrite insert_desc_perm. constructor; [lia | exact Hy].
    + constructor; [by constructor |].
      constructor; [exact Hge |].
      eapply Forall_impl; [exact Hy |]. simpl. intros z Hz. lia.
Qed.

Lemma most_common_sorted (c : Counter.t) :
  StronglySorted (fun a b => (b.2 ≤ a.2)%nat) (Counter.most_common c).
Proof.
  unfold Counter.most_common. induction c as [| x c IH]; simpl;
    [constructor | by apply insert_desc_sorted].
Qed.

Lemma incr_positive (k : string) (c : Counter.t) :
  Forall (fun item => (0 < item.2)%nat) c →
  Forall (fun item => (0 < item.2)%nat) (Counter.incr k c).
Proof.
  induction 1 as [| [k' n] c Hn Hc IH]; simpl.
  - repeat constructor.
  - destruct (String.eqb k k'); constructor; simpl in *; try lia; assumption.
Qed.

Lemma counter_of_positive (keys : list string) :
  Forall (fun item => (0 < item.2)%nat) (counter_of keys).
Proof.
  induction keys as [| k keys IH] using rev_ind; [constructor |].
  rewrite counter_of_snoc. by apply incr_positive.
Qed.

Lemma counter_of_elem (keys : list string) (k : string) (n : nat) :
  (k, n) ∈ counter_of keys ↔
  (0 < n)%nat ∧ n = length (filter (fun x => x = k) keys).
Proof.
  rewrite <- counter_of_get. split.
  - intros Hin. split.
    + pose proof (counter_of_positive keys) as Hpos.
      rewrite Forall_forall in Hpos. apply (Hpos _ Hin).
    + symmetry. apply get_elem; [apply counter_of_NoDup | exact Hin].
  - intros [Hpos ->].
    destruct (get_zero_or_elem k (counter_of keys)) as [H0 | Hin];
      [lia | exact Hin].
Qed.

Lemma tally_log_error_counts (t : tallies) (log : log_entry) :
  error_counts (tally_log t log)
  = Counter.incr (error_type log) (error_counts t).
Proof. unfold tally_log. by destruct (negb _). Qed.

Lemma tally_error_counts (logs : list log_entry) :
  error_counts (fold_left tally_log logs initial_tallies)
  = counter_of (map error_type logs).
Proof.
  induction logs as [| e logs IH] using rev_ind; [reflexivity |].
  rewrite fold_left_app, map_app. simpl.
  by rewrite counter_of_snoc, tally_log_error_counts, IH.
Qed.

Lemma records_of_type_count (logs : list log_entry) (e_type : string) :
  length (filter (fun x => x = e_type) (map error_type logs))
  = records_of_type logs e_type.
Proof.
  unfold records_of_type. induction logs as [| e logs IH]; [reflexivity |].
  simpl. rewrite !filter_cons. case_decide; simpl; by rewrite IH.
Qed.

Lemma select_candidate_extends (by_type : gmap string Counter.t)
    (s : selection) (c : string) :
  ∃ extra, analysis_output (select_candidate by_type s c)
           = analysis_output s ++ extra.
Proof.
  unfold select_candidate.
  destruct (by_type !! c) as [counter |];
    [| exists []; by rewrite app_nil_r].
  destruct (Counter.most_common_1 counter) as [| [k n] rest];
    [exists []; by rewrite app_nil_r |].
  destruct (highest_freq s <? n)%nat; by eexists.
Qed.

(** X12: the report of a log that is not empty opens with its heading
    and the summary: one line for each category that has records, with
    the number of its records, each category once, in order of
    non-increasing number. *)
Theorem analysis_summary (logs : list log_entry) :
  logs ≠ [] →
  ∃ listing rest,
    analysis_output (analyze_lines logs)
    = [ "--- Analyzing Error Logs ---"; "Error Type Summary:" ]
      ++ map summary_line listing ++ rest
    ∧ NoDup (map fst listing)
    ∧ (∀ e_type n,
         (e_type, n) ∈ listing ↔
         (0 < n)%nat ∧ n = records_of_type logs e_type)
    ∧ StronglySorted (fun a b => (b.2 ≤ a.2)%nat) listing.
Proof.
  intros Hne. destruct logs as [| e logs]; [done |]. clear Hne.
  set (all := e :: logs).
  set (counts := counter_of (map error_type all)).
  exists (Counter.most_common counts).
  assert (Hout :
    ∃ rest, analysis_output (analyze_lines all)
            = [ "--- Analyzing Error Logs ---"; "Error Type Summary:" ]
              ++ map summary_line (Counter.most_common counts) ++ rest).
  { unfold analyze_lines, all. cbv zeta. fold all.
    rewrite tally_error_counts. fold counts.
    set (t := fold_left tally_log all initial_tallies).
    assert (Hcounts : counts ≠ []).
    { unfold counts, all. simpl. unfold counter_of. simpl.
      change (fold_left (fun c k => Counter.incr k c) (map error_type logs)
                [(error_type e, 1%nat)])
        with (fold_left (fun c k => Counter.incr k c)
                (map error_type logs) (Counter.incr (error_type e) [])).
      intros H. apply (f_equal Counter.keys) in H.
      assert (Hin : error_type e ∈ Counter.keys
                (fold_left (fun c k => Counter.incr k c) (map error_type logs)
                   (Counter.incr (error_type e) []))).
      { generalize (map error_type logs).
        intros l. induction l as [| k l IH] using rev_ind; [left |].
        rewrite fold_left_app. simpl. rewrite incr_keys.
        case_decide; [exact IH | apply elem_of_app; by left]. }
      rewrite H in Hin. by apply elem_of_nil in Hin. }
    destruct counts as [| item counts'] eqn:Ecounts; [done |].
    rewrite <- Ecounts.
    unfold candidate_types_priority. cbn [fold_left].
    set (out := _ ++ map _ (Counter.most_common counts)).
    destruct (select_candidate_extends (inputs_by_error_type t)
                (Selection out None 1) "Refusal") as [x1 H1].
    destruct (select_candidate_extends (inputs_by_error_type t)
                (select_candidate (inputs_by_error_type t)
                   (Selection out None 1) "Refusal") "Knowledge Gap")
      as [x2 H2].
    cbn [analysis_output] in *. rewrite H1 in H2.
    assert (Hfmt : out
                   = [ "--- Analyzing Error Logs ---"; "Error Type Summary:" ]
                     ++ map summary_line (Counter.most_common counts)).
    { unfold out. simpl. do 2 f_equal. apply map_ext. by intros [k n]. }
    destruct (inputs_with_feedback t); rewrite H2, Hfmt;
      eexists; rewrite <- !app_assoc; simpl; reflexivity. }
  destruct Hout as [rest Hout]. exists rest.
  split; [exact Hout |]. split; [| split].
  - change (map fst (Counter.most_common counts))
      with (Counter.keys (Counter.most_common counts)).
    unfold Counter.keys. rewrite most_common_perm. apply counter_of_NoDup.
  - intros e_type n. rewrite most_common_perm. unfold counts.
    by rewrite counter_of_elem, records_of_type_count.
  - apply most_common_sorted.
Qed.

Lemma analysis_summary_witness :
  let logs :=
    [ Sample.refusal "2024-05-01T10:00:00" "Track bus 42";
      Sample.refusal "2024-05-01T10:05:00" "college news" ] in
  logs ≠ []
  ∧ ∃ listing rest,
      analysis_output (analyze_lines logs)
      = [ "--- Analyzing Error Logs ---"; "Error Type Summary:" ]
        ++ map summary_line listing ++ rest
      ∧ (∀ e_type n,
           (e_type, n) ∈ listing ↔
           (0 < n)%nat ∧ n = records_of_type logs e_type).
Proof.
  intros logs.
  assert (H : logs ≠ []) by discriminate.
  split; [exact H |].
  destruct (analysis_summary logs H) as (listing & rest & H1 & _ & H2 & _).
  by exists listing, rest.
Defined.

(** ** The records of a session *)

Lemma process_response_emitted (rnd : draws) (result : model_result)
    (tag : string) :
  error_type_found (process_response rnd result) = Some tag →
  tag ∈ emitted_types.
Proof.
  unfold emitted_types.
  destruct result as [e | [[[reply |] [[[reason |]] |]] |]]; simpl;
    repeat match goal with
           | |- context [is_refusal ?t] => destruct (is_refusal t)
           | |- context [Qlt_le_dec ?a ?b] => destruct (Qlt_le_dec a b)
           end; simpl; intros H; try discriminate H;
    injection H as <-; set_solver.
Qed.

Lemma emitted_set_feedback (feedback : option string) (log : log_entry) :
  emitted log → emitted (set_feedback feedback log).
Proof. by intros H. Qed.

Lemma occurrences_positive (logs : list log_entry) (c x : string) :
  (0 < occurrences logs c x)%nat →
  ∃ log, log ∈ logs ∧ error_type log = c ∧ clean_input log = x.
Proof.
  unfold occurrences. intros H.
  destruct (filter _ logs) as [| log rest] eqn:E; [simpl in H; lia |].
  assert (Hin : log ∈ filter (fun log => log_key log = (c, x)) logs)
    by (rewrite E; left).
  apply list_elem_of_filter in Hin as [Hkey Hin].
  exists log. split; [exact Hin |]. unfold log_key in Hkey.
  by injection Hkey as -> ->.
Qed.

Section SessionRecords.

Variable dumps : document → string.

Lemma generate_response_emitted
    (env : turn_env) (user_input : string) (chat_history : list message)
    (self : chatbot) (fs : gmap string string) :
  Forall emitted (error_logs self) →
  Forall emitted
    (error_logs (generate_response dumps env user_input chat_history self fs).1.2).
Proof.
  intros H.
  destruct (generate_response_cases dumps env user_input chat_history self fs)
    as [(-> & _) | (l & tag & Hne & Hl & Htag & ->)]; [exact H |].
  simpl. apply Forall_app. split; [exact H |].
  constructor; [| constructor]. split; [| split].
  - simpl. rewrite <- Hl in Htag. by eapply process_response_emitted.
  - exact Hne.
  - by eexists.
Qed.

Lemma run_emitted (o : operation) (st : chatbot * gmap string string) :
  is_log_error o = false →
  Forall emitted (error_logs st.1) →
  Forall emitted (error_logs (run dumps st o).1).
Proof.
  destruct st as [self fs].
  destruct o as [now w ui br et conf ge | w i feedback | env ui history |
                 | w keyword response | w | w]; simpl; intros Ho H;
    try discriminate Ho.
  - rewrite add_feedback_to_log_eq. case_decide; simpl; [| exact H].
    apply Forall_alter; [exact H |]. intros log _. apply emitted_set_feedback.
  - pose proof (generate_response_emitted env ui history self fs H) as H'.
    by destruct (generate_response dumps env ui history self fs)
      as [[[answer prompts] self'] fs'].
  - exact H.
  - unfold add_learned_knowledge.
    destruct (negb _ || negb _); [exact H |]. simpl.
    by destruct (save_json_robust _ _ _ _ _).
  - unfold clear_log_file_data. simpl.
    by destruct (save_json_robust _ _ _ _ _).
  - unfold reset_knowledge_data. simpl.
    by destruct (save_json_robust _ _ _ _ _).
Qed.

(** X13: in a session that starts from a log of records written by a
    turn (the empty log is one), with any operations of the page in any
    order (every method but a direct call of [log_error]), every record of
    the log has one of the five categories
    the classifier writes, an input that is not empty once normalized and
    a confidence; the category Knowledge Gap never occurs, so a candidate
    of the analysis is always a Refusal, and it is the normalized input of
    a Refusal record of the log. *)
Theorem page_session_records (ops : list operation)
    (st : chatbot * gmap string string) :
  Forall (fun o => is_log_error o = false) ops →
  Forall emitted (error_logs st.1) →
  let st' := run_all dumps st ops in
  Forall emitted (error_logs st'.1)
  ∧ ∀ c x, (analyze_errors st'.1).2 = Some (c, x) →
           c = "Refusal"
           ∧ ∃ log, log ∈ error_logs st'.1
                    ∧ error_type log = "Refusal" ∧ clean_input log = x.
Proof.
  intros Hops Hst st'.
  assert (Hem : Forall emitted (error_logs st'.1)).
  { subst st'. revert st Hst.
    induction Hops as [| o ops Ho _ IH]; intros st Hst; simpl; [exact Hst |].
    apply IH. by apply run_emitted. }
  split; [exact Hem |].
  intros c x Hcand. unfold analyze_errors in Hcand. simpl in Hcand.
  destruct (candidate_selected _ _ _ Hcand) as (Hc & _ & _ & Hocc & _).
  assert (Hpos : (0 < occurrences (error_logs st'.1) c x)%nat) by lia.
  destruct (occurrences_positive _ c x Hpos) as (log & Hin & Htype & Hx).
  assert (Hrefusal : c = "Refusal").
  { apply priority_cases in Hc as [-> | ->]; [reflexivity |].
    rewrite Forall_forall in Hem. destruct (Hem log Hin) as [Hty _].
    rewrite Htype in Hty. unfold emitted_types in Hty.
    repeat (apply elem_of_cons in Hty as [Hty | Hty]; [discriminate Hty |]).
    by apply elem_of_nil in Hty. }
  split; [exact Hrefusal |]. exists log. by rewrite <- Hrefusal.
Qed.

End SessionRecords.

Lemma page_session_records_witness :
  let ops :=
    [ OpGenerate (Sample.env (ModelRaises "down")) "Track bus 42" [];
      OpAddFeedback WriteOk 0 "skipped";
      OpAnalyze ] in
  Forall (fun o => is_log_error o = false) ops
  ∧ Forall emitted (error_logs Sample.bot)
  ∧ Forall emitted (error_logs (run_all Sample.dumps (Sample.bot, ∅) ops).1).
Proof.
  intros ops.
  assert (H1 : Forall (fun o => is_log_error o = false) ops)
    by (repeat constructor).
  assert (H2 : Forall emitted (error_logs Sample.bot)) by constructor.
  split; [exact H1 |]. split; [exact H2 |].
  exact (proj1 (page_session_records Sample.dumps ops (Sample.bot, ∅) H1 H2)).
Defined.

(** ** Promoting a candidate *)

(** X14: when the analysis names a candidate and a response that is not
    empty is then learned for its input, every input with that normalized
    form, such as the inputs of the two or more records that made it the
    candidate, is from then on answered with the stripped response, with
    no log index and no call of the model. *)
Theorem promoted_candidate_served (dumps : document → string)
    (self : chatbot) (fs : gmap string string) (c x : string)
    (w : write_outcome) (response : string) :
  (analyze_errors self).2 = Some (c, x) →
  response ≠ EmptyString →
  let learnt := add_learned_knowledge dumps w x response self fs in
  (1 < occurrences (error_logs self) c x)%nat
  ∧ learned_knowledge learnt.1.2 !! x = Some (Py.strip response)
  ∧ ∀ env input chat_history,
      Py.strip (Py.lower input) = x →
      generate_response dumps env input chat_history learnt.1.2 learnt.2
      = (Returns (Py.strip response, None), [], learnt.1.2, learnt.2).
Proof.
  intros Hcand Hresponse learnt.
  unfold analyze_errors in Hcand. simpl in Hcand.
  destruct (candidate_selected _ _ _ Hcand) as (_ & Hx & _ & Hocc & _).
  assert (Hpos : (0 < occurrences (error_logs self) c x)%nat) by lia.
  destruct (occurrences_positive _ c x Hpos) as (log & _ & _ & Hclean).
  assert (Hnorm : Py.strip (Py.lower x) = x)
    by (rewrite <- Hclean; apply clean_input_normalized).
  assert (Hkeyword : x ≠ EmptyString) by exact Hx.
  split; [exact Hocc |].
  subst learnt.
  rewrite (add_learned_knowledge_stores dumps w _ _ self fs Hkeyword Hresponse).
  simpl. rewrite Hnorm. split; [apply lookup_insert_eq |].
  intros env input chat_history Hinput.
  apply generate_response_hit; [by rewrite Hinput |].
  simpl. rewrite Hinput. apply lookup_insert_eq.
Qed.

Lemma promoted_candidate_served_witness :
  let self :=
    with_logs
      [ Sample.refusal "2024-05-01T10:00:00" "Track bus 42";
        Sample.refusal "2024-05-01T10:05:00" " track bus 42 " ]
      Sample.bot in
  let learnt :=
    add_learned_knowledge Sample.dumps WriteOk "track bus 42"
      "Bus 42 is on time." self ∅ in
  (analyze_errors self).2 = Some ("Refusal", "track bus 42")
  ∧ "Bus 42 is on time." ≠ EmptyString
  ∧ learned_knowledge learnt.1.2 !! "track bus 42" = Some "Bus 42 is on time.".
Proof.
  intros self learnt.
  assert (H1 : (analyze_errors self).2 = Some ("Refusal", "track bus 42"))
    by reflexivity.
  assert (H2 : "Bus 42 is on time." ≠ EmptyString) by discriminate.
  split; [exact H1 |]. split; [exact H2 |].
  exact (proj1 (proj2 (promoted_candidate_served Sample.dumps self ∅ _ _
                         WriteOk "Bus 42 is on time." H1 H2))).
Defined.

(** ** The durable store, continued *)

Section DurableStoreMore.

Context {doc : Type}.
Variable dumps : doc → string.
Variable loads : string → option doc.

(** X15: a document that reads back from its own text is returned by the
    load that follows its successful save, whatever default is given, and
    that load changes no file. *)
Theorem save_load_round_trip
    (w : write_outcome) (r : rename_outcome) (stamp filename : string)
    (data default_data : doc) (fs : gmap string string) :
  loads (dumps data) = Some data →
  let saved := save_json_robust dumps WriteOk filename data fs in
  saved.2 = Returns true
  ∧ load_json_robust dumps loads w r true stamp filename default_data saved.1
    = (saved.1, Returns data).
Proof.
  intros Hcodec saved. split; [reflexivity |].
  unfold load_json_robust. subst saved. simpl.
  by rewrite lookup_insert_eq, Hcodec.
Qed.

(** X16: a load changes no file but the one it is asked for and the
    quarantine name of that file, [<name>.bad_<stamp>]; it changes none
    at all when the document parses or when reading it fails for another
    reason than its syntax. It returns the document when there is one
    that parses; it is left by the exception of [st.toast] when there is
    no document and the write of the default fails; in every other case
    it returns the default. *)
Theorem load_json_robust_frame
    (w : write_outcome) (r : rename_outcome) (readable : bool)
    (stamp filename : string) (default_data : doc)
    (fs : gmap string string) :
  let out :=
    load_json_robust dumps loads w r readable stamp filename default_data fs in
  (∀ other, other ≠ filename → other ≠ backup_filename filename stamp →
            out.1 !! other = fs !! other)
  ∧ (∀ bytes, fs !! filename = Some bytes →
              (readable = false ∨ is_Some (loads bytes)) → out.1 = fs)
  ∧ out.2
    = match fs !! filename with
      | Some bytes =>
          Returns (if readable then default default_data (loads bytes)
                   else default_data)
      | None =>
          if persisted w then Returns default_data
          else Raises StreamlitAPIException
      end.
Proof.
  intros out. subst out. unfold load_json_robust, os_rename.
  destruct (fs !! filename) as [bytes |] eqn:Hfile.
  - destruct readable.
    + destruct (loads bytes) as [data |] eqn:Hparse; simpl.
      * split; [done |]. by split.
      * split.
        { intros other H1 H2. destruct r; simpl; rewrite ?Hfile;
            [| reflexivity].
          by rewrite lookup_insert_ne, lookup_delete_ne. }
        split; [| reflexivity].
        intros b Hb [Hr | [d Hd]]; [discriminate |].
        injection Hb as <-. congruence.
    + simpl. split; [done |]. by split.
  - split.
    + intros other H1 _. destruct w; simpl; try reflexivity;
        by rewrite lookup_insert_ne.
    + split; [by intros b Hb | by destruct w].
Qed.

End DurableStoreMore.

Lemma save_load_round_trip_witness :
  Sample.loads (Sample.dumps (LogDoc [])) = Some (LogDoc [])
  ∧ load_json_robust Sample.dumps Sample.loads OpenFails RenameFails true
      "20240501100001" LOG_FILE (LogDoc [Sample.refusal "t" "x"])
      (save_json_robust Sample.dumps WriteOk LOG_FILE (LogDoc []) ∅).1
    = ((save_json_robust Sample.dumps WriteOk LOG_FILE (LogDoc []) ∅).1,
       Returns (LogDoc [])).
Proof.
  split; [reflexivity |].
  exact (proj2 (save_load_round_trip Sample.dumps Sample.loads OpenFails
                  RenameFails "20240501100001" LOG_FILE (LogDoc [])
                  (LogDoc [Sample.refusal "t" "x"]) ∅ eq_refl)).
Defined.

Lemma load_json_robust_frame_witness :
  let fs : gmap string string :=
    {[ KNOWLEDGE_FILE := "{oops"; LOG_FILE := "[]" ]} in
  LOG_FILE ≠ KNOWLEDGE_FILE
  ∧ LOG_FILE ≠ backup_filename KNOWLEDGE_FILE "20240501100001"
  ∧ (load_json_robust Sample.dumps Sample.loads WriteOk RenameOk true
       "20240501100001" KNOWLEDGE_FILE (KnowledgeDoc DEFAULT_KNOWLEDGE) fs).1
      !! LOG_FILE = fs !! LOG_FILE.
Proof.
  intros fs.
  assert (H1 : LOG_FILE ≠ KNOWLEDGE_FILE) by discriminate.
  assert (H2 : LOG_FILE ≠ backup_filename KNOWLEDGE_FILE "20240501100001")
    by discriminate.
  split; [exact H1 |]. split; [exact H2 |].
  exact (proj1 (load_json_robust_frame Sample.dumps Sample.loads WriteOk
                  RenameOk true "20240501100001" KNOWLEDGE_FILE
                  (KnowledgeDoc DEFAULT_KNOWLEDGE) fs) LOG_FILE H1 H2).
Defined.

Lemma save_json_robust_files_other {doc : Type} (dumps : doc → string)
    (w : write_outcome) (filename : string) (data : doc)
    (fs : gmap string string) (other : string) :
  other ≠ filename →
  (save_json_robust dumps w filename data fs).1 !! other = fs !! other.
Proof.
  intros Hne. destruct w; simpl; try reflexivity; by rewrite lookup_insert_ne.
Qed.

(** ** Starting and restarting a session *)

Section InitFacts.

Variable dumps : document → string.
Variable loads : string → option document.

(** X17: on a medium that holds neither file, with two different
    names: when the two writes succeed, [__init__] gives the default
    knowledge and the empty log, and each file holds its store; when one
    of them fails, the exception of [st.toast] leaves [__init__] and no
    instance is made, and if it is the write of the knowledge file that
    fails, the log file is not made either. *)
Theorem init_fresh
    (for_knowledge for_logs : load_env) (knowledge_file log_file : string)
    (fs : gmap string string) :
  fs !! knowledge_file = None →
  fs !! log_file = None →
  knowledge_file ≠ log_file →
  let started := __init__ dumps loads for_knowledge for_logs
                   knowledge_file log_file fs in
  (load_write for_knowledge = WriteOk → load_write for_logs = WriteOk →
   ∃ made, started.1 = Returns made
           ∧ well_shaped made
             = Some (Chatbot knowledge_file log_file DEFAULT_KNOWLEDGE [])
           ∧ synced dumps (Chatbot knowledge_file log_file DEFAULT_KNOWLEDGE [])
                    started.2)
  ∧ (load_write for_knowledge ≠ WriteOk ∨ load_write for_logs ≠ WriteOk →
     started.1 = Raises StreamlitAPIException)
  ∧ (load_write for_knowledge ≠ WriteOk → started.2 !! log_file = None).
Proof.
  intros Hk Hl Hne started. subst started.
  unfold __init__, load_json_robust. rewrite Hk.
  destruct (load_write for_knowledge) eqn:Hwk; simpl.
  - rewrite lookup_insert_ne, Hl by exact Hne.
    destruct (load_write for_logs) eqn:Hwl; simpl.
    + split.
      * intros _ _. eexists. split; [reflexivity |]. split; [reflexivity |].
        split; simpl.
        -- by rewrite lookup_insert_ne, lookup_insert_eq.
        -- apply lookup_insert_eq.
      * split; [by intros [? | ?] | done].
    + split; [done |]. by split.
    + split; [done |]. by split.
  - split; [done |]. by split.
  - split; [done |]. split; [done |]. intros _.
    by rewrite lookup_insert_ne.
Qed.

(** X18: when the two files hold the two stores of an instance and each
    of the two documents reads back from its own text, [__init__] on
    these files gives that very instance and changes no file: what was
    saved is what a restarted session starts from. *)
Theorem init_restart
    (for_knowledge for_logs : load_env) (self : chatbot)
    (fs : gmap string string) :
  synced dumps self fs →
  loads (dumps (KnowledgeDoc (learned_knowledge self)))
  = Some (KnowledgeDoc (learned_knowledge self)) →
  loads (dumps (LogDoc (error_logs self))) = Some (LogDoc (error_logs self)) →
  load_readable for_knowledge = true →
  load_readable for_logs = true →
  let started := __init__ dumps loads for_knowledge for_logs
                   (knowledge_file self) (log_file self) fs in
  (∃ made, started.1 = Returns made ∧ well_shaped made = Some self)
  ∧ started.2 = fs.
Proof.
  intros [Hk Hl] Hck Hcl Hrk Hrl started. subst started.
  unfold __init__, load_json_robust.
  rewrite Hk, Hrk, Hck, Hl, Hrl, Hcl. simpl. split; [| reflexivity].
  eexists. split; [reflexivity |]. by destruct self.
Qed.

End InitFacts.

Section Durability.

Variable dumps : document → string.

Lemma synced_log_written (self : chatbot) (fs : gmap string string)
    (logs : list log_entry) :
  knowledge_file self ≠ log_file self →
  synced dumps self fs →
  synced dumps (with_logs logs self)
    (save_json_robust dumps WriteOk (log_file self) (LogDoc logs) fs).1.
Proof.
  intros Hne [Hk _]. split; simpl.
  - by rewrite lookup_insert_ne.
  - apply lookup_insert_eq.
Qed.

Lemma synced_knowledge_written (self : chatbot) (fs : gmap string string)
    (knowledge : gmap string string) :
  knowledge_file self ≠ log_file self →
  synced dumps self fs →
  synced dumps (with_knowledge knowledge self)
    (save_json_robust dumps WriteOk (knowledge_file self)
       (KnowledgeDoc knowledge) fs).1.
Proof.
  intros Hne [_ Hl]. split; simpl.
  - apply lookup_insert_eq.
  - by rewrite lookup_insert_ne.
Qed.

Lemma run_synced (o : operation) (st : chatbot * gmap string string) :
  knowledge_file st.1 ≠ log_file st.1 →
  synced dumps st.1 st.2 →
  writes_succeed o →
  synced dumps (run dumps st o).1 (run dumps st o).2
  ∧ knowledge_file (run dumps st o).1 = knowledge_file st.1
  ∧ log_file (run dumps st o).1 = log_file st.1.
Proof.
  destruct st as [self fs]. unfold writes_succeed.
  destruct o as [now w ui br et conf ge | w i feedback | env ui history |
                 | w keyword response | w | w]; simpl; intros Hne Hs Hw;
    try (specialize (Hw _ eq_refl)); try subst w.
  - rewrite log_error_eq. simpl. split; [| done].
    by apply synced_log_written.
  - rewrite add_feedback_to_log_eq. case_decide; simpl; [| done].
    split; [| done]. by apply synced_log_written.
  - destruct (generate_response_cases dumps env ui history self fs)
      as [(H1 & H2 & _) | (l & tag & _ & _ & _ & H)].
    + destruct (generate_response dumps env ui history self fs)
        as [[[answer prompts] self'] fs']. simpl in *. by subst.
    + rewrite H, Hw. simpl. split; [| done]. by apply synced_log_written.
  - done.
  - unfold add_learned_knowledge.
    destruct (negb _ || negb _); [done |]. simpl. split; [| done].
    apply (synced_knowledge_written self fs _ Hne Hs).
  - unfold clear_log_file_data. simpl. split; [| done].
    by apply synced_log_written.
  - unfold reset_knowledge_data. simpl. split; [| done].
    apply (synced_knowledge_written self fs _ Hne Hs).
Qed.

(** X19: in a session whose two files have different names and hold the
    two stores, and in which every write succeeds, the files hold the two
    stores after every operation, all seven methods of the class in any
    order; the file names never change. *)
Theorem session_synced (ops : list operation)
    (st : chatbot * gmap string string) :
  knowledge_file st.1 ≠ log_file st.1 →
  synced dumps st.1 st.2 →
  Forall writes_succeed ops →
  let st' := run_all dumps st ops in
  synced dumps st'.1 st'.2
  ∧ knowledge_file st'.1 = knowledge_file st.1
  ∧ log_file st'.1 = log_file st.1.
Proof.
  intros Hne Hs Hops st'. subst st'. revert st Hne Hs.
  induction Hops as [| o ops Ho _ IH]; intros st Hne Hs; simpl; [done |].
  destruct (run_synced o st Hne Hs Ho) as (Hs' & Hk & Hl).
  destruct (IH (run dumps st o)) as (H1 & H2 & H3);
    [by rewrite Hk, Hl | exact Hs' |].
  split; [exact H1 |]. split; congruence.
Qed.

End Durability.

Lemma init_fresh_witness :
  let env := LoadEnv WriteOk RenameOk true "20240501100001" in
  let started :=
    __init__ Sample.dumps Sample.loads env env KNOWLEDGE_FILE LOG_FILE ∅ in
  let failing := LoadEnv OpenFails RenameOk true "20240501100001" in
  (∅ : gmap string string) !! KNOWLEDGE_FILE = None
  ∧ (∅ : gmap string string) !! LOG_FILE = None
  ∧ KNOWLEDGE_FILE ≠ LOG_FILE
  ∧ (∃ made, started.1 = Returns made ∧ well_shaped made = Some Sample.bot)
  ∧ synced Sample.dumps Sample.bot started.2
  ∧ (__init__ Sample.dumps Sample.loads env failing KNOWLEDGE_FILE LOG_FILE
       ∅).1 = Raises StreamlitAPIException.
Proof.
  intros env started failing.
  assert (H1 : (∅ : gmap string string) !! KNOWLEDGE_FILE = None)
    by apply lookup_empty.
  assert (H2 : (∅ : gmap string string) !! LOG_FILE = None)
    by apply lookup_empty.
  assert (H3 : KNOWLEDGE_FILE ≠ LOG_FILE) by discriminate.
  destruct (init_fresh Sample.dumps Sample.loads env env KNOWLEDGE_FILE
              LOG_FILE ∅ H1 H2 H3) as (Hmade & _ & _).
  destruct (Hmade eq_refl eq_refl) as (made & Hstarted & Hshape & Hsync).
  destruct (init_fresh Sample.dumps Sample.loads env failing KNOWLEDGE_FILE
              LOG_FILE ∅ H1 H2 H3) as (_ & Hraise & _).
  split; [exact H1 |]. split; [exact H2 |]. split; [exact H3 |].
  split; [by exists made |]. split; [exact Hsync |].
  apply Hraise. by right.
Defined.

Lemma init_restart_witness :
  let env := LoadEnv OpenFails RenameFails true "20240501100001" in
  let self := Chatbot KNOWLEDGE_FILE LOG_FILE ∅ [] in
  let fs : gmap string string := {[ KNOWLEDGE_FILE := "{}"; LOG_FILE := "[]" ]} in
  synced Sample.dumps self fs
  ∧ ∃ made,
      (__init__ Sample.dumps Sample.loads env env KNOWLEDGE_FILE LOG_FILE fs).1
      = Returns made
      ∧ well_shaped made = Some self.
Proof.
  intros env self fs.
  assert (Hs : synced Sample.dumps self fs) by (split; reflexivity).
  split; [exact Hs |].
  exact (proj1 (init_restart Sample.dumps Sample.loads env env self fs Hs
                  eq_refl eq_refl eq_refl eq_refl)).
Defined.

Lemma session_synced_witness :
  let started :=
    __init__ Sample.dumps Sample.loads
      (LoadEnv WriteOk RenameOk true "20240501100001")
      (LoadEnv WriteOk RenameOk true "20240501100001")
      KNOWLEDGE_FILE LOG_FILE ∅ in
  let ops :=
    [ OpGenerate (Sample.env (ModelRaises "down")) "Track bus 42" [];
      OpAddFeedback WriteOk 0 "wrong answer";
      OpAddKnowledge WriteOk "track bus 42" "Bus 42 is on time." ] in
  let st' := run_all Sample.dumps (Sample.bot, started.2) ops in
  knowledge_file Sample.bot ≠ log_file Sample.bot
  ∧ synced Sample.dumps Sample.bot started.2
  ∧ Forall writes_succeed ops
  ∧ synced Sample.dumps st'.1 st'.2.
Proof.
  intros started ops st'.
  assert (H1 : knowledge_file Sample.bot ≠ log_file Sample.bot) by discriminate.
  assert (H2 : synced Sample.dumps Sample.bot started.2) by (split; reflexivity).
  assert (H3 : Forall writes_succeed ops).
  { repeat constructor; intros w Hw; by injection Hw as <-. }
  split; [exact H1 |]. split; [exact H2 |]. split; [exact H3 |].
  exact (proj1 (session_synced Sample.dumps ops (Sample.bot, started.2)
                  H1 H2 H3)).
Defined.

(** ** The page *)

Lemma candidate_is_normalized (logs : list log_entry) (c x : string) :
  learning_candidate (analyze_lines logs) = Some (c, x) →
  x ≠ EmptyString ∧ Py.strip (Py.lower x) = x.
Proof.
  intros Hcand.
  destruct (candidate_selected _ _ _ Hcand) as (_ & Hx & _ & Hocc & _).
  assert (Hpos : (0 < occurrences logs c x)%nat) by lia.
  destruct (occurrences_positive _ c x Hpos) as (log & _ & _ & Hclean).
  split; [exact Hx |]. rewrite <- Hclean. apply clean_input_normalized.
Qed.

(** Every icon the page and [save_json_robust] give to [st.toast] makes
    it raise. *)
Ltac toast_raises :=
  unfold toast_then;
  repeat match goal with
         | |- context [st_toast ?icon] =>
             change (st_toast icon) with (@Raises unit StreamlitAPIException)
         end.

Section PageFacts.

Variable dumps : document → string.

Lemma page_step_pending (st : session * gmap string string)
    (e : page_event) :
  pending_invariant st.1 → pending_invariant (page_step dumps st e).1.
Proof.
  destruct st as [[bot msgs last fr cand res ccl crk show conf] fs].
  unfold pending_invariant, one_pending, feedback_addressed.
  simpl. intros ((H1 & H2 & H3) & Hfb).
  destruct e as [| new_response w | | | | w | | | w | | feedback_text w | w
                 | prompt env]; unfold page_step, page_script; toast_raises;
    simpl.
  - (* Analyze Errors *)
    unfold analyze_errors. by simpl.
  - (* Learn This Response *)
    destruct (learning_shown _); [| done].
    destruct cand as [[c x] |]; [| done].
    destruct (Py.truthy new_response); [| done].
    unfold add_learned_knowledge.
    destruct (negb _ || negb _); [done |]. simpl.
    destruct w; by simpl.
  - (* Skip Learning *)
    by destruct (learning_shown _).
  - (* View/Hide Error Log *)
    done.
  - (* Clear Error Log *)
    done.
  - (* Yes, Clear Log *)
    destruct ccl; [| done]. simpl.
    assert (Hfr : fr = false) by (by destruct fr).
    subst fr. unfold clear_log_file_data. simpl.
    destruct w; by simpl.
  - (* Cancel Clear *)
    destruct ccl; simpl; [| done]. repeat split; try done; by destruct fr.
  - (* Reset Learned Knowledge *)
    done.
  - (* Yes, Reset KB *)
    destruct crk; [| done]. simpl. unfold reset_knowledge_data. simpl.
    destruct w; by simpl.
  - (* Cancel Reset KB *)
    destruct crk; simpl; [| done].
    repeat split; try done; try (by destruct fr); by destruct ccl.
  - (* Submit Feedback *)
    destruct (feedback_shown _); [| done].
    destruct last as [index |]; [| done].
    destruct (Py.truthy feedback_text); [| done].
    rewrite add_feedback_to_log_eq. case_decide as Hin; simpl; [| done].
    assert (Hkeep :
      fr = true →
      ∃ index0 record older,
        Some index = Some index0
        ∧ alter (set_feedback (Some feedback_text))
                (Z.to_nat (Z.of_nat index)) (error_logs bot) !! index0
          = Some record
        ∧ msgs = older ++ [ Message "user" (user_input record);
                            Message "assistant" (bot_response record) ]).
    { intros Hfr. destruct (Hfb Hfr) as (i & record & older & Hi & Hrec & Hm).
      injection Hi as <-.
      exists index, (set_feedback (Some feedback_text) record), older.
      split; [reflexivity |]. split; [| exact Hm].
      by rewrite Nat2Z.id, list_lookup_alter_eq, Hrec. }
    destruct w; by simpl.
  - (* Skip Feedback *)
    destruct (feedback_shown _); [| done].
    destruct last as [index |]; [| done].
    rewrite add_feedback_to_log_eq. case_decide as Hin; simpl; [| done].
    assert (Hkeep :
      fr = true →
      ∃ index0 record older,
        Some index = Some index0
        ∧ alter (set_feedback (Some "skipped"))
                (Z.to_nat (Z.of_nat index)) (error_logs bot) !! index0
          = Some record
        ∧ msgs = older ++ [ Message "user" (user_input record);
                            Message "assistant" (bot_response record) ]).
    { intros Hfr. destruct (Hfb Hfr) as (i & record & older & Hi & Hrec & Hm).
      injection Hi as <-.
      exists index, (set_feedback (Some "skipped") record), older.
      split; [reflexivity |]. split; [| exact Hm].
      by rewrite Nat2Z.id, list_lookup_alter_eq, Hrec. }
    destruct w; by simpl.
  - (* chat input *)
    destruct (negb (chat_input_disabled _) && Py.truthy prompt); [| done].
    destruct conf; simpl; [| done].
    pose proof (generate_response_cases dumps env prompt
                  (msgs ++ [Message "user" prompt]) bot fs) as Hcases.
    simpl in Hcases.
    destruct (generate_response dumps env prompt
                (msgs ++ [Message "user" prompt]) bot fs)
      as [[[returned prompts] bot'] fs'] eqn:Hgen.
    simpl in Hcases.
    destruct Hcases as [(-> & -> & answer & ->) | (l & tag & _ & _ & _ & Heq)];
      [done |].
    injection Heq as -> _ -> _.
    destruct (persisted (write env)); simpl; [| done].
    split; [done |].
    intros _. eexists _, _, msgs. split; [reflexivity |].
    split; [by rewrite lookup_app_r, Nat.sub_diag |].
    simpl. by rewrite <- app_assoc.
Qed.

Lemma page_step_keys (st : session * gmap string string) (e : page_event) :
  keys_invariant st.1 → keys_invariant (page_step dumps st e).1.
Proof.
  destruct st as [[bot msgs last fr cand res ccl crk show conf] fs].
  unfold keys_invariant, candidate_normalized.
  simpl. intros (Hcand & Hkey).
  destruct e as [| new_response w | | | | w | | | w | | feedback_text w | w
                 | prompt env]; unfold page_step, page_script; toast_raises;
    simpl.
  - (* Analyze Errors *)
    unfold analyze_errors. simpl. split; [| exact Hkey].
    intros c x Hc. by eapply candidate_is_normalized.
  - (* Learn This Response *)
    destruct (learning_shown _); [| done].
    destruct cand as [[c x] |]; [| done].
    destruct (Py.truthy new_response) eqn:Hresp; [| done].
    apply truthy_spec in Hresp.
    destruct (Hcand c x eq_refl) as [Hx Hnorm].
    rewrite (add_learned_knowledge_stores dumps w x new_response bot fs Hx Hresp).
    simpl. rewrite Hnorm.
    assert (Hkey' : <[x := Py.strip new_response]> (learned_knowledge bot)
                      !! EmptyString = None)
      by (by rewrite lookup_insert_ne).
    destruct w; by simpl.
  - (* Skip Learning *)
    by destruct (learning_shown _).
  - (* View/Hide Error Log *)
    done.
  - (* Clear Error Log *)
    done.
  - (* Yes, Clear Log *)
    destruct ccl; [| done]. simpl. unfold clear_log_file_data. simpl.
    destruct w; by simpl.
  - (* Cancel Clear *)
    by destruct ccl.
  - (* Reset Learned Knowledge *)
    done.
  - (* Yes, Reset KB *)
    destruct crk; [| done]. simpl. unfold reset_knowledge_data. simpl.
    destruct w; by simpl.
  - (* Cancel Reset KB *)
    by destruct crk.
  - (* Submit Feedback *)
    destruct (feedback_shown _); [| done].
    destruct last as [index |]; [| done].
    destruct (Py.truthy feedback_text); [| done].
    rewrite add_feedback_to_log_eq. case_decide; [| done].
    destruct w; by simpl.
  - (* Skip Feedback *)
    destruct (feedback_shown _); [| done].
    destruct last as [index |]; [| done].
    rewrite add_feedback_to_log_eq. case_decide; [| done].
    destruct w; by simpl.
  - (* chat input *)
    destruct (negb (chat_input_disabled _) && Py.truthy prompt); [| done].
    destruct conf; simpl; [| done].
    pose proof (generate_response_cases dumps env prompt
                  (msgs ++ [Message "user" prompt]) bot fs) as Hcases.
    simpl in Hcases.
    destruct (generate_response dumps env prompt
                (msgs ++ [Message "user" prompt]) bot fs)
      as [[[returned prompts] bot'] fs'] eqn:Hgen.
    simpl in Hcases.
    destruct Hcases as [(-> & -> & answer & ->) | (l & tag & _ & _ & _ & Heq)];
      [done |].
    injection Heq as -> _ -> _.
    by destruct (persisted (write env)).
Qed.

Lemma page_run_pending (events : list page_event)
    (st : session * gmap string string) :
  pending_invariant st.1 → pending_invariant (page_run dumps st events).1.
Proof.
  revert st. induction events as [| e events IH]; intros st H; [exact H |].
  simpl. apply IH. by apply page_step_pending.
Qed.

Lemma page_run_keys (events : list page_event)
    (st : session * gmap string string) :
  keys_invariant st.1 → keys_invariant (page_run dumps st events).1.
Proof.
  revert st. induction events as [| e events IH]; intros st H; [exact H |].
  simpl. apply IH. by apply page_step_keys.
Qed.

Lemma initial_pending (bot : chatbot) (configured : bool) :
  pending_invariant (initial_session bot configured).
Proof. by repeat split. Qed.

Lemma preserved_alter (logs : list log_entry) (n : nat)
    (feedback : option string) :
  preserved logs (alter (set_feedback feedback) n logs).
Proof.
  intros i e H. destruct (decide (n = i)) as [-> | Hne].
  - exists (set_feedback feedback e). split; [| reflexivity].
    by rewrite list_lookup_alter_eq, H.
  - exists e. split; [| reflexivity]. by rewrite list_lookup_alter_ne.
Qed.

(** X20: from the start of a session and through any interactions with
    the page, at most one of the three pending actions (feedback, clearing
    the log, resetting the knowledge base) is requested; and whenever a
    feedback is requested, the index the page has kept is that of a record
    of the log, which is the record of the last exchange of the
    conversation. A feedback that is submitted is written into that
    record; the run then stops on the exception of [st.toast], or of the
    failed save, before the request is turned off, so that the request is
    still pending and the chat box still disabled. *)
Theorem page_feedback_addressed (events : list page_event)
    (bot : chatbot) (configured : bool) (fs : gmap string string) :
  let st := page_run dumps (initial_session bot configured, fs) events in
  one_pending st.1
  ∧ (ss_feedback_requested st.1 = true →
     ∃ index record older,
       ss_last_error_log_index st.1 = Some index
       ∧ error_logs (ss_chatbot st.1) !! index = Some record
       ∧ ss_messages st.1
         = older ++ [ Message "user" (user_input record);
                      Message "assistant" (bot_response record) ]
       ∧ ∀ feedback_text w,
           feedback_text ≠ EmptyString →
           let run := page_script dumps st (SubmitFeedback feedback_text w) in
           error_logs (ss_chatbot run.1.2) !! index
           = Some (set_feedback (Some feedback_text) record)
           ∧ run.1.1 = Stopped StreamlitAPIException
           ∧ ss_feedback_requested run.1.2 = true
           ∧ chat_input_disabled run.1.2 = true).
Proof.
  intros st.
  destruct (page_run_pending events (initial_session bot configured, fs)
              (initial_pending bot configured)) as [Hone Hfb].
  fold st in Hone, Hfb. split; [exact Hone |].
  intros Hreq. destruct (Hfb Hreq) as (index & record & older & H1 & H2 & H3).
  exists index, record, older. repeat (split; [assumption |]).
  intros feedback_text w Htext. apply truthy_spec in Htext.
  destruct st as [s fs']. simpl in *. unfold page_script, feedback_shown.
  toast_raises.
  rewrite Hreq, H1. simpl. rewrite Htext, add_feedback_to_log_eq.
  pose proof (lookup_lt_Some _ _ _ H2) as Hlt.
  case_decide; [| lia]. simpl.
  assert (Hrec : alter (set_feedback (Some feedback_text))
                   (Z.to_nat (Z.of_nat index)) (error_logs (ss_chatbot s))
                   !! index
                 = Some (set_feedback (Some feedback_text) record))
    by (by rewrite Nat2Z.id, list_lookup_alter_eq, H2).
  unfold chat_input_disabled.
  destruct w; simpl; rewrite Hreq; by repeat split.
Qed.

(** X21: when the knowledge base a session starts from has no empty
    key, it has none after any interactions with the page; the candidate
    the page holds always has an input that is normalized and not empty,
    and learning a response for it stores the stripped response under
    that very input, whether the run then stops on an exception or
    not. *)
Theorem page_keys (events : list page_event)
    (bot : chatbot) (configured : bool) (fs : gmap string string) :
  learned_knowledge bot !! EmptyString = None →
  let st := page_run dumps (initial_session bot configured, fs) events in
  learned_knowledge (ss_chatbot st.1) !! EmptyString = None
  ∧ ∀ e_type input,
      ss_learning_candidate st.1 = Some (e_type, input) →
      input ≠ EmptyString
      ∧ Py.strip (Py.lower input) = input
      ∧ ∀ new_response w,
          new_response ≠ EmptyString →
          learning_shown st.1 = true →
          let st' := page_step dumps st (LearnThisResponse new_response w) in
          learned_knowledge (ss_chatbot st'.1) !! input
          = Some (Py.strip new_response).
Proof.
  intros Hkey st.
  assert (Hinit : keys_invariant (initial_session bot configured)) by (by split).
  destruct (page_run_keys events (initial_session bot configured, fs) Hinit)
    as [Hcand Hk].
  fold st in Hcand, Hk. split; [exact Hk |].
  intros c x Hc. destruct (Hcand c x Hc) as [Hx Hnorm].
  split; [exact Hx |]. split; [exact Hnorm |].
  intros new_response w Hresp Hshown.
  destruct st as [s fs']. unfold page_step, page_script. toast_raises.
  simpl in *. rewrite Hshown, Hc.
  pose proof Hresp as Htruthy. apply truthy_spec in Htruthy. rewrite Htruthy.
  rewrite (add_learned_knowledge_stores dumps w x new_response _ fs' Hx Hresp).
  simpl. rewrite Hnorm.
  destruct w; simpl; apply lookup_insert_eq.
Qed.

(** X22: nothing is lost without a confirmation. An interaction other
    than "Yes, Clear Log" under its confirmation leaves every record of
    the log at its index, changed at most in its feedback; an interaction
    other than "Yes, Reset KB" under its confirmation leaves every key of
    the knowledge base in it. *)
Theorem page_destruction_confirmed (st : session * gmap string string)
    (e : page_event) :
  (¬ clears_log st.1 e →
   preserved (error_logs (ss_chatbot st.1))
             (error_logs (ss_chatbot (page_step dumps st e).1)))
  ∧ (¬ resets_knowledge st.1 e →
     ∀ key, is_Some (learned_knowledge (ss_chatbot st.1) !! key) →
            is_Some (learned_knowledge
                       (ss_chatbot (page_step dumps st e).1) !! key)).
Proof.
  destruct st as [[bot msgs last fr cand res ccl crk show conf] fs].
  unfold clears_log, resets_knowledge. simpl.
  destruct e as [| new_response w | | | | w | | | w | | feedback_text w | w
                 | prompt env]; unfold page_step, page_script; toast_raises;
    simpl.
  - unfold analyze_errors. simpl. split; intros _; [apply preserved_refl | done].
  - destruct (learning_shown _);
      [| split; intros _; [apply preserved_refl | done]].
    destruct cand as [[c x] |];
      [| split; intros _; [apply preserved_refl | done]].
    destruct (Py.truthy new_response);
      [| split; intros _; [apply preserved_refl | done]].
    unfold add_learned_knowledge.
    destruct (negb _ || negb _); simpl;
      [split; intros _; [apply preserved_refl | done] |].
    destruct w; simpl;
      (split; intros _; [apply preserved_refl |]);
      intros key Hk; apply lookup_insert_is_Some'; by right.
  - destruct (learning_shown _); split; intros _;
      first [apply preserved_refl | done].
  - split; intros _; [apply preserved_refl | done].
  - split; intros _; [apply preserved_refl | done].
  - destruct ccl; simpl.
    + split; [intros Hn; exfalso; apply Hn; by eauto |].
      unfold clear_log_file_data. simpl.
      destruct w; by simpl.
    + split; intros _; [apply preserved_refl | done].
  - destruct ccl; split; intros _; first [apply preserved_refl | done].
  - split; intros _; [apply preserved_refl | done].
  - destruct crk; simpl.
    + split; [| intros Hn; exfalso; apply Hn; by eauto].
      intros _. unfold reset_knowledge_data. simpl.
      destruct w; simpl; apply preserved_refl.
    + split; intros _; [apply preserved_refl | done].
  - destruct crk; split; intros _; first [apply preserved_refl | done].
  - destruct (feedback_shown _);
      [| split; intros _; [apply preserved_refl | done]].
    destruct last as [index |];
      [| split; intros _; [apply preserved_refl | done]].
    destruct (Py.truthy feedback_text);
      [| split; intros _; [apply preserved_refl | done]].
    rewrite add_feedback_to_log_eq.
    case_decide; [destruct w |]; simpl; split; intros _;
      first [apply preserved_alter | apply preserved_refl | done].
  - destruct (feedback_shown _);
      [| split; intros _; [apply preserved_refl | done]].
    destruct last as [index |];
      [| split; intros _; [apply preserved_refl | done]].
    rewrite add_feedback_to_log_eq.
    case_decide; [destruct w |]; simpl; split; intros _;
      first [apply preserved_alter | apply preserved_refl | done].
  - destruct (negb (chat_input_disabled _) && Py.truthy prompt);
      [| split; intros _; [apply preserved_refl | done]].
    destruct conf; simpl;
      [| split; intros _; [apply preserved_refl | done]].
    pose proof (generate_response_cases dumps env prompt
                  (msgs ++ [Message "user" prompt]) bot fs) as Hcases.
    simpl in Hcases.
    destruct (generate_response dumps env prompt
                (msgs ++ [Message "user" prompt]) bot fs)
      as [[[returned prompts] bot'] fs'] eqn:Hgen.
    simpl in Hcases.
    destruct Hcases as [(-> & -> & answer & ->) | (l & tag & _ & _ & _ & Heq)].
    + split; intros _; [apply preserved_refl | done].
    + injection Heq as -> _ -> _.
      destruct (persisted (write env)); simpl; split; intros _;
        first [apply preserved_app | done].
Qed.

(** X23: the conversation only grows, and only by a message typed into
    the chat box while it is enabled: such a message adds itself under the
    role "user" and then, unless an exception leaves the turn, which only
    a failed write of the log makes happen, one answer under the role
    "assistant"; no other interaction changes the conversation. *)
Theorem page_messages_grow (st : session * gmap string string)
    (e : page_event) :
  ss_messages (page_step dumps st e).1 = ss_messages st.1
  ∨ ∃ prompt env,
      e = ChatInput prompt env
      ∧ prompt ≠ EmptyString
      ∧ chat_input_disabled st.1 = false
      ∧ ((∃ reply,
            ss_messages (page_step dumps st e).1
            = ss_messages st.1
              ++ [ Message "user" prompt; Message "assistant" reply ])
         ∨ (ss_messages (page_step dumps st e).1
            = ss_messages st.1 ++ [ Message "user" prompt ]
            ∧ (page_script dumps st e).1.1 = Stopped StreamlitAPIException
            ∧ ss_genai_configured st.1 = true
            ∧ write env ≠ WriteOk)).
Proof.
  destruct st as [[bot msgs last fr cand res ccl crk show conf] fs].
  destruct e as [| new_response w | | | | w | | | w | | feedback_text w | w
                 | prompt env]; unfold page_step, page_script; toast_raises;
    simpl.
  - unfold analyze_errors. by left.
  - left. destruct (learning_shown _); [| done].
    destruct cand as [[c x] |]; [| done].
    destruct (Py.truthy new_response); [| done].
    destruct (add_learned_knowledge _ _ _ _ _ _) as [[[[] |] ?] ?]; done.
  - left. by destruct (learning_shown _).
  - by left.
  - by left.
  - left. destruct ccl; [| done].
    by destruct (clear_log_file_data _ _ _ _) as [[[[] |] ?] ?].
  - left. by destruct ccl.
  - by left.
  - left. destruct crk; [| done].
    by destruct (reset_knowledge_data _ _ _ _) as [[[[] |] ?] ?].
  - left. by destruct crk.
  - left. destruct (feedback_shown _); [| done].
    destruct last; [| done]. destruct (Py.truthy feedback_text); [| done].
    by destruct (add_feedback_to_log _ _ _ _ _ _) as [[[[] |] ?] ?].
  - left. destruct (feedback_shown _); [| done].
    destruct last; [| done].
    by destruct (add_feedback_to_log _ _ _ _ _ _) as [[[[] |] ?] ?].
  - destruct (chat_input_disabled _) eqn:Hdis; simpl; [by left |].
    destruct (Py.truthy prompt) eqn:Hp; [| by left].
    apply truthy_spec in Hp. right. exists prompt, env.
    repeat (split; [done |]).
    destruct conf; simpl.
    + pose proof (generate_response_cases dumps env prompt
                    (msgs ++ [Message "user" prompt]) bot fs) as Hcases.
      simpl in Hcases.
      destruct (generate_response dumps env prompt
                  (msgs ++ [Message "user" prompt]) bot fs)
        as [[[returned prompts] bot'] fs'] eqn:Hgen.
      simpl in Hcases.
      destruct Hcases as [(-> & -> & answer & ->) | (l & tag & _ & _ & _ & Heq)].
      * left. exists answer. simpl. by rewrite <- app_assoc.
      * injection Heq as -> _ -> _.
        destruct (write env) eqn:Hw; simpl.
        -- left. eexists. by rewrite <- app_assoc.
        -- right. by repeat split.
        -- right. by repeat split.
    + left. eexists. simpl. by rewrite <- app_assoc.
Qed.

End PageFacts.

Lemma page_feedback_addressed_witness :
  let events := [ ChatInput "Track bus 42" (Sample.env (ModelRaises "down")) ] in
  let st := page_run Sample.dumps (initial_session Sample.bot true, ∅) events in
  let run :=
    page_script Sample.dumps st (SubmitFeedback "wrong answer" WriteOk) in
  ss_feedback_requested st.1 = true
  ∧ "wrong answer" ≠ EmptyString
  ∧ run.1.1 = Stopped StreamlitAPIException
  ∧ ss_feedback_requested run.1.2 = true.
Proof.
  intros events st run.
  assert (H1 : ss_feedback_requested st.1 = true) by reflexivity.
  assert (H2 : "wrong answer" ≠ EmptyString) by discriminate.
  split; [exact H1 |]. split; [exact H2 |].
  destruct (proj2 (page_feedback_addressed Sample.dumps events Sample.bot true ∅)
              H1) as (index & record & older & _ & _ & _ & H).
  destruct (H "wrong answer" WriteOk H2) as (_ & Hend & Hreq & _).
  by split.
Defined.

Lemma page_keys_witness :
  let events :=
    [ ChatInput "Track bus 42"
        (Sample.env (ModelReturns (Some (Response (Some "I cannot help.") None))));
      SkipFeedback WriteOk;
      ViewHideErrorLog;
      ChatInput "track bus 42 "
        (Sample.env (ModelReturns (Some (Response (Some "I cannot help.") None))));
      AnalyzeErrors ] in
  let st := page_run Sample.dumps (initial_session Sample.bot true, ∅) events in
  learned_knowledge Sample.bot !! EmptyString = None
  ∧ ss_learning_candidate st.1 = Some ("Refusal", "track bus 42")
  ∧ learning_shown st.1 = true
  ∧ learned_knowledge (ss_chatbot st.1) !! EmptyString = None
  ∧ learned_knowledge
      (ss_chatbot
         (page_step Sample.dumps st
            (LearnThisResponse " Bus 42 is on time." WriteOk)).1)
      !! "track bus 42"
    = Some "Bus 42 is on time.".
Proof.
  intros events st.
  assert (H1 : learned_knowledge Sample.bot !! EmptyString = None) by reflexivity.
  assert (H2 : ss_learning_candidate st.1 = Some ("Refusal", "track bus 42"))
    by reflexivity.
  assert (H3 : learning_shown st.1 = true) by reflexivity.
  destruct (page_keys Sample.dumps events Sample.bot true ∅ H1) as [Hk Hc].
  destruct (Hc _ _ H2) as (_ & _ & Hlearn).
  split; [exact H1 |]. split; [exact H2 |]. split; [exact H3 |].
  split; [exact Hk |].
  apply (Hlearn " Bus 42 is on time." WriteOk); [discriminate | exact H3].
Defined.

Lemma page_destruction_confirmed_witness :
  let st : session * gmap string string :=
    (initial_session
       (with_logs [Sample.refusal "2024-05-01T10:00:00" "Track bus 42"]
                  Sample.bot) true, ∅) in
  ¬ clears_log st.1 (YesClearLog WriteOk)
  ∧ preserved (error_logs (ss_chatbot st.1))
      (error_logs (ss_chatbot (page_step Sample.dumps st (YesClearLog WriteOk)).1)).
Proof.
  intros st.
  assert (H : ¬ clears_log st.1 (YesClearLog WriteOk)) by (by intros [? _]).
  split; [exact H |].
  exact (proj1 (page_destruction_confirmed Sample.dumps st (YesClearLog WriteOk)) H).
Defined.

(** ** The files of a session *)

Section SessionFiles.

Variable dumps : document → string.

Lemma run_files (o : operation) (st : chatbot * gmap string string)
    (other : string) :
  other ≠ knowledge_file st.1 → other ≠ log_file st.1 →
  (run dumps st o).2 !! other = st.2 !! other
  ∧ knowledge_file (run dumps st o).1 = knowledge_file st.1
  ∧ log_file (run dumps st o).1 = log_file st.1.
Proof.
  destruct st as [self fs]. simpl. intros Hk Hl.
  destruct o as [now w ui br et conf ge | w i feedback | env ui history |
                 | w keyword response | w | w]; simpl.
  - rewrite log_error_eq. simpl. split; [| done].
    by apply save_json_robust_files_other.
  - rewrite add_feedback_to_log_eq. case_decide; simpl; [| done].
    split; [| done]. by apply save_json_robust_files_other.
  - destruct (generate_response_cases dumps env ui history self fs)
      as [(H1 & H2 & _) | (l & tag & _ & _ & _ & H)].
    + destruct (generate_response dumps env ui history self fs)
        as [[[answer prompts] self'] fs']. simpl in *. by subst.
    + rewrite H. simpl. split; [| done].
      by apply save_json_robust_files_other.
  - done.
  - unfold add_learned_knowledge.
    destruct (negb _ || negb _); [done |]. simpl.
    pose proof (save_json_robust_files_other dumps w (knowledge_file self)
                  (KnowledgeDoc (<[Py.strip (Py.lower keyword) := Py.strip response]>
                                   (learned_knowledge self))) fs other Hk) as H.
    by destruct (save_json_robust _ _ _ _ _).
  - unfold clear_log_file_data. simpl.
    pose proof (save_json_robust_files_other dumps w (log_file self)
                  (LogDoc []) fs other Hl) as H.
    by destruct (save_json_robust _ _ _ _ _).
  - unfold reset_knowledge_data. simpl.
    pose proof (save_json_robust_files_other dumps w (knowledge_file self)
                  (KnowledgeDoc DEFAULT_KNOWLEDGE) fs other Hk) as H.
    by destruct (save_json_robust _ _ _ _ _).
Qed.

(** X24: the methods of the class write no file but the knowledge file
    and the log file of the instance, whose names they never change: every
    other file, a quarantined document among them, is after any sequence
    of operations what it was before. *)
Theorem session_files_frame (ops : list operation)
    (st : chatbot * gmap string string) (other : string) :
  other ≠ knowledge_file st.1 → other ≠ log_file st.1 →
  let st' := run_all dumps st ops in
  st'.2 !! other = st.2 !! other
  ∧ knowledge_file st'.1 = knowledge_file st.1
  ∧ log_file st'.1 = log_file st.1.
Proof.
  intros Hk Hl st'. subst st'. revert st Hk Hl.
  induction ops as [| o ops IH]; intros st Hk Hl; simpl; [done |].
  destruct (run_files o st other Hk Hl) as (H1 & H2 & H3).
  destruct (IH (run dumps st o)) as (H4 & H5 & H6);
    [by rewrite H2 | by rewrite H3 |].
  split; [congruence |]. split; congruence.
Qed.

End SessionFiles.

Lemma session_files_frame_witness :
  let fs : gmap string string :=
    {[ backup_filename LOG_FILE "20240501100001" := "[oops" ]} in
  let ops :=
    [ OpGenerate (Sample.env (ModelRaises "down")) "Track bus 42" [];
      OpClearLog WriteOk; OpResetKnowledge (WriteFails 3) ] in
  backup_filename LOG_FILE "20240501100001" ≠ knowledge_file Sample.bot
  ∧ backup_filename LOG_FILE "20240501100001" ≠ log_file Sample.bot
  ∧ (run_all Sample.dumps (Sample.bot, fs) ops).2
      !! backup_filename LOG_FILE "20240501100001" = Some "[oops".
Proof.
  intros fs ops.
  assert (H1 : backup_filename LOG_FILE "20240501100001"
               ≠ knowledge_file Sample.bot) by discriminate.
  assert (H2 : backup_filename LOG_FILE "20240501100001"
               ≠ log_file Sample.bot) by discriminate.
  split; [exact H1 |]. split; [exact H2 |].
  by rewrite (proj1 (session_files_frame Sample.dumps ops (Sample.bot, fs)
                       _ H1 H2)).
Defined.

(** ** The feedback section of the report *)

Lemma tally_log_feedback (t : tallies) (log : log_entry) :
  inputs_with_feedback (tally_log t log)
  = if decide (counted_feedback log)
    then Counter.incr (clean_input log) (inputs_with_feedback t)
    else inputs_with_feedback t.
Proof.
  unfold tally_log, counted_feedback. fold (clean_input log).
  destruct (Py.truthy (clean_input log)) eqn:Ht; simpl.
  - apply truthy_spec in Ht.
    destruct (feedback_counts (feedback_provided log)) eqn:Hf.
    + by rewrite decide_True.
    + rewrite decide_False; [reflexivity | by intros [_ ?]].
  - rewrite decide_False; [reflexivity |].
    intros [H _]. apply truthy_spec in H. congruence.
Qed.

Lemma tally_feedback (logs : list log_entry) :
  inputs_with_feedback (fold_left tally_log logs initial_tallies)
  = counter_of (map clean_input (filter counted_feedback logs)).
Proof.
  induction logs as [| e logs IH] using rev_ind; [reflexivity |].
  rewrite fold_left_app, filter_app, map_app. simpl.
  rewrite tally_log_feedback, IH, filter_cons, filter_nil.
  destruct (decide (counted_feedback e)); simpl.
  - by rewrite counter_of_snoc.
  - by rewrite app_nil_r.
Qed.

Lemma feedback_records_count (logs : list log_entry) (input : string) :
  length (filter (fun x => x = input)
                 (map clean_input (filter counted_feedback logs)))
  = feedback_records logs input.
Proof.
  unfold feedback_records. induction logs as [| e logs IH]; [reflexivity |].
  rewrite !filter_cons.
  destruct (decide (counted_feedback e)) as [Hc | Hc]; simpl.
  - rewrite filter_cons.
    destruct (decide (clean_input e = input)) as [He | He].
    + rewrite decide_True by done. simpl. by rewrite IH.
    + rewrite decide_False by (by intros [_ ?]). exact IH.
  - rewrite decide_False by (by intros [? _]). exact IH.
Qed.

Lemma counter_of_nil (keys : list string) :
  counter_of keys = [] ↔ keys = [].
Proof.
  split; [| by intros ->].
  intros H. destruct keys as [| k keys]; [reflexivity |]. exfalso.
  assert (Hin : (k, length (filter (fun x => x = k) (k :: keys)))
                ∈ counter_of (k :: keys)).
  { apply counter_of_elem. split; [| reflexivity].
    rewrite filter_cons, decide_True by done. simpl. lia. }
  rewrite H in Hin. by apply elem_of_nil in Hin.
Qed.

Lemma most_common_n_nil (c : Counter.t) (n : nat) :
  (0 < n)%nat → Counter.most_common_n n c = [] ↔ c = [].
Proof.
  intros Hn. unfold Counter.most_common_n.
  pose proof (most_common_perm c) as Hp. split.
  - intros H. destruct (Counter.most_common c) as [| y ys].
    + by apply Permutation_nil in Hp.
    + destruct n; [lia | discriminate H].
  - intros ->. symmetry in Hp. apply Permutation_nil in Hp.
    by rewrite Hp, take_nil.
Qed.

(** X25: the report of a log that is not empty ends with the feedback
    section and the closing line. The section lists at most five inputs,
    each once, in order of non-increasing number, each with the number of
    records of that normalized input whose feedback counts (a feedback
    that is not empty, is no skip marker and does not start with
    "error:"); the section is absent exactly when no record has such a
    feedback. *)
Theorem analysis_feedback_section (logs : list log_entry) :
  logs ≠ [] →
  ∃ before listing,
    analysis_output (analyze_lines logs)
    = before
      ++ match listing with
         | [] => []
         | _ => feedback_heading :: map feedback_line listing
         end
      ++ [ "--- Analysis Complete ---" ]
    ∧ (length listing ≤ 5)%nat
    ∧ NoDup (map fst listing)
    ∧ (∀ input n,
         (input, n) ∈ listing →
         input ≠ EmptyString ∧ (0 < n)%nat ∧ n = feedback_records logs input)
    ∧ (listing = [] ↔ ∀ log, log ∈ logs → ¬ counted_feedback log)
    ∧ StronglySorted (fun a b => (b.2 ≤ a.2)%nat) listing.
Proof.
  intros Hne. destruct logs as [| e logs]; [done |]. clear Hne.
  set (all := e :: logs).
  set (inputs := map clean_input (filter counted_feedback all)).
  set (listing := Counter.most_common_n 5 (counter_of inputs)).
  assert (Hsub : ∀ item, item ∈ listing → item ∈ counter_of inputs).
  { intros item Hin. unfold listing, Counter.most_common_n in Hin.
    apply (subseteq_take 5) in Hin. by rewrite most_common_perm in Hin. }
  assert (Hout : ∃ before,
    analysis_output (analyze_lines all)
    = before
      ++ match listing with
         | [] => []
         | _ => feedback_heading :: map feedback_line listing
         end
      ++ [ "--- Analysis Complete ---" ]).
  { unfold analyze_lines, all. cbv zeta. fold all.
    rewrite tally_feedback. fold inputs. fold listing.
    cbn [analysis_output]. eexists.
    pose proof (most_common_n_nil (counter_of inputs) 5 ltac:(lia)) as Hnil.
    fold listing in Hnil. clearbody listing.
    destruct (counter_of inputs) as [| item c'].
    - rewrite (proj2 Hnil eq_refl). reflexivity.
    - destruct listing as [| y ys];
        [destruct Hnil as [Hnil _]; by specialize (Hnil eq_refl) |].
      rewrite <- app_assoc. do 2 f_equal. unfold feedback_heading. f_equal.
      apply map_ext. by intros [k n]. }
  destruct Hout as [before Hout]. exists before, listing.
  split; [exact Hout |]. split; [| split; [| split; [| split]]].
  - unfold listing, Counter.most_common_n. rewrite length_take. lia.
  - unfold listing, Counter.most_common_n.
    assert (Hnd : NoDup (map fst (Counter.most_common (counter_of inputs)))).
    { rewrite most_common_perm. apply counter_of_NoDup. }
    rewrite <- (take_drop 5 (Counter.most_common (counter_of inputs))) in Hnd.
    rewrite map_app in Hnd. by apply NoDup_app in Hnd as [? _].
  - intros input n Hin. apply Hsub in Hin.
    pose proof (elem_keys _ _ _ Hin) as Hk. apply counter_of_keys in Hk.
    apply counter_of_elem in Hin as [Hpos Hn].
    unfold inputs in Hn. rewrite feedback_records_count in Hn.
    split; [| by split].
    unfold inputs in Hk. apply list_elem_of_In, in_map_iff in Hk
      as (log & <- & Hlog).
    apply list_elem_of_In, list_elem_of_filter in Hlog as [[Hc _] _]. exact Hc.
  - assert (Hnil : listing = [] ↔ inputs = []).
    { unfold listing. rewrite most_common_n_nil by lia.
      apply counter_of_nil. }
    rewrite Hnil. unfold inputs. split.
    + intros H log Hin Hc.
      assert (Hf : log ∈ filter counted_feedback all)
        by (by apply list_elem_of_filter).
      apply (f_equal length) in H. rewrite length_map in H.
      destruct (filter counted_feedback all); [by apply elem_of_nil in Hf |].
      discriminate H.
    + intros H.
      destruct (filter counted_feedback all) as [| log rest] eqn:E;
        [reflexivity |].
      exfalso.
      assert (Hf : log ∈ filter counted_feedback all) by (rewrite E; left).
      apply list_elem_of_filter in Hf as [Hc Hin]. by apply (H log Hin).
  - unfold listing, Counter.most_common_n.
    pose proof (most_common_sorted (counter_of inputs)) as Hs.
    rewrite <- (take_drop 5 (Counter.most_common (counter_of inputs))) in Hs.
    by apply StronglySorted_app_1_l in Hs.
Qed.

Lemma analysis_feedback_section_witness :
  let logs :=
    [ set_feedback (Some "skipped")
        (Sample.refusal "2024-05-01T10:00:00" "Track bus 42");
      set_feedback (Some "wrong answer")
        (Sample.refusal "2024-05-01T10:05:00" "college news") ] in
  logs ≠ []
  ∧ feedback_records logs "track bus 42" = 0%nat
  ∧ feedback_records logs "college news" = 1%nat
  ∧ ∃ before listing,
      analysis_output (analyze_lines logs)
      = before
        ++ match listing with
           | [] => []
           | _ => feedback_heading :: map feedback_line listing
           end
        ++ [ "--- Analysis Complete ---" ]
      ∧ (length listing ≤ 5)%nat.
Proof.
  intros logs.
  assert (H : logs ≠ []) by discriminate.
  split; [exact H |]. split; [reflexivity |]. split; [reflexivity |].
  destruct (analysis_feedback_section logs H)
    as (before & listing & H1 & H2 & _).
  by exists before, listing.
Defined.

(** ** The prompt of the page *)

Lemma concat_snoc (sep x : string) (l : list string) :
  ∃ head, String.concat sep (l ++ [x]) = head +:+ x.
Proof.
  induction l as [| y l IH]; [by exists EmptyString |].
  destruct IH as [head IH].
  destruct l as [| z l].
  - exists (y +:+ sep). simpl. by rewrite append_assoc.
  - exists (y +:+ sep +:+ head).
    change (String.concat sep ((y :: z :: l) ++ [x]))
      with (y +:+ sep +:+ String.concat sep ((z :: l) ++ [x])).
    by rewrite IH, !append_assoc.
Qed.

(** X26: the page calls [generate_response] with the conversation to
    which it has just appended the message typed, so the prompt sent to
    the model ends with that message twice: once as the last turn of the
    context and once as the input. *)
Theorem page_prompt_repeats_input (prompt : string) (messages : list message) :
  ∃ head,
    prompt_for_genai prompt (messages ++ [ Message "user" prompt ])
    = head +:+ "user: " +:+ prompt +:+ Py.newline +:+ "user: " +:+ prompt.
Proof.
  unfold prompt_for_genai, context_history, Py.join.
  rewrite length_app. simpl.
  rewrite drop_app_le by lia. rewrite !map_app. simpl.
  destruct (concat_snoc Py.newline ("user" +:+ ": " +:+ prompt)
              (map (fun msg => role msg +:+ ": " +:+ content msg)
                 (map (fun msg =>
                         Message (if String.eqb (role msg) "assistant"
                                  then "model" else role msg) (content msg))
                      (drop (length messages + 1 - 5) messages))))
    as [head Hhead].
  exists head. rewrite Hhead. by rewrite !append_assoc.
Qed.

(** ** What a failing write does *)

Section FailingWrite.

Variable dumps : document → string.

(** X27: [save_json_robust] returns true or is left by the exception of
    [st.toast]; it never returns false. So [log_error] never returns
    [None], [clear_log_file_data] and [reset_knowledge_data] never return
    false, [add_feedback_to_log] returns false for an index out of range
    only, and [add_learned_knowledge] for an empty keyword or response
    only. *)
Theorem save_json_robust_never_false
    (w : write_outcome) (self : chatbot) (fs : gmap string string) :
  (∀ filename data,
     (save_json_robust dumps w filename data fs).2
     = if persisted w then Returns true else Raises StreamlitAPIException)
  ∧ (∀ now user_input bot_response error_type confidence genai_error,
       (log_error dumps now w user_input bot_response error_type confidence
                  genai_error self fs).1.1 ≠ Returns None)
  ∧ (clear_log_file_data dumps w self fs).1.1 ≠ Returns false
  ∧ (reset_knowledge_data dumps w self fs).1.1 ≠ Returns false
  ∧ (∀ log_index feedback,
       (add_feedback_to_log dumps w log_index feedback self fs).1.1
       = Returns false
       ↔ (log_index < 0 ∨ Z.of_nat (length (error_logs self)) ≤ log_index)%Z)
  ∧ (∀ keyword response,
       (add_learned_knowledge dumps w keyword response self fs).1.1
       = Returns false
       ↔ keyword = EmptyString ∨ response = EmptyString).
Proof.
  split; [intros; apply save_json_robust_result |].
  split; [intros; rewrite log_error_eq; by destruct w |].
  split; [unfold clear_log_file_data; by destruct w |].
  split; [unfold reset_knowledge_data; by destruct w |].
  split.
  - intros log_index feedback. rewrite add_feedback_to_log_eq.
    case_decide as Hin; simpl.
    + split; [by destruct w | lia].
    + split; [lia | done].
  - intros keyword response.
    destruct (decide (keyword = EmptyString ∨ response = EmptyString))
      as [Hempty | Hfull].
    + by rewrite (add_learned_knowledge_rejects_empty dumps w _ _ self fs Hempty).
    + assert (Hk : keyword ≠ EmptyString) by tauto.
      assert (Hr : response ≠ EmptyString) by tauto.
      rewrite (add_learned_knowledge_stores dumps w _ _ self fs Hk Hr).
      simpl. split; [by destruct w | tauto].
Qed.

End FailingWrite.

(** ** The toasts of the page *)

Section PageToasts.

Variable dumps : document → string.

(** X28: a run of the page that reaches one of its [st.toast] calls
    stops there on the exception, before the assignments that follow it.
    "Analyze Errors" stops after the results and the candidate are
    stored. A confirmed "Yes, Clear Log" empties the log and a confirmed
    "Yes, Reset KB" resets the knowledge base, whatever the write does,
    and the confirmation stays pending. "Skip Learning" changes
    nothing: the candidate stays. *)
Theorem page_toast_stops (s : session) (fs : gmap string string)
    (w : write_outcome) :
  (let run := page_script dumps (s, fs) AnalyzeErrors in
   run.1.1 = Stopped StreamlitAPIException
   ∧ ss_analysis_results run.1.2 = Some (analyze_errors (ss_chatbot s)).1
   ∧ ss_learning_candidate run.1.2 = (analyze_errors (ss_chatbot s)).2)
  ∧ (ss_confirm_clear_log s = true →
     let run := page_script dumps (s, fs) (YesClearLog w) in
     run.1.1 = Stopped StreamlitAPIException
     ∧ error_logs (ss_chatbot run.1.2) = []
     ∧ ss_confirm_clear_log run.1.2 = true
     ∧ ss_show_log run.1.2 = ss_show_log s)
  ∧ (ss_confirm_reset_kb s = true →
     let run := page_script dumps (s, fs) (YesResetKB w) in
     run.1.1 = Stopped StreamlitAPIException
     ∧ learned_knowledge (ss_chatbot run.1.2) = DEFAULT_KNOWLEDGE
     ∧ ss_confirm_reset_kb run.1.2 = true)
  ∧ (learning_shown s = true →
     page_script dumps (s, fs) SkipLearning
     = (Stopped StreamlitAPIException, s, fs)).
Proof.
  destruct s as [bot msgs last fr cand res ccl crk show conf].
  unfold page_script. toast_raises. simpl.
  split; [by unfold analyze_errors |].
  split; [intros ->; unfold clear_log_file_data; by destruct w |].
  split; [intros ->; unfold reset_knowledge_data; by destruct w |].
  by intros ->.
Qed.

End PageToasts.

Lemma page_toast_stops_witness :
  let s :=
    Session (with_logs [Sample.refusal "2024-05-01T10:00:00" "Track bus 42"]
                       Sample.bot)
            [] None false None None true false true true in
  let run := page_script Sample.dumps (s, ∅) (YesClearLog WriteOk) in
  ss_confirm_clear_log s = true
  ∧ run.1.1 = Stopped StreamlitAPIException
  ∧ error_logs (ss_chatbot run.1.2) = []
  ∧ ss_confirm_clear_log run.1.2 = true
  ∧ run.2 !! LOG_FILE = Some "[]".
Proof.
  intros s run.
  destruct (page_toast_stops Sample.dumps s ∅ WriteOk) as (_ & Hclear & _).
  destruct (Hclear eq_refl) as (Hend & Hlogs & Hflag & _).
  split; [reflexivity |]. split; [exact Hend |]. split; [exact Hlogs |].
  split; [exact Hflag | reflexivity].
Defined.
